(* ===== verification/_CoqProject ===== *)
-Q . S2P
Prelude.v
JsNum.v
JsText.v
JsMap.v
Schema.v
Cart.v
Checkout.v
Storage.v
Http.v
Routes.v
Auth.v
Filter.v
Admin.v
Storefront.v
System.v
Views.v
ScrollLock.v
