(* ===== verification/Prelude.v ===== *)
(** * A verification development of the Provising-System storefront

    The program is a web shop in TypeScript: a React client
    (src/client/src), an Express server (src/server) and the shared data
    model src/shared/schema.ts.  The client keeps a shopping cart in a
    React context persisted to localStorage
    (src/client/src/contexts/CartContext.tsx).  The checkout page
    (src/client/src/pages/Checkout.tsx) computes a total with one shipping
    fee per supplier chosen and posts an order to the server.  The server's
    routes (src/server/routes.ts, src/server/auth.ts) validate request
    bodies with the drizzle-zod schemas and read and write an in-memory
    store, [MemStorage] of src/server/storage.ts, through the interface
    [IStorage].  Passport sessions decide who may call the order and admin
    routes.  The home page (src/client/src/pages/Home.tsx with
    src/client/src/hooks/useFilteredProducts.ts) fetches the products from
    the server and filters and sorts them; its components
    (src/client/src/components) show the cards, the cart drawer and the
    filter inputs.  The admin page (src/client/src/pages/AdminDashboard.tsx)
    lists the orders and changes their status.

    ** Files, in dependency order

    - [Prelude] (this file) holds what the components share: the array
      built-ins [findIndex] and [some], [update_nth] ([arr[i] = f(arr[i])]),
      list lemmas, the tactics [invert], [case_if] and [bool_prop], and the
      hint databases [shop] and [shop_bool].
    - [JsNum] covers JS numbers.  A value is a finite rational, an
      infinity or NaN, with IEEE addition and multiplication on the special
      values.  It also has [parseFloat], [parseInt], [Number::toString] and
      [toFixed], with setoid rewriting on numerical equality.
    - [JsText] proves that [parseInt] and [parseFloat] read back what
      [Number::toString] prints for an integer below 10^21, and how many
      characters it prints: an order id goes into a URL and comes back out
      of [req.params.id], and a filter goes into an input and back.  It
      also proves that [toFixed(2)] of [parseFloat] gives back a price
      written as dollars and two digits of cents ([money]).
    - [JsMap] is the JS [Map] with insertion order, as the store uses it.
    - [Schema] holds the records and constants of schema.ts.
    - [Cart], Module [CartContext], models CartContext.tsx.  It has one
      definition per handler of the provider ([addToCart],
      [removeFromCart], [setQuantity] with the guard of [updateQuantity] in
      [step], [updateSupplier], [clearCart]) and the effects that load and
      save the snapshot ([mount], [persist]).  The reachable states come
      from an inductive [reachable].  The context is also an interface: the
      class [CartContextType] with its laws [CartContextLaws], and the
      provider as an instance of it.
    - [Checkout], Module [Checkout], models Checkout.tsx:
      [calculateTotalWithShipping], [handleSubmit] with its early returns
      and its payload, and the page as a state machine [page_step] over
      supplier choices, the form's handlers, clicks on Place Order and
      request outcomes.  The page is written against the cart context
      interface only.
    - [Storage], Module [Storage], models every method of [MemStorage], the
      constructor's seeding, and the class [IStorage] (the TS interface).
      The class [IStorageLaws] states what the routes rely on, and the
      in-memory store discharges it under its invariant [mem_ok].
    - [Http] models JSON bodies, the body spread [{ ...req.body, k: v }],
      the parsing of the three insert schemas, and responses.
    - [Routes], Module [Routes], models every handler of
      [registerRoutes] with its middleware and status codes, and the
      dispatcher [route].  The handlers are generic over [IStorage], and
      their theorems are proved from [IStorageLaws].
    - [Auth], Module [Auth], models [hashPassword] and [comparePasswords]
      (scrypt is a parameter, the hex codec and [split(".")] are written
      out), the passport local strategy, register, login, logout and
      /api/user over a session holding a user id, and [ProtectedRoute].
    - [Filter], Module [ProductFilter], models the hook
      [useFilteredProducts] (a stable [sort]), the filter state of Home and
      FilterSidebar's price inputs.  It fetches products through
      [Routes.route].
    - [Admin], Module [AdminDashboard], models the admin page
      (src/client/src/pages/AdminDashboard.tsx): its state with the
      react-query caches of the order list and of each order's details,
      its handlers, [handleStatusChange], the search, and the status
      mutation with [onSuccess] and [onError].  [sys_step] runs the two
      queries and the mutation against [Routes.route], so one step is a
      request with its answer.
    - [Storefront], Module [Storefront], models the storefront's
      components: ProductCard's [renderStars] (its two [for] loops as
      functions with fuel), ProductGrid's "Load more", CartIcon's badge,
      CartDrawer's buttons on the cart context (through the class
      [CartDrawerLaws]), Header, and the local input state of
      FilterSidebar and MobileFilters composed with the filters of Home
      ([homePage_step]).
    - [System], Module [Shop], joins the parts on the order path: the
      checkout page's request ([payloadJson], [settleOrder]) goes through
      [Routes.route] to the store, and the admin dashboard loads the list.
    - [Views], Module [StoreViews], models what the storefront renders:
      ProductCard's card ([cardView]), CartDrawer's lines and subtotal
      with its [formatPrice] ([drawerView]), and the checkout page's
      [SupplierRating] stars.  A view is a record of the texts and flags
      the markup shows.
    - [ScrollLock], Module [ScrollLock], adds the body's [overflow] style
      to Home's page state: MobileFilters' effect sets it on mount and its
      cleanup on unmount ([doc_step]).

    ** What the theorems show

    - Cart: every reachable provider state has a total equal to
      [calculateTotal] of its lines, quantities of at least 1 and one line
      per product, and localStorage holds that cart ([reachable_cart_wf],
      by rule induction).  Line ids are not distinct in general: two
      products added in the same millisecond share one, and removing it
      removes both ([same_clock_lines_share_id]).  There is one theorem per
      handler.  Load and save run in order on mount.
    - Checkout: shipping is one fee per distinct supplier, whatever the
      order and repetition of the lines.  There are the submit guards and payload, and safety and liveness of
      the page state machine (one request in flight; choosing suppliers
      unblocks submission).  The form's handlers: the 10MB bound of the
      file input, [documentName] always names the selected file, and a
      document type once chosen cannot be cleared.
    - Orders: the full behaviour of POST /api/orders against the storage
      laws, PATCH of a status, and the 403 of the admin routes.  Every
      answer of the routes is typed as the client reads it (a known
      status, a message body exactly on an error status).  The
      findings are that order creation is not atomic, that the client
      chooses the initial status, and that any status string is accepted.
    - Auth: hashing round-trips through the stored format.  Register then
      login behaves as specified.  Any client can register an admin.  The
      client's admin gate agrees with the server's.  The four auth routes
      keep the answer contract of the other routes except GET /api/user,
      whose 401 carries no JSON message ([auth_responses_typed]).
    - Filters: the grid is exactly the products the filters keep.
      Price-asc is sorted and stable.  Reset shows the catalogue.  The
      sidebar categories do not match the seeded data.  An unparsable
      minimum price hides everything.
    - Admin page: every run of the page against the server keeps the store
      invariant and relates the page's list cache to the store's list
      ([dashboard_list_refines], by rule induction on [sys_reachable]).  A
      status outside ORDER_STATUSES is never sent.  The search finds an
      order by its id.  Two findings: after a status change the details
      card loses the order's items, and a change settled before the list
      loads empties the list.
    - The order path ([order_placed_end_to_end]): a buyer's Place Order
      is stored as a pending order whose amount is the total the page
      showed, with one item per cart line; the page clears the cart; the
      admin's next list load shows the order.
    - Storefront: the star loops end for unparsable ratings and ratings
      between -2^52 and 2^52, and never end for a rating that reads as an
      infinity ("Infinity", "1e400") or lies beyond 2^53 + 2 or -2^53,
      where the counter [i++] stops at 2^53; an anonymous POST
      /api/products with rating "Infinity" freezes the home page; a rating in [0, 5] shows five
      stars; "Load more" shows every product after enough rounds; the
      drawer keeps the cart well formed; the badge has at most three
      characters; the mobile filters read back the filters they show; the
      sidebar's inputs survive a reset.
    - Views and scroll lock: a click on a card's button puts a line in the
      cart whose price the drawer shows as the card shows it
      ([card_price_shown_in_drawer], for prices with two decimals); the
      drawer shows the subtotal and the lines of the checkout page's order
      summary ([drawer_agrees_with_checkout]); the supplier rating lights [floor(rating)] stars clamped to 0..5; the
      body cannot scroll exactly while the mobile filters are open
      ([scroll_locked_iff_filters_open], by induction on the run).
    Each theorem with hypotheses has a witness that applies it to concrete
    data, mostly the store the server starts with ([Routes.store0]).

    ** Abstractions, bounds and fuel

    - Numbers are exact rationals, not binary64: sums of prices are exact
      (0.1 + 0.2 is 0.3, not 0.30000000000000004), and [toFixed] rounds
      the exact value half up (1.005 prints "1.01" where binary64 prints
      "1.00").  Two effects of binary64 are modelled because properties
      depend on them: a literal at or above [2^1024 - 2^970] reads as
      Infinity ([JsNum.of_literal]), and a loop counter [i++] stops at
      2^53 ([Storefront.js_incr]).  The claims are stated only where the
      exact and the binary64 values give the same result: no claim states
      an exact sum of prices, and printed prices are bounded (below).
    - Strings are ASCII ([toLowerCase] maps A-Z only).  Time ([Date.now()],
      [new Date()]) is an argument.  scrypt, [randomBytes] and
      [localeCompare] are parameters.
    - Each request handler runs to completion before the next one starts.
      The handlers await only the in-memory store, whose methods do not
      suspend, so interleaving at the await points is not modelled.
    - A stored [isAdmin] is the truthiness of the body's value, which is
      all its readers test.  Integer fields are checked to be integral;
      the int32 bounds of newer drizzle-zod releases are not checked.
    - The 500 branches of the routes are not modelled: no store method
      throws.  Express's own 404 is the [None] of [route].
    - Fuel: [ndigits_fuel] gets [log2 n + 1], which is at least the number
      of decimal digits.  [pow10_exp] gets the bit size of the
      denominator, which bounds the power of ten a denominator [2^a 5^b]
      needs.  [strip_zeros] gets [log2 m + 1].  Printing is exact for every
      value built from decimal strings by [+] and [*].
    - The loops of [renderStars] get fuel as an argument: [floor(r)] and
      [5 - floor(r) - half] iterations are enough for a rating [r] between
      -2^52 and 2^52; for a rating that reads as an infinity, or beyond
      2^53 + 2 or -2^53, no fuel is ([renderStars_terminates]).
    - Prices read and printed by [formatPrice] in the claims are below
      10^13 dollars: below 2^46 half an ulp of binary64 is less than half
      a cent, so [toFixed(2)] of the double nearest the price gives its
      digits back, as the exact model does.
    - Order ids in the admin page's URLs are below 10^21, where
      [String(id)] has no exponent and [parseInt] reads it back
      ([JsText.parseInt_numberToString]); [sys_reachable] requires it of
      the id a pending mutation will send.

    ** Not modelled

    Icons, images and CSS classes of the markup are not modelled, except
    the badge colour of a card.  The static Footer and ProductSkeleton are
    not modelled: they have no state, every link of the footer points to
    "#", and its newsletter form has no handler (a finding).  Also not
    modelled: [formatDate] of the admin page (it prints with the locale of
    the browser) and its redirect effect, the content of an uploaded file,
    the HTML validation of the checkout form's inputs, the express-session
    options of [setupAuth] (cookie lifetime, session store) and the
    toasts other than the admin page's title.
*)

From Stdlib Require Import ZArith List Bool Lia.
Import ListNotations.
Open Scope Z_scope.

Declare Scope shop_scope.
Delimit Scope shop_scope with shop.

Create HintDb shop.
Create Rewrite HintDb shop_bool.

(** ** Tactics shared by the development *)

Ltac invert H := inversion H; subst; clear H.

(** Case analysis on the first [if] of the goal, keeping its equation. *)
Ltac case_if :=
  match goal with
  | |- context [if ?b then _ else _] => let E := fresh "E" in destruct b eqn:E
  end.

Ltac case_if_in H :=
  match type of H with
  | context [if ?b then _ else _] => let E := fresh "E" in destruct b eqn:E
  end.

(** Turn the boolean tests of the code into propositions. *)
Ltac bool_prop := autorewrite with shop_bool in *.

#[export] Hint Rewrite Z.eqb_eq Z.eqb_neq Z.ltb_lt Z.ltb_ge Z.leb_le Z.leb_gt
  andb_true_iff andb_false_iff orb_true_iff orb_false_iff
  negb_true_iff negb_false_iff : shop_bool.

(** ** JS array built-ins

    [Array.prototype.findIndex] returns the index of the first element that
    satisfies the predicate, and -1 when there is none;
    [Array.prototype.some] is [existsb]; [Array.prototype.find] is
    [List.find]. *)

Fixpoint findIndex_from {A} (p : A -> bool) (l : list A) (i : Z) : Z :=
  match l with
  | [] => -1
  | x :: l' => if p x then i else findIndex_from p l' (i + 1)
  end.

Definition findIndex {A} (p : A -> bool) (l : list A) : Z := findIndex_from p l 0.

Definition some {A} (p : A -> bool) (l : list A) : bool := existsb p l.

(** ** Generic lemmas *)

Section FindIndex.
Context {A : Type} (p : A -> bool).

Lemma findIndex_from_none (l : list A) (i : Z) :
  (forall x, In x l -> p x = false) -> findIndex_from p l i = -1.
Proof.
  revert i; induction l as [|x l IH]; intros i H; simpl; [reflexivity|].
  rewrite (H x (or_introl eq_refl)). apply IH. intros y Hy. apply H. now right.
Qed.

Lemma findIndex_from_cases (l : list A) (i : Z) :
  findIndex_from p l i = -1 /\ (forall x, In x l -> p x = false)
  \/ exists n x, findIndex_from p l i = i + Z.of_nat n /\ nth_error l n = Some x
                 /\ p x = true
                 /\ (forall m y, (m < n)%nat -> nth_error l m = Some y -> p y = false).
Proof.
  revert i; induction l as [|x l IH]; intros i; simpl.
  - left. split; [reflexivity | tauto].
  - destruct (p x) eqn:Hx.
    + right. exists 0%nat, x. repeat split; [lia | assumption |].
      intros m y Hm. lia.
    + destruct (IH (i + 1)) as [[H1 H2] | (n & y & H1 & H2 & H3 & H4)].
      * left. split; [assumption|]. intros z [<- | Hz]; auto.
      * right. exists (S n), y. repeat split; [lia | assumption | assumption |].
        intros [|m] z Hm Hz; simpl in Hz; [congruence|].
        apply (H4 m z); [lia | assumption].
Qed.

Lemma findIndex_cases (l : list A) :
  findIndex p l = -1 /\ (forall x, In x l -> p x = false)
  \/ exists n x, findIndex p l = Z.of_nat n /\ nth_error l n = Some x /\ p x = true
                 /\ (forall m y, (m < n)%nat -> nth_error l m = Some y -> p y = false).
Proof. apply findIndex_from_cases. Qed.

Lemma findIndex_neg_iff (l : list A) :
  findIndex p l < 0 <-> forall x, In x l -> p x = false.
Proof.
  destruct (findIndex_cases l) as [[-> H] | (n & x & -> & Hn & Hx & _)].
  - split; [auto | lia].
  - split; [lia|]. intros H. apply nth_error_In in Hn. rewrite (H x Hn) in Hx. discriminate.
Qed.
End FindIndex.

Lemma some_false_iff {A} (p : A -> bool) (l : list A) :
  some p l = false <-> forall x, In x l -> p x = false.
Proof.
  unfold some. induction l as [|x l IH]; simpl; [tauto|].
  rewrite orb_false_iff, IH. split.
  - intros [Hx Hl] y [<- | Hy]; auto.
  - intros H. split; auto.
Qed.

Lemma some_true_iff {A} (p : A -> bool) (l : list A) :
  some p l = true <-> exists x, In x l /\ p x = true.
Proof. apply existsb_exists. Qed.

(** ** Lists updated in place

    [update_nth f n arr] is [arr[n] = f(arr[n])] on a copy of [arr].  The
    source only updates indexes that [findIndex] returned, which are in
    range; out of range the model leaves the list as it is. *)

Fixpoint update_nth {A} (f : A -> A) (n : nat) (l : list A) : list A :=
  match l, n with
  | [], _ => []
  | x :: l', O => f x :: l'
  | x :: l', S n' => x :: update_nth f n' l'
  end.

(** [map f] and [update_nth f n] keep every field that [f] keeps. *)

Section FieldPreserving.
Context {A B : Type} (g : A -> B) (f : A -> A).
Hypothesis Hfg : forall x, g (f x) = g x.

Lemma map_map_proj (l : list A) : map g (map f l) = map g l.
Proof. induction l as [|x l IH]; simpl; [reflexivity|]. now rewrite Hfg, IH. Qed.

Lemma map_update_nth_proj (n : nat) (l : list A) : map g (update_nth f n l) = map g l.
Proof.
  revert n; induction l as [|x l IH]; intros [|n]; simpl; try reflexivity.
  - now rewrite Hfg.
  - now rewrite IH.
Qed.
End FieldPreserving.

Lemma NoDup_map_filter {A B} (g : A -> B) (p : A -> bool) (l : list A) :
  NoDup (map g l) -> NoDup (map g (filter p l)).
Proof.
  induction l as [|x l IH]; simpl; intros H; [constructor|].
  apply NoDup_cons_iff in H as [Hx Hl]. destruct (p x); simpl; auto.
  constructor; auto. intros Hin. apply Hx.
  apply in_map_iff in Hin as (y & <- & Hy). apply in_map. now apply filter_In in Hy.
Qed.

Lemma NoDup_app_fresh {A} (l : list A) (x : A) :
  NoDup l -> ~ In x l -> NoDup (l ++ [x]).
Proof.
  induction l as [|y l IH]; simpl; intros Hl Hx.
  - constructor; [tauto | constructor].
  - apply NoDup_cons_iff in Hl as [Hy Hl]. constructor.
    + rewrite in_app_iff. intros [H | [<- | []]]; tauto.
    + apply IH; tauto.
Qed.

(** [arr[n] = f(arr[n])] on an in-range [n]: the n-th element is replaced. *)
Lemma nth_error_update_nth_eq {A} (f : A -> A) (n : nat) (l : list A) (x : A) :
  nth_error l n = Some x -> nth_error (update_nth f n l) n = Some (f x).
Proof.
  revert n; induction l as [|y l IH]; intros [|n] H; simpl in *; try discriminate.
  - now injection H as ->.
  - now apply IH.
Qed.

Lemma nth_error_update_nth_ne {A} (f : A -> A) (n m : nat) (l : list A) :
  n <> m -> nth_error (update_nth f n l) m = nth_error l m.
Proof.
  revert n m; induction l as [|y l IH]; intros [|n] [|m] H; simpl; try reflexivity.
  - congruence.
  - apply IH. lia.
Qed.

Lemma length_update_nth {A} (f : A -> A) (n : nat) (l : list A) :
  length (update_nth f n l) = length l.
Proof. revert n; induction l as [|x l IH]; intros [|n]; simpl; auto. Qed.

Lemma Forall_update_nth {A} (P : A -> Prop) (f : A -> A) (n : nat) (l : list A) :
  Forall P l -> (forall x, P x -> P (f x)) -> Forall P (update_nth f n l).
Proof.
  intros Hl Hf. revert n; induction Hl as [|x l Hx Hl IH]; intros [|n]; simpl;
    constructor; auto.
Qed.

#[export] Hint Resolve NoDup_map_filter NoDup_app_fresh : shop.

Lemma findIndex_from_app_none {A} (p : A -> bool) (l r : list A) (i : Z) :
  (forall x, In x l -> p x = false) ->
  findIndex_from p (l ++ r) i = findIndex_from p r (i + Z.of_nat (length l)).
Proof.
  revert i; induction l as [|x l IH]; intros i H; simpl.
  - now rewrite Z.add_0_r.
  - rewrite (H x (or_introl eq_refl)), IH by (intros y Hy; apply H; now right).
    f_equal. lia.
Qed.

Lemma update_nth_app_len {A} (f : A -> A) (l r : list A) (x : A) :
  update_nth f (length l) (l ++ x :: r) = l ++ f x :: r.
Proof. induction l as [|y l IH]; simpl; now f_equal. Qed.

(** [xs.reduce((t, x) => t + g(x), a)] on integers. *)
Section IntSum.
Context {A : Type} (g : A -> Z).

Lemma fold_sumZ_acc (l : list A) (a : Z) :
  fold_left (fun t x => t + g x) l a = a + fold_left (fun t x => t + g x) l 0.
Proof.
  revert a; induction l as [|x l IH]; intros a; cbn [fold_left]; [lia|].
  rewrite IH, (IH (0 + g x)). lia.
Qed.

Lemma fold_sumZ_app (l r : list A) :
  fold_left (fun t x => t + g x) (l ++ r) 0
  = fold_left (fun t x => t + g x) l 0 + fold_left (fun t x => t + g x) r 0.
Proof. rewrite fold_left_app. apply fold_sumZ_acc. Qed.

(** Changing one element in range moves the sum by that element's change. *)
Lemma fold_sumZ_update_nth (f : A -> A) (d : Z) (n : nat) (l : list A) :
  (n < length l)%nat -> (forall x, g (f x) = g x + d) ->
  fold_left (fun t x => t + g x) (update_nth f n l) 0
  = fold_left (fun t x => t + g x) l 0 + d.
Proof.
  intros Hn Hf. revert n Hn; induction l as [|x l IH]; intros [|n] Hn;
    cbn [update_nth fold_left length] in *; try lia.
  - rewrite (fold_sumZ_acc l (0 + g (f x))), (fold_sumZ_acc l (0 + g x)), Hf. lia.
  - rewrite (fold_sumZ_acc (update_nth f n l)), IH by lia.
    rewrite (fold_sumZ_acc l (0 + g x)). lia.
Qed.
End IntSum.

Lemma filter_all_false {A} (p : A -> bool) (l : list A) :
  (forall x, In x l -> p x = false) -> filter p l = [].
Proof.
  induction l as [|x l IH]; intros H; simpl; [reflexivity|].
  rewrite (H x (or_introl eq_refl)). apply IH. intros y Hy. apply H. now right.
Qed.

Lemma existsb_Zeqb_In (x : Z) (l : list Z) : existsb (Z.eqb x) l = true <-> In x l.
Proof.
  rewrite existsb_exists. split.
  - intros (y & Hy & E). apply Z.eqb_eq in E. now subst.
  - intros H. exists x. split; [assumption | apply Z.eqb_refl].
Qed.
