(* ===== verification/JsNum.v ===== *)
(** JavaScript numbers as the storefront's pricing code uses them.

    A number is a finite value, +Infinity, -Infinity or NaN.  Finite values
    are exact rationals: the model keeps the decimal value of a price string
    and does not round to binary64 (see the header of [Prelude] for what
    this abstracts).  [add] and [mul] follow the IEEE rules for the special
    values; [sum_map] is [xs.reduce((s, x) => s + f(x), 0)]; [parseFloat]
    follows ECMA-262's StrDecimalLiteral grammar (longest decimal prefix after
    leading white space), and a literal too large for a double reads as
    Infinity ([of_literal]). *)

From Stdlib Require Import ZArith QArith Qround Qabs String Ascii List Bool Lia Setoid Morphisms Permutation.
From S2P Require Import Prelude.
Import ListNotations.

Module JsNum.

Inductive num : Type :=
| Fin (q : Q)
| PosInf
| NegInf
| NaN.

Definition of_Z (z : Z) : num := Fin (inject_Z z).

Definition neg (x : num) : num :=
  match x with
  | Fin q => Fin (- q)
  | PosInf => NegInf
  | NegInf => PosInf
  | NaN => NaN
  end.

(** [x + y] *)
Definition add (x y : num) : num :=
  match x, y with
  | NaN, _ | _, NaN => NaN
  | PosInf, NegInf | NegInf, PosInf => NaN
  | PosInf, _ | _, PosInf => PosInf
  | NegInf, _ | _, NegInf => NegInf
  | Fin a, Fin b => Fin (a + b)
  end.

(** An infinity times a finite value: NaN for zero, else by sign. *)
Definition inf_times (pos : bool) (a : Q) : num :=
  match Qcompare a 0 with
  | Eq => NaN
  | Gt => if pos then PosInf else NegInf
  | Lt => if pos then NegInf else PosInf
  end.

(** [x * y] *)
Definition mul (x y : num) : num :=
  match x, y with
  | NaN, _ | _, NaN => NaN
  | Fin a, Fin b => Fin (a * b)
  | Fin a, PosInf | PosInf, Fin a => inf_times true a
  | Fin a, NegInf | NegInf, Fin a => inf_times false a
  | PosInf, PosInf | NegInf, NegInf => PosInf
  | PosInf, NegInf | NegInf, PosInf => NegInf
  end.

Definition is_finite (x : num) : bool :=
  match x with Fin _ => true | _ => false end.

(** [xs.reduce((s, x) => s + f(x), 0)] *)
Definition sum_map {A} (f : A -> num) (l : list A) : num :=
  fold_left (fun s x => add s (f x)) l (Fin 0).

(** Equality of values: two finite numbers are the same number when their
    rationals are equal ([==]); this is coarser than [=] on [Q]. *)
Definition num_eq (x y : num) : Prop :=
  match x, y with
  | Fin a, Fin b => a == b
  | PosInf, PosInf | NegInf, NegInf | NaN, NaN => True
  | _, _ => False
  end.

Arguments num_eq : simpl never.

Definition num_eqb (x y : num) : bool :=
  match x, y with
  | Fin a, Fin b => Qeq_bool a b
  | PosInf, PosInf | NegInf, NegInf | NaN, NaN => true
  | _, _ => false
  end.

Declare Scope num_scope.
Delimit Scope num_scope with num.
Infix "+" := add : num_scope.
Infix "*" := mul : num_scope.
Infix "≈" := num_eq (at level 70, no associativity) : num_scope.
Open Scope num_scope.

(** ** parseFloat *)

Definition is_ws (c : ascii) : bool :=
  match nat_of_ascii c with
  | 9 | 10 | 11 | 12 | 13 | 32 | 160 => true
  | _ => false
  end%nat.

Fixpoint trimStart (s : string) : string :=
  match s with
  | EmptyString => EmptyString
  | String c s' => if is_ws c then trimStart s' else s
  end.

Definition digit_val (c : ascii) : option Z :=
  let n := nat_of_ascii c in
  if (48 <=? n)%nat && (n <=? 57)%nat then Some (Z.of_nat n - 48)%Z else None.

(** The longest run of decimal digits: its value appended to [acc], how many
    digits it had, and the rest of the string. *)
Fixpoint digits (s : string) (acc : Z) (k : nat) : Z * nat * string :=
  match s with
  | String c s' =>
      match digit_val c with
      | Some d => digits s' (acc * 10 + d)%Z (S k)
      | None => (acc, k, s)
      end
  | EmptyString => (acc, k, EmptyString)
  end.

(** ExponentPart, when a complete one starts the string; 0 otherwise (an
    incomplete exponent such as "e" or "e+" is not part of the prefix). *)
Definition exponent (s : string) : Z :=
  match s with
  | String c s' =>
      if Ascii.eqb c "e" || Ascii.eqb c "E" then
        let '(sg, r) :=
          match s' with
          | String c' r' =>
              if Ascii.eqb c' "+" then (1%Z, r')
              else if Ascii.eqb c' "-" then ((-1)%Z, r') else (1%Z, s')
          | EmptyString => (1%Z, s')
          end in
        let '(e, k, _) := digits r 0 0 in
        if (k =? 0)%nat then 0%Z else (sg * e)%Z
      else 0%Z
  | EmptyString => 0%Z
  end.

(** [m * 10^e] as an exact rational. *)
Definition scale (m e : Z) : Q :=
  if (0 <=? e)%Z then inject_Z (m * 10 ^ e) else m # Z.to_pos (10 ^ (- e)).

(** The value a non-negative literal reads as.  Binary64 has no finite
    value at or above [2^1024 - 2^970], the largest finite double plus half
    an ulp: such a literal (e.g. "1e400") reads as Infinity.  Below it the
    value is kept exact (the rounding to 53 bits is not modelled). *)
Definition overflow_bound : Q :=
  inject_Z 179769313486231580793728971405303415079934132710037826936173778980444968292764750946649017977587207096330286416692887910946555547851940402630657488671505820681908902000708383676273854845817711531764475730270069855571366959622842914819860834936475292719074168444365510704342711559699508093042880177904174497792%Z.

Definition of_literal (q : Q) : num :=
  if Qle_bool overflow_bound q then PosInf else Fin q.

(** StrUnsignedDecimalLiteral, longest prefix: [None] when no prefix of
    the string is one. *)
Definition parse_unsigned (s : string) : option num :=
  if String.prefix "Infinity" s then Some PosInf else
  let '(m1, k1, r1) := digits s 0 0 in
  let '(m2, k2, r2) :=
    match r1 with
    | String c r => if Ascii.eqb c "." then digits r m1 0 else (m1, 0%nat, r1)
    | EmptyString => (m1, 0%nat, r1)
    end in
  if (k1 + k2 =? 0)%nat then None
  else Some (of_literal (scale m2 (exponent r2 - Z.of_nat k2))).

Definition parseFloat (s : string) : num :=
  match trimStart s with
  | EmptyString => NaN
  | String c r as t =>
      if Ascii.eqb c "-" then
        match parse_unsigned r with Some v => neg v | None => NaN end
      else if Ascii.eqb c "+" then
        match parse_unsigned r with Some v => v | None => NaN end
      else
        match parse_unsigned t with Some v => v | None => NaN end
  end.

(** ** parseInt *)

Definition hex_val (c : ascii) : option Z :=
  match digit_val c with
  | Some d => Some d
  | None =>
      let n := nat_of_ascii c in
      if (97 <=? n)%nat && (n <=? 102)%nat then Some (Z.of_nat n - 87)%Z
      else if (65 <=? n)%nat && (n <=? 70)%nat then Some (Z.of_nat n - 55)%Z
      else None
  end.

(** The longest run of hexadecimal digits, as [digits] does for decimal. *)
Fixpoint hex_digits (s : string) (acc : Z) (k : nat) : Z * nat :=
  match s with
  | String c s' =>
      match hex_val c with
      | Some d => hex_digits s' (acc * 16 + d)%Z (S k)
      | None => (acc, k)
      end
  | EmptyString => (acc, k)
  end.

(** [parseInt(s)] without a radix (ECMA-262 19.2.5): leading white space, a
    sign, a "0x" prefix switching to radix 16, then the longest run of
    digits.  It returns an integer or NaN; [None] stands for NaN (and -0 is
    0, the same key for a Map). *)
Definition parseInt (s : string) : option Z :=
  let t := trimStart s in
  let '(sign, r) :=
    match t with
    | String c r' =>
        if Ascii.eqb c "-" then ((-1)%Z, r') else if Ascii.eqb c "+" then (1%Z, r') else (1%Z, t)
    | EmptyString => (1%Z, t)
    end in
  let '(v, k) :=
    match r with
    | String "0" (String x r') =>
        if Ascii.eqb x "x" || Ascii.eqb x "X" then hex_digits r' 0 0
        else let '(v, k, _) := digits r 0 0 in (v, k)
    | _ => let '(v, k, _) := digits r 0 0 in (v, k)
    end in
  if (k =? 0)%nat then None else Some (sign * v)%Z.

(** ** Printing: Number::toString and Number.prototype.toFixed *)

Section Printing.
Local Open Scope string_scope.

Definition digit_char (d : Z) : ascii := ascii_of_nat (48 + Z.to_nat d).

(** The last [f] decimal digits of [v], zero-padded to exactly [f] characters. *)
Fixpoint pad (f : nat) (v : Z) : string :=
  match f with
  | O => EmptyString
  | S f' => (pad f' (v / 10) ++ String (digit_char (v mod 10)) EmptyString)%string
  end.

Fixpoint ndigits_fuel (fuel : nat) (n : Z) : nat :=
  match fuel with
  | O => 1
  | S f => if (n <? 10)%Z then 1 else S (ndigits_fuel f (n / 10))
  end.

(** How many decimal digits [n >= 0] has (one for 0). *)
Definition ndigits (n : Z) : nat := ndigits_fuel (S (Z.to_nat (Z.log2 n))) n.

(** The decimal digits of [n >= 0]. *)
Definition show_Z (n : Z) : string := pad (ndigits n) n.

Fixpoint zeros (k : nat) : string :=
  match k with O => EmptyString | S k' => String "0" (zeros k') end.

(** The least [j <= fuel] with [d | p * 10^j]. *)
Fixpoint pow10_exp (fuel : nat) (p d j : Z) : Z :=
  match fuel with
  | O => j
  | S f => if ((p * 10 ^ j) mod d =? 0)%Z then j else pow10_exp f p d (j + 1)
  end.

(** [(m, t)] with [n = m * 10^t] and [m] not a multiple of 10. *)
Fixpoint strip_zeros (fuel : nat) (n t : Z) : Z * Z :=
  match fuel with
  | O => (n, t)
  | S f => if (n mod 10 =? 0)%Z then strip_zeros f (n / 10) (t + 1) else (n, t)
  end.

(** A positive value as [s * 10^e] with the fewest digits in [s].  Values
    built from decimal strings by [+] and [*] have a denominator that
    divides a power of ten, and the search finds it; others would be cut
    at the bound. *)
Definition decimal_decomp (x : Q) : Z * Z :=
  let r := Qred x in
  let d := Zpos (Qden r) in
  let j := pow10_exp (Pos.size_nat (Qden r)) (Qnum r) d 0 in
  let '(m, t) := strip_zeros (S (Z.to_nat (Z.log2 (Qnum r * 10 ^ j / d))))
                   (Qnum r * 10 ^ j / d) 0 in
  (m, t - j)%Z.

(** Number::toString for a finite value [x > 0] (ECMA-262 6.1.6.1.20):
    with [x = s * 10^(n-k)] and [k] the digit count of [s]. *)
Definition positive_to_string (x : Q) : string :=
  let '(sm, e) := decimal_decomp x in
  let ds := show_Z sm in
  let k := Z.of_nat (ndigits sm) in
  let n := (k + e)%Z in
  let exp_part := (if (0 <=? n - 1)%Z then "+" else "-") ++ show_Z (Z.abs (n - 1)) in
  if (k <=? n)%Z && (n <=? 21)%Z then ds ++ zeros (Z.to_nat (n - k))
  else if (0 <? n)%Z && (n <=? 21)%Z then
    substring 0 (Z.to_nat n) ds ++ "." ++ substring (Z.to_nat n) (Z.to_nat (k - n)) ds
  else if (-6 <? n)%Z && (n <=? 0)%Z then "0." ++ zeros (Z.to_nat (- n)) ++ ds
  else if (k =? 1)%Z then ds ++ "e" ++ exp_part
  else substring 0 1 ds ++ "." ++ substring 1 (Z.to_nat (k - 1)) ds ++ "e" ++ exp_part.

(** [Number::toString(x)] *)
Definition numberToString (x : num) : string :=
  match x with
  | NaN => "NaN"
  | PosInf => "Infinity"
  | NegInf => "-Infinity"
  | Fin q =>
      if Qeq_bool q 0 then "0"
      else if negb (Qle_bool 0 q) then "-" ++ positive_to_string (- q)
      else positive_to_string q
  end.

(** The [n] of [toFixed]: the integer closest to [a * 10^f], the larger
    one on a tie. *)
Definition fixed_round (f : nat) (a : Q) : Z :=
  Qfloor (a * inject_Z (10 ^ Z.of_nat f) + (1 # 2)).

(** [x.toFixed(f)] (ECMA-262 21.1.3.3) for [f >= 1]: the digits of [n] with
    the point before the last [f] of them, a leading "0" when [n < 10^f]. *)
Definition toFixed (f : nat) (x : num) : string :=
  match x with
  | Fin q =>
      let sign := if negb (Qle_bool 0 q) then "-" else "" in
      let a := Qabs q in
      if Qle_bool (inject_Z (10 ^ 21)) a then sign ++ positive_to_string a
      else
        let n := fixed_round f a in
        sign ++ show_Z (n / 10 ^ Z.of_nat f) ++ "." ++ pad f n
  | _ => numberToString x
  end.

End Printing.

(** ** The algebra of values *)

#[export] Instance num_eq_equiv : Equivalence num_eq.
Proof.
  split.
  - intros [q| | |]; unfold num_eq; auto. reflexivity.
  - intros [a| | |] [b| | |]; unfold num_eq; auto. now symmetry.
  - intros [a| | |] [b| | |] [c| | |]; unfold num_eq; try tauto. intros H1 H2. now rewrite H1.
Qed.

Lemma overflow_bound_eq : overflow_bound = inject_Z (2 ^ 1024 - 2 ^ 970).
Proof. reflexivity. Qed.

Lemma of_literal_fin (q : Q) : (q < overflow_bound)%Q -> of_literal q = Fin q.
Proof.
  intros Hq. unfold of_literal. destruct (Qle_bool overflow_bound q) eqn:E; [|reflexivity].
  apply Qle_bool_iff in E. exfalso. exact (Qlt_not_le _ _ Hq E).
Qed.

Lemma of_literal_int (n : Z) : (n < 10 ^ 300)%Z -> of_literal (inject_Z n) = Fin (inject_Z n).
Proof.
  intros Hn. apply of_literal_fin. rewrite overflow_bound_eq, <- Zlt_Qlt.
  assert (10 ^ 300 < 2 ^ 1024 - 2 ^ 970)%Z by reflexivity. lia.
Qed.

Lemma num_eqb_spec (x y : num) : num_eqb x y = true <-> x ≈ y.
Proof.
  unfold num_eq. destruct x, y; simpl; try (split; tauto || discriminate). apply Qeq_bool_iff.
Qed.

Lemma inf_times_proper (pos : bool) (a b : Q) : a == b -> inf_times pos a = inf_times pos b.
Proof.
  intros H. unfold inf_times. now rewrite H.
Qed.

#[export] Instance add_proper : Proper (num_eq ==> num_eq ==> num_eq) add.
Proof.
  intros [a| | |] [a'| | |] Ha [b| | |] [b'| | |] Hb; unfold num_eq in *; simpl in *; try tauto.
  now rewrite Ha, Hb.
Qed.

#[export] Instance mul_proper : Proper (num_eq ==> num_eq ==> num_eq) mul.
Proof.
  intros [a| | |] [a'| | |] Ha [b| | |] [b'| | |] Hb; simpl mul;
    try (rewrite (inf_times_proper _ _ _ Ha); reflexivity);
    try (rewrite (inf_times_proper _ _ _ Hb); reflexivity);
    unfold num_eq in *; simpl in *; try tauto.
  now rewrite Ha, Hb.
Qed.

#[export] Instance neg_proper : Proper (num_eq ==> num_eq) neg.
Proof. intros [a| | |] [a'| | |] H; unfold num_eq in *; simpl in *; try tauto. now rewrite H. Qed.

Lemma add_comm (x y : num) : x + y ≈ y + x.
Proof. unfold num_eq. destruct x, y; simpl; auto. ring. Qed.

Lemma add_assoc (x y z : num) : x + (y + z) ≈ (x + y) + z.
Proof. unfold num_eq. destruct x, y, z; simpl; auto. ring. Qed.

Lemma add_0_r (x : num) : x + Fin 0 ≈ x.
Proof. unfold num_eq. destruct x; simpl; auto. ring. Qed.

Lemma add_0_l (x : num) : Fin 0 + x ≈ x.
Proof. rewrite add_comm. apply add_0_r. Qed.

Lemma add_NaN_r (x : num) : x + NaN = NaN.
Proof. now destruct x. Qed.

Lemma add_NaN_l (x : num) : NaN + x = NaN.
Proof. reflexivity. Qed.

Lemma fold_add_NaN {A} (f : A -> num) (l : list A) :
  fold_left (fun s x => s + f x) l NaN = NaN.
Proof. induction l; simpl; auto. Qed.

(** The accumulator of a sum can be taken out of it. *)
Lemma fold_add_acc {A} (f : A -> num) (l : list A) (a : num) :
  fold_left (fun s x => s + f x) l a ≈ a + sum_map f l.
Proof.
  unfold sum_map. revert a; induction l as [|x l IH]; intros a; simpl.
  - symmetry. apply add_0_r.
  - rewrite IH, (IH (Fin 0 + f x)), add_0_l. symmetry. apply add_assoc.
Qed.

Lemma sum_map_cons {A} (f : A -> num) (x : A) (l : list A) :
  sum_map f (x :: l) ≈ f x + sum_map f l.
Proof.
  unfold sum_map at 1. cbn [fold_left]. rewrite fold_add_acc, add_0_l. reflexivity.
Qed.

Lemma sum_map_app {A} (f : A -> num) (l1 l2 : list A) :
  sum_map f (l1 ++ l2) ≈ sum_map f l1 + sum_map f l2.
Proof. unfold sum_map at 1. rewrite fold_left_app. apply fold_add_acc. Qed.

Lemma sum_map_ext {A} (f g : A -> num) (l : list A) :
  (forall x, In x l -> f x = g x) -> sum_map f l = sum_map g l.
Proof.
  unfold sum_map. generalize (Fin 0). induction l as [|x l IH]; intros a H; simpl; auto.
  rewrite H by now left. apply IH. intros y Hy. apply H. now right.
Qed.

Lemma sum_map_map {A B} (g : B -> num) (f : A -> B) (l : list A) :
  sum_map g (map f l) = sum_map (fun x => g (f x)) l.
Proof.
  unfold sum_map. generalize (Fin 0). induction l as [|x l IH]; intros a; simpl; auto.
Qed.

Lemma Qred_inject_Z (z : Z) : Qred (inject_Z z) = inject_Z z.
Proof.
  unfold Qred, inject_Z. simpl.
  pose proof (Z.ggcd_gcd z 1) as Hg. pose proof (Z.ggcd_correct_divisors z 1) as Hd.
  destruct (Z.ggcd z 1) as [g [a b]]. simpl in *. rewrite Z.gcd_1_r in Hg. subst g.
  destruct Hd as [H1 H2]. rewrite !Z.mul_1_l in *. subst. reflexivity.
Qed.

(** Sums do not depend on the order of their terms (values are exact). *)
Lemma sum_map_perm {A} (f : A -> num) (l l' : list A) :
  Permutation l l' -> sum_map f l ≈ sum_map f l'.
Proof.
  induction 1 as [| x l l' _ IH | x y l | l l' l'' _ IH1 _ IH2].
  - reflexivity.
  - rewrite !sum_map_cons, IH. reflexivity.
  - rewrite !sum_map_cons, !add_assoc, (add_comm (f y)). reflexivity.
  - now rewrite IH1.
Qed.

(** A sum with a NaN term is NaN, whatever else it holds. *)
Lemma sum_map_NaN {A} (f : A -> num) (l : list A) (x : A) :
  In x l -> f x = NaN -> sum_map f l = NaN.
Proof.
  unfold sum_map. generalize (Fin 0).
  induction l as [|y l IH]; intros a Hin Hx; simpl in *; [tauto|].
  destruct Hin as [<- | Hin].
  - rewrite Hx, add_NaN_r. apply fold_add_NaN.
  - now apply IH.
Qed.

#[export] Hint Resolve add_comm add_assoc add_0_r : shop.
#[export] Hint Rewrite add_NaN_r add_NaN_l @fold_add_NaN : shop_bool.

End JsNum.
