(* ===== verification/JsText.v ===== *)
(** Print and parse round trips of [JsNum]: the decimal digits [pad] and
    [show_Z] write are read back by [digits] and [parseInt], and
    [parseInt(String(n))] is [n] for every integer [0 <= n < 10^21].  The
    admin dashboard relies on this: it writes an order id into the path
    of its requests with a template literal, and the server reads it back
    with [parseInt]. *)

From Stdlib Require Import ZArith QArith Qabs Qround String Ascii List Bool Lia.
From S2P Require Import Prelude JsNum.
Import ListNotations.

Module JsText.
Import JsNum.
#[local] Open Scope string_scope.

(** Every character is a decimal digit. *)
Fixpoint all_digits (s : string) : bool :=
  match s with
  | EmptyString => true
  | String c s' => match digit_val c with Some _ => all_digits s' | None => false end
  end.

(** ** Digits written and read *)

Lemma digit_val_digit_char (d : Z) : (0 <= d < 10)%Z -> digit_val (digit_char d) = Some d.
Proof.
  intros Hd. unfold digit_val, digit_char.
  rewrite nat_ascii_embedding by lia.
  replace ((48 <=? 48 + Z.to_nat d)%nat && (48 + Z.to_nat d <=? 57)%nat) with true.
  - f_equal. lia.
  - symmetry. apply andb_true_iff. split; apply Nat.leb_le; lia.
Qed.

Lemma string_app_assoc (a b c : string) : (a ++ b) ++ c = a ++ (b ++ c).
Proof. induction a as [|x a IH]; simpl; [reflexivity | now rewrite IH]. Qed.

Lemma string_app_nil (a : string) : a ++ "" = a.
Proof. induction a as [|x a IH]; simpl; [reflexivity | now rewrite IH]. Qed.

Lemma pow10_succ (k : nat) : (10 ^ Z.of_nat (S k) = 10 * 10 ^ Z.of_nat k)%Z.
Proof. rewrite Nat2Z.inj_succ, Z.pow_succ_r by lia. reflexivity. Qed.

(** Reading the [k] digits [pad] writes appends [v mod 10^k]. *)
Lemma digits_app_pad (k : nat) (v : Z) (s : string) (acc : Z) (j : nat) :
  digits (pad k v ++ s) acc j = digits s (acc * 10 ^ Z.of_nat k + v mod 10 ^ Z.of_nat k)%Z (j + k).
Proof.
  revert v s acc j. induction k as [|k IH]; intros v s acc j; simpl pad.
  - simpl. rewrite Z.mod_1_r, Z.mul_1_r, Z.add_0_r, Nat.add_0_r. reflexivity.
  - rewrite string_app_assoc, IH. cbn [String.append digits].
    rewrite digit_val_digit_char by (apply Z.mod_pos_bound; lia).
    rewrite Nat.add_succ_r, pow10_succ, Z.rem_mul_r by (try apply Z.pow_pos_nonneg; lia).
    f_equal. ring.
Qed.

(** Reading zeros multiplies by ten each time. *)
Lemma digits_app_zeros (t : nat) (s : string) (acc : Z) (j : nat) :
  digits (zeros t ++ s) acc j = digits s (acc * 10 ^ Z.of_nat t)%Z (j + t).
Proof.
  revert acc j. induction t as [|t IH]; intros acc j; cbn [zeros String.append digits].
  - now rewrite Z.mul_1_r, Nat.add_0_r.
  - replace (digit_val "0") with (Some 0%Z) by reflexivity.
    rewrite IH, Nat.add_succ_r, pow10_succ. f_equal. ring.
Qed.

Lemma all_digits_app (a b : string) : all_digits (a ++ b) = all_digits a && all_digits b.
Proof. induction a as [|c a IH]; simpl; [reflexivity|]. now destruct (digit_val c). Qed.

Lemma all_digits_pad (k : nat) (v : Z) : all_digits (pad k v) = true.
Proof.
  revert v. induction k as [|k IH]; intros v; [reflexivity|]. simpl pad.
  rewrite all_digits_app, IH. cbn [all_digits andb].
  now rewrite digit_val_digit_char by (apply Z.mod_pos_bound; lia).
Qed.

Lemma all_digits_zeros (t : nat) : all_digits (zeros t) = true.
Proof. induction t; cbn [zeros all_digits]; auto. Qed.

(** ** The digit count *)

Lemma ndigits_fuel_pos (f : nat) (n : Z) : (1 <= ndigits_fuel f n)%nat.
Proof. destruct f; simpl; [lia|]. destruct (n <? 10)%Z; lia. Qed.

Lemma ndigits_fuel_upper (f : nat) (n : Z) :
  (0 <= n < 10 ^ Z.of_nat (S f))%Z -> (n < 10 ^ Z.of_nat (ndigits_fuel f n))%Z.
Proof.
  revert n. induction f as [|f IH]; intros n Hn; simpl; [simpl in Hn; lia|].
  destruct (n <? 10)%Z eqn:E; [simpl; lia|].
  assert (Hd : (n / 10 < 10 ^ Z.of_nat (ndigits_fuel f (n / 10)))%Z).
  { apply IH. split; [apply Z.div_pos; lia|].
    apply Z.div_lt_upper_bound; [lia|]. rewrite <- pow10_succ. lia. }
  rewrite pow10_succ. pose proof (Z.mul_div_le n 10). pose proof (Z.mod_pos_bound n 10).
  pose proof (Z.div_mod n 10). lia.
Qed.

Lemma ndigits_fuel_lower (f : nat) (n : Z) :
  (1 <= n)%Z -> (10 ^ (Z.of_nat (ndigits_fuel f n) - 1) <= n)%Z.
Proof.
  revert n. induction f as [|f IH]; intros n Hn; simpl; [lia|].
  destruct (n <? 10)%Z eqn:E; [simpl; lia|].
  assert (H10 : (1 <= n / 10)%Z) by (apply Z.div_le_lower_bound; lia).
  specialize (IH _ H10). pose proof (ndigits_fuel_pos f (n / 10)).
  replace (Z.of_nat (S (ndigits_fuel f (n / 10))) - 1)%Z
    with (Z.succ (Z.of_nat (ndigits_fuel f (n / 10)) - 1)) by lia.
  rewrite Z.pow_succ_r by lia. pose proof (Z.mul_div_le n 10). lia.
Qed.

Lemma ndigits_upper (n : Z) : (0 <= n)%Z -> (n < 10 ^ Z.of_nat (ndigits n))%Z.
Proof.
  intros Hn. unfold ndigits. apply ndigits_fuel_upper. split; [lia|].
  destruct (Z.eq_dec n 0) as [->|Hn0]; [apply Z.pow_pos_nonneg; lia|].
  destruct (Z.log2_spec n) as [_ Hlt]; [lia|].
  eapply Z.lt_le_trans; [exact Hlt|].
  rewrite !Nat2Z.inj_succ, Z2Nat.id by apply Z.log2_nonneg.
  pose proof (Z.log2_nonneg n).
  apply Z.le_trans with (10 ^ Z.succ (Z.log2 n))%Z;
    [apply Z.pow_le_mono_l | apply Z.pow_le_mono_r]; lia.
Qed.

Lemma ndigits_lower (n : Z) : (1 <= n)%Z -> (10 ^ (Z.of_nat (ndigits n) - 1) <= n)%Z.
Proof. apply ndigits_fuel_lower. Qed.

Lemma digits_show_Z (n : Z) (s : string) :
  (0 <= n)%Z -> digits (show_Z n ++ s) 0 0 = digits s n (ndigits n).
Proof.
  intros Hn. unfold show_Z. rewrite digits_app_pad. f_equal.
  rewrite Z.mod_small by (split; [lia | now apply ndigits_upper]). lia.
Qed.

(** ** parseInt on a string of digits *)

Lemma digits_count (s : string) (acc : Z) (k : nat) : (k <= snd (fst (digits s acc k)))%nat.
Proof.
  revert acc k. induction s as [|c s IH]; intros acc k; simpl; [lia|].
  destruct (digit_val c); simpl; [specialize (IH (acc * 10 + z)%Z (S k)); lia | lia].
Qed.

(** A digit is not white space, a sign or the x of a hex prefix. *)
Lemma digit_not_special (c : ascii) :
  digit_val c <> None ->
  is_ws c = false /\ Ascii.eqb c "-" = false /\ Ascii.eqb c "+" = false /\
  Ascii.eqb c "x" = false /\ Ascii.eqb c "X" = false.
Proof.
  destruct c as [[] [] [] [] [] [] [] []]; vm_compute; first [tauto | intros H; now destruct H].
Qed.

(** [parseInt] reads a non-empty string of digits as [digits] does. *)
Lemma parseInt_all_digits (t : string) :
  all_digits t = true -> t <> "" -> parseInt t = Some (fst (fst (digits t 0 0))).
Proof.
  intros Hall Hne. destruct t as [|c r]; [congruence|].
  assert (Hc : digit_val c <> None) by (simpl in Hall; destruct (digit_val c); discriminate).
  destruct (digit_not_special c Hc) as (Hws & Hm & Hp & _).
  assert (Hd : forall r', snd (fst (digits (String c r') 0 0)) <> 0%nat).
  { intros r'. cbn [digits]. destruct (digit_val c); [|congruence].
    pose proof (digits_count r' (0 * 10 + z)%Z 1). lia. }
  unfold parseInt. cbn [trimStart]. rewrite Hws. cbv beta iota zeta. rewrite Hm, Hp.
  cbv beta iota zeta.
  assert (Hmatch : (match String c r with
                    | String "0" (String x r') =>
                        if Ascii.eqb x "x" || Ascii.eqb x "X" then hex_digits r' 0 0
                        else let '(v, k, _) := digits (String c r) 0 0 in (v, k)
                    | _ => let '(v, k, _) := digits (String c r) 0 0 in (v, k)
                    end) = let '(v, k, _) := digits (String c r) 0 0 in (v, k)).
  { destruct r as [|x r']; [destruct c as [[] [] [] [] [] [] [] []]; reflexivity|].
    simpl in Hall. destruct (digit_val c); [|discriminate].
    assert (Hx : digit_val x <> None) by (destruct (digit_val x); discriminate).
    destruct (digit_not_special x Hx) as (_ & _ & _ & Hx1 & Hx2).
    destruct c as [[] [] [] [] [] [] [] []]; try reflexivity. cbn. now rewrite Hx1, Hx2. }
  rewrite Hmatch. specialize (Hd r).
  destruct (digits (String c r) 0 0) as [[v k] rest]. simpl in *.
  destruct k; [congruence|]. cbn. now destruct v.
Qed.

(** ** The round trip *)

Lemma pow10_exp_one (f : nat) (p : Z) : pow10_exp (S f) p 1 0 = 0%Z.
Proof. simpl. now rewrite Z.mod_1_r. Qed.

Lemma strip_zeros_spec (f : nat) (n t : Z) :
  (1 <= n)%Z -> (0 <= t)%Z ->
  let '(m, t') := strip_zeros f n t in
  (1 <= m)%Z /\ (t <= t')%Z /\ n = (m * 10 ^ (t' - t))%Z.
Proof.
  revert n t. induction f as [|f IH]; intros n t Hn Ht; simpl.
  - rewrite Z.sub_diag, Z.pow_0_r. lia.
  - destruct (n mod 10 =? 0)%Z eqn:E; [|rewrite Z.sub_diag, Z.pow_0_r; lia].
    apply Z.eqb_eq in E.
    assert (H10 : (1 <= n / 10)%Z).
    { apply Z.div_le_lower_bound; [lia|]. pose proof (Z.div_mod n 10). lia. }
    specialize (IH (n / 10) (t + 1)%Z H10 ltac:(lia)).
    destruct (strip_zeros f (n / 10) (t + 1)%Z) as [m t']. destruct IH as (Hm & Ht' & Heq).
    split; [lia|]. split; [lia|].
    replace (t' - t)%Z with (Z.succ (t' - (t + 1)))%Z by lia.
    rewrite Z.pow_succ_r by lia. pose proof (Z.div_mod n 10). lia.
Qed.

(** [Number::toString] of a positive integer below [10^21] is its
    digits without exponent: some digits of [m] and [t] zeros with
    [n = m * 10^t]. *)
Lemma numberToString_pos_int (n : Z) :
  (1 <= n < 10 ^ 21)%Z ->
  exists m t, (1 <= m)%Z /\ n = (m * 10 ^ Z.of_nat t)%Z /\
    numberToString (of_Z n) = show_Z m ++ zeros t.
Proof.
  intros Hn. unfold numberToString, of_Z.
  replace (Qeq_bool (inject_Z n) 0) with false
    by (symmetry; apply not_true_iff_false; rewrite Qeq_bool_iff; unfold Qeq; simpl; lia).
  replace (Qle_bool 0 (inject_Z n)) with true
    by (symmetry; apply Qle_bool_iff; unfold Qle; simpl; lia).
  cbn [negb]. unfold positive_to_string, decimal_decomp. rewrite Qred_inject_Z.
  cbn [Qden Qnum inject_Z Pos.size_nat]. rewrite pow10_exp_one, Z.pow_0_r, Z.mul_1_r, Z.div_1_r.
  pose proof (strip_zeros_spec (S (Z.to_nat (Z.log2 n))) n 0 ltac:(lia) ltac:(lia)) as Hs.
  destruct (strip_zeros _ n 0) as [m t]. destruct Hs as (Hm & Ht & Heq).
  rewrite Z.sub_0_r in *. exists m, (Z.to_nat t).
  rewrite Z2Nat.id by lia. split; [lia|]. split; [lia|].
  pose proof (ndigits_lower m Hm) as Hlow. pose proof (ndigits_fuel_pos (S (Z.to_nat (Z.log2 m))) m).
  assert (Hk : (Z.of_nat (ndigits m) + t <= 21)%Z).
  { assert (H1 : (10 ^ (Z.of_nat (ndigits m) - 1 + t) <= n)%Z).
    { rewrite Z.pow_add_r by (unfold ndigits in *; lia). rewrite Heq.
      apply Z.mul_le_mono_nonneg_r; [apply Z.pow_nonneg|]; lia. }
    destruct (Z.le_gt_cases (Z.of_nat (ndigits m) + t) 21) as [|Hc]; [assumption|].
    exfalso. assert (10 ^ 21 <= 10 ^ (Z.of_nat (ndigits m) - 1 + t))%Z
      by (apply Z.pow_le_mono_r; lia). lia. }
  replace ((Z.of_nat (ndigits m) <=? Z.of_nat (ndigits m) + t)%Z &&
           (Z.of_nat (ndigits m) + t <=? 21)%Z) with true
    by (symmetry; apply andb_true_iff; split; apply Z.leb_le; lia).
  f_equal. f_equal. lia.
Qed.

Lemma pad_nonempty (k : nat) (v : Z) : (1 <= k)%nat -> pad k v <> "".
Proof.
  destruct k as [|k]; [lia|]. intros _. simpl. destruct (pad k (v / 10)); discriminate.
Qed.

(** [parseInt(String(n))] is [n] for an integer [0 <= n < 10^21], the
    range in which [Number::toString] writes no exponent. *)
Lemma parseInt_numberToString (n : Z) :
  (0 <= n < 10 ^ 21)%Z -> parseInt (numberToString (of_Z n)) = Some n.
Proof.
  intros Hn. destruct (Z.eq_dec n 0) as [->|Hn0]; [reflexivity|].
  destruct (numberToString_pos_int n ltac:(lia)) as (m & t & Hm & Heq & ->).
  rewrite parseInt_all_digits.
  - f_equal. rewrite digits_show_Z by lia.
    rewrite <- (string_app_nil (zeros t)), digits_app_zeros. simpl. lia.
  - rewrite all_digits_app, all_digits_zeros. unfold show_Z. now rewrite all_digits_pad.
  - unfold show_Z. pose proof (ndigits_fuel_pos (S (Z.to_nat (Z.log2 m))) m).
    destruct (pad (ndigits m) m) eqn:E; [|discriminate]. exfalso.
    eapply pad_nonempty; [|exact E]. unfold ndigits. lia.
Qed.

Lemma length_string_app (a b : string) : String.length (a ++ b) = (String.length a + String.length b)%nat.
Proof. induction a as [|c a IH]; cbn; [reflexivity | now rewrite IH]. Qed.

Lemma length_pad (k : nat) (v : Z) : String.length (pad k v) = k.
Proof.
  revert v; induction k as [|k IH]; intros v; [reflexivity|].
  cbn [pad]. rewrite length_string_app, IH. cbn. lia.
Qed.

Lemma length_zeros (t : nat) : String.length (zeros t) = t.
Proof. induction t as [|t IH]; cbn; congruence. Qed.

(** [String(n)] of a positive integer below [10^21] has as many
    characters as [n] has decimal digits. *)
Lemma numberToString_length (n : Z) :
  (1 <= n < 10 ^ 21)%Z ->
  (10 ^ (Z.of_nat (String.length (numberToString (of_Z n))) - 1) <= n <
   10 ^ Z.of_nat (String.length (numberToString (of_Z n))))%Z.
Proof.
  intros Hn. destruct (numberToString_pos_int n Hn) as (m & t & Hm & -> & ->).
  rewrite length_string_app, length_zeros. unfold show_Z. rewrite length_pad.
  pose proof (ndigits_lower m Hm) as Hl. pose proof (ndigits_upper m ltac:(lia)) as Hu.
  pose proof (ndigits_fuel_pos (S (Z.to_nat (Z.log2 m))) m) as Hp. unfold ndigits in *.
  set (k := ndigits_fuel (S (Z.to_nat (Z.log2 m))) m) in *.
  rewrite Nat2Z.inj_add. replace (Z.of_nat k + Z.of_nat t - 1)%Z with ((Z.of_nat k - 1) + Z.of_nat t)%Z by lia.
  rewrite !Z.pow_add_r by lia.
  assert (0 < 10 ^ Z.of_nat t)%Z by (apply Z.pow_pos_nonneg; lia).
  split; [apply Z.mul_le_mono_nonneg_r | apply Z.mul_lt_mono_pos_r]; lia.
Qed.

(** ** parseFloat on a string of digits *)

Lemma digits_all (t : string) (acc : Z) (k : nat) :
  all_digits t = true -> snd (digits t acc k) = "".
Proof.
  revert acc k; induction t as [|c t IH]; intros acc k Hall; [reflexivity|].
  cbn [all_digits] in Hall. cbn [digits]. destruct (digit_val c); [|discriminate]. now apply IH.
Qed.

(** [parseFloat] reads a non-empty string of digits as [digits] does. *)
Lemma parseFloat_all_digits (t : string) :
  all_digits t = true -> t <> "" -> parseFloat t = of_literal (inject_Z (fst (fst (digits t 0 0)))).
Proof.
  intros Hall Hne. destruct t as [|c r]; [congruence|].
  assert (Hc : digit_val c <> None) by (simpl in Hall; destruct (digit_val c); discriminate).
  destruct (digit_not_special c Hc) as (Hws & Hm & Hp & _).
  unfold parseFloat. cbn [trimStart]. rewrite Hws. cbv beta iota zeta. rewrite Hm, Hp.
  unfold parse_unsigned.
  replace (String.prefix "Infinity" (String c r)) with false
    by (destruct c as [[] [] [] [] [] [] [] []]; first [reflexivity | exfalso; apply Hc; reflexivity]).
  pose proof (digits_all (String c r) 0 0 Hall) as Hrest.
  assert (Hk : snd (fst (digits (String c r) 0 0)) <> 0%nat).
  { cbn [digits]. destruct (digit_val c); [|congruence].
    pose proof (digits_count r (0 * 10 + z)%Z 1). lia. }
  destruct (digits (String c r) 0 0) as [[v k] rest]. cbn in Hrest, Hk |- *. subst rest.
  replace (k + 0 =? 0)%nat with false by (symmetry; apply Nat.eqb_neq; lia).
  unfold scale. cbn -[of_literal]. now rewrite Z.mul_1_r.
Qed.

(** [parseFloat(String(n))] is [n] for an integer [0 <= n < 10^21]. *)
Lemma parseFloat_numberToString (n : Z) :
  (0 <= n < 10 ^ 21)%Z -> parseFloat (numberToString (of_Z n)) = of_Z n.
Proof.
  intros Hn. destruct (Z.eq_dec n 0) as [->|Hn0]; [reflexivity|].
  destruct (numberToString_pos_int n ltac:(lia)) as (m & t & Hm & Heq & ->).
  assert (Hall : all_digits (show_Z m ++ zeros t) = true).
  { rewrite all_digits_app, all_digits_zeros. unfold show_Z. now rewrite all_digits_pad. }
  rewrite parseFloat_all_digits by
    (first [exact Hall | unfold show_Z; pose proof (ndigits_fuel_pos (S (Z.to_nat (Z.log2 m))) m);
            destruct (pad _ m) eqn:E; [exfalso; revert E; apply pad_nonempty; unfold ndigits; lia
                                      | discriminate]]).
  replace (fst (fst (digits (show_Z m ++ zeros t) 0 0))) with n.
  - unfold of_Z. apply of_literal_int. lia.
  - rewrite digits_show_Z by lia.
    rewrite <- (string_app_nil (zeros t)), digits_app_zeros. simpl. lia.
Qed.

(** ** Amounts of money: [toFixed(2)] of [parseFloat] *)

(** A price as the server's seed data and the pages write it: the digits of
    the dollars, a point and two digits of cents. *)
Definition money (d c : Z) : string := show_Z d ++ "." ++ pad 2 c.

Lemma show_Z_nonempty_digit (d : Z) :
  exists c r, show_Z d = String c r /\ digit_val c <> None.
Proof.
  unfold show_Z. pose proof (ndigits_fuel_pos (S (Z.to_nat (Z.log2 d))) d) as Hp.
  unfold ndigits. destruct (ndigits_fuel _ d) as [|k]; [lia|].
  assert (Hall : all_digits (pad (S k) d) = true) by apply all_digits_pad.
  destruct (pad (S k) d) as [|c r] eqn:E; [exfalso; exact (pad_nonempty (S k) d ltac:(lia) E)|].
  exists c, r. split; [reflexivity|]. cbn in Hall. destruct (digit_val c); discriminate.
Qed.

(** [parseFloat] of a string that starts with a digit is its longest
    decimal prefix. *)
Lemma parseFloat_digit_start (s : string) :
  (exists c r, s = String c r /\ digit_val c <> None) ->
  parseFloat s = match parse_unsigned s with Some v => v | None => NaN end.
Proof.
  intros (c & r & -> & Hc). destruct (digit_not_special c Hc) as (Hws & Hm & Hp & _).
  unfold parseFloat. cbn [trimStart]. rewrite Hws. cbv beta iota zeta. now rewrite Hm, Hp.
Qed.

Lemma parseFloat_money (d c : Z) :
  (0 <= d < 10 ^ 19)%Z -> (0 <= c < 100)%Z -> parseFloat (money d c) = Fin ((d * 100 + c) # 100).
Proof.
  intros Hd Hc. unfold money.
  destruct (show_Z_nonempty_digit d) as (c0 & r & E & Hc0).
  rewrite parseFloat_digit_start by (exists c0, (r ++ "." ++ pad 2 c); now rewrite E).
  unfold parse_unsigned.
  replace (String.prefix "Infinity" (show_Z d ++ "." ++ pad 2 c)) with false
    by (rewrite E; destruct c0 as [[] [] [] [] [] [] [] []];
        first [reflexivity | exfalso; apply Hc0; reflexivity]).
  rewrite digits_show_Z by lia. cbn [String.append digits digit_val].
  replace (digit_val ".") with (@None Z) by reflexivity. cbv beta iota.
  replace (Ascii.eqb "." ".") with true by reflexivity.
  rewrite <- (string_app_nil (pad 2 c)), digits_app_pad.
  pose proof (ndigits_fuel_pos (S (Z.to_nat (Z.log2 d))) d). unfold ndigits in *.
  set (k := ndigits_fuel (S (Z.to_nat (Z.log2 d))) d) in *.
  cbn [digits]. replace (k + (0 + 2) =? 0)%nat with false by (symmetry; apply Nat.eqb_neq; lia).
  cbn [exponent]. rewrite Z.mod_small by (cbn; lia). unfold scale. cbn -[of_literal].
  apply of_literal_fin. rewrite overflow_bound_eq. unfold Qlt. cbn [Qnum Qden inject_Z].
  assert (10 ^ 21 < 2 ^ 1024 - 2 ^ 970)%Z by reflexivity. lia.
Qed.

Lemma pad2_shift (d c : Z) : (0 <= c < 100)%Z -> pad 2 (d * 100 + c) = pad 2 c.
Proof.
  intros Hc. cbn [pad]. f_equal; [f_equal; f_equal|].
  - replace (d * 100 + c)%Z with (c + d * 10 * 10)%Z by ring.
    rewrite Z_div_plus_full by lia. now rewrite Z_mod_plus_full.
  - replace (d * 100 + c)%Z with (c + d * 10 * 10)%Z by ring. now rewrite Z_mod_plus_full.
Qed.

Lemma toFixed2_money (d c : Z) :
  (0 <= d < 10 ^ 19)%Z -> (0 <= c < 100)%Z -> toFixed 2 (Fin ((d * 100 + c) # 100)) = money d c.
Proof.
  intros Hd Hc. unfold toFixed.
  replace (Qle_bool 0 ((d * 100 + c) # 100)) with true
    by (symmetry; apply Qle_bool_iff; unfold Qle; cbn; lia).
  replace (Qabs ((d * 100 + c) # 100)) with ((d * 100 + c) # 100)
    by (unfold Qabs; f_equal; rewrite Z.abs_eq; lia).
  replace (Qle_bool (inject_Z (10 ^ 21)) ((d * 100 + c) # 100)) with false
    by (symmetry; apply not_true_iff_false; rewrite Qle_bool_iff; unfold Qle;
        cbn [Qnum Qden inject_Z]; lia).
  unfold fixed_round.
  replace (Qfloor (((d * 100 + c) # 100) * inject_Z (10 ^ Z.of_nat 2) + (1 # 2))) with (d * 100 + c)%Z.
  - cbn [negb String.append]. unfold money. f_equal; [|now rewrite pad2_shift].
    f_equal. change (10 ^ Z.of_nat 2)%Z with 100%Z.
    rewrite Z.div_add_l by lia. rewrite Z.div_small by lia. now rewrite Z.add_0_r.
  - unfold Qfloor, Qplus, Qmult. cbn [Qnum Qden inject_Z].
    change (10 ^ Z.of_nat 2)%Z with 100%Z. apply (Z.div_unique _ _ _ 100); [cbn; lia | change (Z.pos (100 * 1 * 2)) with 200%Z; change (Z.pos (100 * 1)) with 100%Z; ring].
Qed.

(** Money round trip on the exact values of the model: for a price
    written as dollars, a point and two digits of cents (below 10^19
    dollars), [parseFloat] reads the exact amount and [toFixed(2)] writes
    the same string back.  With binary64 it holds below 2^46 dollars, where
    half an ulp is less than half a cent; the theorems that use it bound
    the dollars by 10^13. *)
Lemma toFixed_parseFloat_money (d c : Z) :
  (0 <= d < 10 ^ 19)%Z -> (0 <= c < 100)%Z ->
  parseFloat (money d c) = Fin ((d * 100 + c) # 100) /\ toFixed 2 (parseFloat (money d c)) = money d c.
Proof.
  intros Hd Hc. rewrite parseFloat_money by lia. split; [reflexivity|]. now apply toFixed2_money.
Qed.

Lemma toFixed_parseFloat_money_witness :
  (0 <= 449 < 10 ^ 19)%Z /\ (0 <= 99 < 100)%Z /\ toFixed 2 (parseFloat "449.99") = "449.99".
Proof.
  split; [lia|]. split; [lia|].
  exact (proj2 (toFixed_parseFloat_money 449 99 ltac:(lia) ltac:(lia))).
Defined.

End JsText.
