(* ===== verification/JsMap.v ===== *)
(** JavaScript's [Map] with numeric keys, as src/server/storage.ts uses it.

    A map is the list of its entries in insertion order, which is the order
    [Array.from(map.values())] lists them in.  [set] on a present key
    replaces the entry where it is; on a new key it appends.  The lemmas
    are the map laws (get after set, order of values, size) that the
    storage proofs use. *)

From Stdlib Require Import ZArith List Bool Lia.
From S2P Require Import Prelude.
Import ListNotations.

Module JsMap.

Section Map.
Context {V : Type}.

Definition t : Type := list (Z * V).

Definition empty : t := [].

(** [map.get(k)] *)
Fixpoint get (k : Z) (m : t) : option V :=
  match m with
  | [] => None
  | (k', v) :: m' => if (k' =? k)%Z then Some v else get k m'
  end.

(** [map.set(k, v)] *)
Fixpoint set (k : Z) (v : V) (m : t) : t :=
  match m with
  | [] => [(k, v)]
  | (k', v') :: m' => if (k' =? k)%Z then (k, v) :: m' else (k', v') :: set k v m'
  end.

(** [Array.from(map.values())] *)
Definition values (m : t) : list V := map snd m.

Definition keys (m : t) : list Z := map fst m.

(** [map.size] *)
Definition size (m : t) : nat := length m.

End Map.

Arguments t : clear implicits.

(** ** Laws *)

Section Laws.
Context {V : Type}.

Lemma get_set_eq (k : Z) (v : V) (m : t V) : get k (set k v m) = Some v.
Proof.
  induction m as [|[k' v'] m IH]; simpl; [now rewrite Z.eqb_refl|].
  destruct (k' =? k)%Z eqn:E; simpl; [now rewrite Z.eqb_refl | now rewrite E].
Qed.

Lemma get_set_ne (k j : Z) (v : V) (m : t V) : k <> j -> get j (set k v m) = get j m.
Proof.
  intros Hne. induction m as [|[k' v'] m IH]; simpl.
  - now replace (k =? j)%Z with false by lia.
  - destruct (k' =? k)%Z eqn:E; simpl.
    + apply Z.eqb_eq in E. subst k'. now replace (k =? j)%Z with false by lia.
    + now rewrite IH.
Qed.

Lemma get_None_iff (k : Z) (m : t V) : get k m = None <-> ~ In k (keys m).
Proof.
  induction m as [|[k' v'] m IH]; simpl; [tauto|].
  destruct (k' =? k)%Z eqn:E; bool_prop.
  - split; [discriminate | intros H; exfalso; auto].
  - rewrite IH. intuition.
Qed.

Lemma get_Some_keys (k : Z) (v : V) (m : t V) : get k m = Some v -> In k (keys m).
Proof.
  intros H. destruct (in_dec Z.eq_dec k (keys m)) as [Hin | Hnin]; [assumption|].
  apply get_None_iff in Hnin. congruence.
Qed.

Lemma get_In (k : Z) (v : V) (m : t V) : get k m = Some v -> In v (values m).
Proof.
  induction m as [|[k' v'] m IH]; simpl; [discriminate|].
  destruct (k' =? k)%Z; [intros H; injection H as <-; now left | intros H; right; auto].
Qed.

(** Setting a fresh key appends its entry. *)
Lemma set_fresh (k : Z) (v : V) (m : t V) : ~ In k (keys m) -> set k v m = m ++ [(k, v)].
Proof.
  induction m as [|[k' v'] m IH]; simpl; intros Hk; [reflexivity|].
  replace (k' =? k)%Z with false by (symmetry; apply Z.eqb_neq; tauto).
  now rewrite IH by tauto.
Qed.

Lemma keys_set_present (k : Z) (v : V) (m : t V) : In k (keys m) -> keys (set k v m) = keys m.
Proof.
  induction m as [|[k' v'] m IH]; simpl; [tauto|]. intros Hk.
  destruct (k' =? k)%Z eqn:E; simpl; bool_prop; [congruence|].
  rewrite IH by (destruct Hk; [congruence | assumption]). reflexivity.
Qed.

Lemma keys_set_NoDup (k : Z) (v : V) (m : t V) : NoDup (keys m) -> NoDup (keys (set k v m)).
Proof.
  intros Hnd. destruct (in_dec Z.eq_dec k (keys m)) as [Hin | Hnin].
  - now rewrite keys_set_present.
  - rewrite set_fresh by assumption. unfold keys. rewrite map_app. now apply NoDup_app_fresh.
Qed.

Lemma values_set_fresh (k : Z) (v : V) (m : t V) :
  ~ In k (keys m) -> values (set k v m) = values m ++ [v].
Proof. intros H. rewrite set_fresh by assumption. unfold values. now rewrite map_app. Qed.

(** A search over the values finds a new value that is the only match. *)
Lemma find_values_set (p : V -> bool) (k : Z) (v : V) (m : t V) :
  find p (values m) = None -> p v = true -> find p (values (set k v m)) = Some v.
Proof.
  intros Hnone Hv. induction m as [|[k' v'] m IH]; simpl in *; [now rewrite Hv|].
  destruct (p v') eqn:E; [discriminate|].
  destruct (k' =? k)%Z; simpl; [now rewrite Hv | rewrite E; auto].
Qed.

Lemma Forall_set (P : Z * V -> Prop) (k : Z) (v : V) (m : t V) :
  Forall P m -> P (k, v) -> Forall P (set k v m).
Proof.
  intros Hm Hkv. induction Hm as [|[k' v'] m Hx Hm IH]; simpl; [now constructor|].
  destruct (k' =? k)%Z; constructor; auto.
Qed.

Lemma get_Forall (P : Z * V -> Prop) (k : Z) (v : V) (m : t V) :
  Forall P m -> get k m = Some v -> P (k, v).
Proof.
  intros Hm. induction Hm as [|[k' v'] m Hx Hm IH]; simpl; [discriminate|].
  destruct (k' =? k)%Z eqn:E; [|assumption]. intros H. injection H as <-.
  apply Z.eqb_eq in E. now subst.
Qed.

End Laws.

#[export] Hint Rewrite @get_set_eq : shop_bool.

End JsMap.
