(* ===== verification/Schema.v ===== *)
(** The data model of src/shared/schema.ts: the database rows (users,
    products, orders, order items) as records, the client-side cart records,
    the fixed supplier table [SUPPLIERS] and the closed enumeration of order
    statuses [ORDER_STATUSES].

    Representation: serial ids, user ids and quantities are [Z]; numeric
    columns (price, rating, totalAmount) are the decimal strings the driver
    returns; JS numbers are [JsNum.num]; timestamps are [Z] milliseconds;
    nullable columns and optional fields are [option]. *)

From Stdlib Require Import ZArith QArith String List.
From stdpp Require Import base decidable strings.
From S2P Require Import Prelude JsNum.
Import ListNotations.

Module Schema.
Import JsNum.

(** [users] (schema.ts 5-10) *)
Record User : Type := mkUser {
  u_id : Z;
  username : string;
  password : string;
  isAdmin : option bool
}.

(** [InsertUser]: what [createUser] receives; [isAdmin] is optional
    (schema.ts 12-16). *)
Record InsertUser : Type := mkInsertUser {
  iu_username : string;
  iu_password : string;
  iu_isAdmin : option bool
}.

(** [products] (schema.ts 20-32) *)
Record Product : Type := mkProduct {
  p_id : Z;
  p_name : string;
  description : string;
  p_price : string;
  category : string;
  p_image : string;
  rating : string;
  badge : option string;
  discountPrice : option string;
  p_isService : option bool;
  p_createdAt : Z
}.

(** [InsertProduct]: a product row without its id and creation time. *)
Record InsertProduct : Type := mkInsertProduct {
  ip_name : string;
  ip_description : string;
  ip_price : string;
  ip_category : string;
  ip_image : string;
  ip_rating : string;
  ip_badge : option string;
  ip_discountPrice : option string;
  ip_isService : option bool
}.

(** [Supplier] (schema.ts 54-60) *)
Record Supplier : Type := mkSupplier {
  s_id : Z;
  s_name : string;
  s_rating : num;
  deliveryTime : string;
  shippingFee : num
}.

(** [SUPPLIERS] (schema.ts 63-92) *)
Definition SUPPLIERS : list Supplier := [
  mkSupplier 1 "Fast Express" (Fin (45 # 10)) "1-2 days" (Fin (599 # 100));
  mkSupplier 2 "Budget Shipping" (Fin (38 # 10)) "3-5 days" (Fin (299 # 100));
  mkSupplier 3 "Premium Logistics" (Fin (49 # 10)) "Next day" (Fin (999 # 100));
  mkSupplier 4 "Standard Delivery" (Fin (42 # 10)) "2-3 days" (Fin (499 # 100))
].

(** [price: string | number] of a cart item. *)
Inductive PriceVal : Type :=
| PStr (s : string)
| PNum (n : num).

(** [CartItem] (schema.ts 95-104) *)
Record CartItem : Type := mkCartItem {
  ci_id : Z;
  productId : Z;
  ci_name : string;
  ci_price : PriceVal;
  quantity : Z;
  ci_image : string;
  ci_isService : option bool;
  selectedSupplierId : option Z
}.

(** [Cart] (schema.ts 106-109) *)
Record Cart : Type := mkCart {
  items : list CartItem;
  total : num
}.

(** [CheckoutFormData] (schema.ts 112-123) *)
Inductive PaymentMethod : Type := credit_card | cash | bank_transfer.
Inductive DocumentType : Type := id_verification | proof_of_address | other.

Record CheckoutFormData : Type := mkCheckoutFormData {
  firstName : string;
  lastName : string;
  email : string;
  address : string;
  city : string;
  state : string;
  zipCode : string;
  paymentMethod : PaymentMethod;
  documentName : option string;
  documentType : option DocumentType
}.

Definition string_of_payment (m : PaymentMethod) : string :=
  match m with
  | credit_card => "credit_card"
  | cash => "cash"
  | bank_transfer => "bank_transfer"
  end.

(** [orders] (schema.ts 126-136) *)
Record Order : Type := mkOrder {
  o_id : Z;
  userId : Z;
  totalAmount : string;
  customerName : string;
  customerEmail : string;
  shippingAddress : string;
  o_paymentMethod : string;
  status : string;
  o_createdAt : Z
}.

(** [InsertOrder]: [status] is optional (the column has a default). *)
Record InsertOrder : Type := mkInsertOrder {
  io_userId : Z;
  io_totalAmount : string;
  io_customerName : string;
  io_customerEmail : string;
  io_shippingAddress : string;
  io_paymentMethod : string;
  io_status : option string
}.

(** [order_items] (schema.ts 147-156) *)
Record OrderItem : Type := mkOrderItem {
  oi_id : Z;
  orderId : Z;
  oi_productId : Z;
  productName : string;
  oi_quantity : Z;
  oi_price : string;
  supplierId : option Z;
  oi_createdAt : Z
}.

(** [InsertOrderItem]: [orderId] is set by the server. *)
Record InsertOrderItem : Type := mkInsertOrderItem {
  ioi_orderId : Z;
  ioi_productId : Z;
  ioi_productName : string;
  ioi_quantity : Z;
  ioi_price : string;
  ioi_supplierId : option Z
}.

(** [ORDER_STATUSES] and [OrderStatus] (schema.ts 167-168) *)
Inductive OrderStatus : Type := pending | processing | shipped | delivered | cancelled.

Definition string_of_status (s : OrderStatus) : string :=
  match s with
  | pending => "pending"
  | processing => "processing"
  | shipped => "shipped"
  | delivered => "delivered"
  | cancelled => "cancelled"
  end.

Definition ORDER_STATUSES : list string :=
  map string_of_status [pending; processing; shipped; delivered; cancelled].

(** [PRODUCT_CATEGORIES] (schema.ts 43-49): the categories the filter
    sidebar offers. *)
Definition PRODUCT_CATEGORIES : list string :=
  ["home"; "licenses"; "hardware"; "cloud services"; "client details"].

#[export] Instance OrderStatus_eq_dec : EqDecision OrderStatus.
Proof. solve_decision. Defined.

#[export] Instance PaymentMethod_eq_dec : EqDecision PaymentMethod.
Proof. solve_decision. Defined.

End Schema.
