(* ===== verification/Cart.v ===== *)
(** The cart store, src/client/src/contexts/CartContext.tsx.

    [CartContext] holds the cart operations of the provider, one definition
    per handler ([addToCart], [removeFromCart], [updateQuantity],
    [updateSupplier], [clearCart], the helper [calculateTotal] and the
    derived [itemCount]), each a function from the previous cart to the next
    one, as the [setCart] updaters of the source are.  The provider's state
    [CartState] pairs the cart with the snapshot kept under the "cart" key
    of localStorage; [step] runs one user action as the provider does,
    including the save effect that follows every cart change, and [mount]
    runs the two effects of the first render in their order. *)

From Stdlib Require Import ZArith QArith String List Bool Lia.
From S2P Require Import Prelude JsNum Schema.
Import ListNotations.

Module CartContext.
Import JsNum Schema.

(** [defaultCart] (15-18) *)
Definition defaultCart : Cart := mkCart [] (Fin 0).

(** [{ ...item, quantity }] and [{ ...item, selectedSupplierId }] *)
Definition with_quantity (it : CartItem) (q : Z) : CartItem :=
  mkCartItem (ci_id it) (productId it) (ci_name it) (ci_price it) q
    (ci_image it) (ci_isService it) (selectedSupplierId it).

Definition with_supplier (it : CartItem) (sid : Z) : CartItem :=
  mkCartItem (ci_id it) (productId it) (ci_name it) (ci_price it) (quantity it)
    (ci_image it) (ci_isService it) (Some sid).

(** The price of a line, coerced as [calculateTotal] does (145-147). *)
Definition itemPrice (p : PriceVal) : num :=
  match p with
  | PStr s => parseFloat s
  | PNum n => n
  end.

Definition lineTotal (it : CartItem) : num :=
  mul (itemPrice (ci_price it)) (of_Z (quantity it)).

(** [calculateTotal] (143-150) *)
Definition calculateTotal (items : list CartItem) : num := sum_map lineTotal items.

(** [itemCount] (45) *)
Definition itemCount (c : Cart) : Z :=
  fold_left (fun t it => t + quantity it)%Z (items c) 0%Z.

(** The line [addToCart] appends for a product not yet in the cart (65-73);
    its id is the clock reading [Date.now()]. *)
Definition newItem (now : Z) (product : Product) (quantity : Z) : CartItem :=
  mkCartItem now (p_id product) (p_name product) (PStr (p_price product)) quantity
    (p_image product)
    (Some (match p_isService product with Some b => b | None => false end))
    None.

(** [addToCart] (48-90) *)
Definition addToCart (now : Z) (product : Product) (quantity : Z) (prevCart : Cart) : Cart :=
  let existingItemIndex :=
    findIndex (fun it => productId it =? p_id product)%Z (items prevCart) in
  let newItems :=
    if (0 <=? existingItemIndex)%Z then
      update_nth (fun it => with_quantity it (Schema.quantity it + quantity)%Z)
        (Z.to_nat existingItemIndex) (items prevCart)
    else items prevCart ++ [newItem now product quantity] in
  mkCart newItems (calculateTotal newItems).

(** [removeFromCart] (93-103) *)
Definition removeFromCart (itemId : Z) (prevCart : Cart) : Cart :=
  let newItems := filter (fun it => negb (ci_id it =? itemId)%Z) (items prevCart) in
  mkCart newItems (calculateTotal newItems).

(** The updater of [updateQuantity] (109-119), run once its guard passed. *)
Definition setQuantity (itemId quantity : Z) (prevCart : Cart) : Cart :=
  let newItems :=
    map (fun it => if (ci_id it =? itemId)%Z then with_quantity it quantity else it)
      (items prevCart) in
  mkCart newItems (calculateTotal newItems).

(** [updateSupplier] (123-135): the total is kept, not recomputed. *)
Definition updateSupplier (itemId supplierId : Z) (prevCart : Cart) : Cart :=
  mkCart
    (map (fun it => if (ci_id it =? itemId)%Z then with_supplier it supplierId else it)
       (items prevCart))
    (total prevCart).

(** [clearCart] (138-140) *)
Definition clearCart (prevCart : Cart) : Cart := defaultCart.

(** ** The provider: cart state, persistence and actions *)

(** What localStorage holds under "cart": the JSON of a cart, or a text that
    [JSON.parse] rejects. *)
Inductive Snapshot : Type :=
| Snap (c : Cart)
| Corrupt.

Record CartState : Type := mkCartState {
  cart : Cart;
  stored : option Snapshot
}.

(** The save effect (40-42): [localStorage.setItem("cart", JSON.stringify(cart))]. *)
Definition persist (s : CartState) : CartState :=
  mkCartState (cart s) (Some (Snap (cart s))).

(** [setCart(f)] followed by the save effect it triggers. *)
Definition setCart (f : Cart -> Cart) (s : CartState) : CartState :=
  persist (mkCartState (f (cart s)) (stored s)).

(** The first render (23-42): the load effect reads the snapshot and queues
    [setCart(parsed)] (or removes a corrupt snapshot); the save effect of
    the same render then writes the initial cart; the queued update
    re-renders and the save effect writes the loaded cart. *)
Definition mount (s : CartState) : CartState :=
  let queued := match stored s with Some (Snap c) => Some c | _ => None end in
  let s1 := match stored s with
            | Some Corrupt => mkCartState (cart s) None
            | _ => s
            end in
  let s2 := persist s1 in
  match queued with
  | Some c => persist (mkCartState c (stored s2))
  | None => s2
  end.

Inductive Action : Type :=
| AddToCart (now : Z) (product : Product) (quantity : Z)
| RemoveFromCart (itemId : Z)
| UpdateQuantity (itemId quantity : Z)
| UpdateSupplier (itemId supplierId : Z)
| ClearCart.

(** One action of the context's consumers.  [updateQuantity] returns before
    calling [setCart] when [quantity < 1] (107): nothing changes, not even
    storage. *)
Definition step (s : CartState) (a : Action) : CartState :=
  match a with
  | AddToCart now p q => setCart (addToCart now p q) s
  | RemoveFromCart i => setCart (removeFromCart i) s
  | UpdateQuantity i q => if (q <? 1)%Z then s else setCart (setQuantity i q) s
  | UpdateSupplier i sid => setCart (updateSupplier i sid) s
  | ClearCart => setCart clearCart s
  end.

Definition run (s : CartState) (acts : list Action) : CartState := fold_left step acts s.

(** ** The context's interface

    [CartContextType] (5-13) is what the provider offers its consumers.
    [CartContextLaws] is what the checkout page relies on: clearing empties
    the cart, and choosing a supplier sets it on the lines with that id and
    leaves everything else, the total included, as it was. *)
Class CartContextType (S : Type) := {
  ctx_cart : S -> Cart;
  ctx_addToCart : Z -> Product -> Z -> S -> S;
  ctx_removeFromCart : Z -> S -> S;
  ctx_updateQuantity : Z -> Z -> S -> S;
  ctx_updateSupplier : Z -> Z -> S -> S;
  ctx_clearCart : S -> S
}.

Class CartContextLaws (S : Type) `{CartContextType S} := {
  ctx_clearCart_items : forall s, items (ctx_cart (ctx_clearCart s)) = [];
  ctx_updateSupplier_items : forall s i sid,
    items (ctx_cart (ctx_updateSupplier i sid s))
    = map (fun it => if (ci_id it =? i)%Z then with_supplier it sid else it)
        (items (ctx_cart s));
  ctx_updateSupplier_total : forall s i sid,
    total (ctx_cart (ctx_updateSupplier i sid s)) = total (ctx_cart s)
}.

#[export] Instance provider_context : CartContextType CartState := {
  ctx_cart := cart;
  ctx_addToCart now p q s := step s (AddToCart now p q);
  ctx_removeFromCart i s := step s (RemoveFromCart i);
  ctx_updateQuantity i q s := step s (UpdateQuantity i q);
  ctx_updateSupplier i sid s := step s (UpdateSupplier i sid);
  ctx_clearCart s := step s ClearCart
}.

#[export] Instance provider_context_laws : CartContextLaws CartState.
Proof. split; reflexivity. Qed.

(** ** Invariant and reachable states *)

(** Well-formed lines: the total is the one [calculateTotal] computes from
    the lines, every line has a quantity of at least 1, and no product has
    two lines. *)
Definition lines_wf (c : Cart) : Prop :=
  total c = calculateTotal (items c) /\
  Forall (fun it => 1 <= quantity it)%Z (items c) /\
  NoDup (map productId (items c)).

(** A well-formed cart also has distinct line ids.  The code does not
    guarantee it: a line id is a [Date.now()] reading (66), and two adds in
    the same millisecond share it ([same_clock_lines_share_id]). *)
Definition cart_wf (c : Cart) : Prop :=
  lines_wf c /\ NoDup (map ci_id (items c)).

(** What the callers of the context guarantee: [addToCart] is called with a
    positive quantity (ProductCard passes the default 1, the only call). *)
Definition action_ok (s : CartState) (a : Action) : Prop :=
  match a with
  | AddToCart _ _ q => (1 <= q)%Z
  | _ => True
  end.

(** A snapshot the application itself wrote. *)
Definition snapshot_ok (o : option Snapshot) : Prop :=
  match o with
  | Some (Snap c) => lines_wf c
  | _ => True
  end.

(** The states of a mounted provider. *)
Inductive reachable : CartState -> Prop :=
| reach_mount s :
    cart s = defaultCart -> snapshot_ok (stored s) -> reachable (mount s)
| reach_step s a :
    reachable s -> action_ok s a -> reachable (step s a).

(** Two products of the seed catalogue (src/server/storage.ts 205-225). *)
Definition smartwatch : Product :=
  mkProduct 1 "Smartwatch X1" "" "999.99" "electronics" "" "4.5" (Some "NEW"%string) None
    (Some false) 0.
Definition headphones : Product :=
  mkProduct 2 "Wireless Headphones" "" "449.99" "electronics" "" "4.8" (Some "SALE"%string)
    (Some "599.99"%string) (Some false) 0.

(** ** Lemmas on the operations *)

Definition sameProduct (p : Product) (it : CartItem) : bool := (productId it =? p_id p)%Z.

Lemma addToCart_items_found now p q c n :
  findIndex (sameProduct p) (items c) = Z.of_nat n ->
  items (addToCart now p q c)
  = update_nth (fun it => with_quantity it (quantity it + q)%Z) n (items c).
Proof.
  intros H. unfold addToCart. cbn [items]. fold (sameProduct p).
  rewrite H. replace (0 <=? Z.of_nat n)%Z with true by lia. now rewrite Nat2Z.id.
Qed.

Lemma addToCart_items_new now p q c :
  (forall it, In it (items c) -> sameProduct p it = false) ->
  items (addToCart now p q c) = items c ++ [newItem now p q].
Proof.
  intros H. unfold addToCart. cbn [items]. fold (sameProduct p).
  unfold findIndex. rewrite (findIndex_from_none _ _ _ H). reflexivity.
Qed.

Lemma not_in_productIds p (l : list CartItem) :
  (forall it, In it l -> sameProduct p it = false) -> ~ In (p_id p) (map productId l).
Proof.
  intros H Hin. apply in_map_iff in Hin as (it & Hit & Hin).
  specialize (H it Hin). unfold sameProduct in H. bool_prop. congruence.
Qed.

Lemma notin_sameProduct p (l : list CartItem) :
  ~ In (p_id p) (map productId l) -> forall it, In it l -> sameProduct p it = false.
Proof.
  intros Hnot it Hit. unfold sameProduct. apply Z.eqb_neq. intros Heq. apply Hnot.
  rewrite <- Heq. now apply in_map.
Qed.

Lemma calculateTotal_map (f : CartItem -> CartItem) (l : list CartItem) :
  (forall it, lineTotal (f it) = lineTotal it) -> calculateTotal (map f l) = calculateTotal l.
Proof.
  intros H. unfold calculateTotal. rewrite sum_map_map. apply sum_map_ext. auto.
Qed.

Lemma addToCart_lines_wf now p q c :
  lines_wf c -> (1 <= q)%Z -> lines_wf (addToCart now p q c).
Proof.
  intros (_ & Hq & Hp) Hq1. split; [reflexivity|].
  destruct (findIndex_cases (sameProduct p) (items c))
    as [[_ Hnone] | (n & x & Hidx & _ & _ & _)].
  - rewrite (addToCart_items_new _ _ _ _ Hnone), !map_app. split.
    + apply Forall_app. split; [assumption|]. repeat constructor. simpl. lia.
    + apply NoDup_app_fresh; [assumption|]. now apply not_in_productIds.
  - rewrite (addToCart_items_found _ _ _ _ _ Hidx).
    rewrite (map_update_nth_proj productId) by reflexivity. split; [|assumption].
    apply Forall_update_nth; [assumption|]. simpl. lia.
Qed.

(** The ids stay distinct when the clock reading is not already a line's id. *)
Lemma addToCart_ids now p q c :
  NoDup (map ci_id (items c)) -> ~ In now (map ci_id (items c)) ->
  NoDup (map ci_id (items (addToCart now p q c))).
Proof.
  intros Hi Hnow. destruct (findIndex_cases (sameProduct p) (items c))
    as [[_ Hnone] | (n & x & Hidx & _ & _ & _)].
  - rewrite (addToCart_items_new _ _ _ _ Hnone), map_app. now apply NoDup_app_fresh.
  - rewrite (addToCart_items_found _ _ _ _ _ Hidx), (map_update_nth_proj ci_id) by reflexivity.
    exact Hi.
Qed.

Lemma addToCart_wf now p q c :
  cart_wf c -> (1 <= q)%Z -> ~ In now (map ci_id (items c)) -> cart_wf (addToCart now p q c).
Proof.
  intros [Hl Hi] Hq1 Hnow. split; [now apply addToCart_lines_wf | now apply addToCart_ids].
Qed.

Lemma removeFromCart_lines_wf i c : lines_wf c -> lines_wf (removeFromCart i c).
Proof.
  intros (_ & Hq & Hp). unfold lines_wf; cbn [items total removeFromCart].
  repeat split; auto using NoDup_map_filter.
  apply Forall_forall. intros it Hit. apply filter_In in Hit as [Hit _].
  exact (proj1 (Forall_forall _ _) Hq it Hit).
Qed.

Lemma removeFromCart_wf i c : cart_wf c -> cart_wf (removeFromCart i c).
Proof.
  intros [Hl Hi]. split; [now apply removeFromCart_lines_wf|].
  cbn [items removeFromCart]. now apply NoDup_map_filter.
Qed.

(** Rewriting the lines with the id [i] keeps every projection the
    rewrite does not touch. *)
Lemma map_ids_proj (f : CartItem -> CartItem) (g : CartItem -> Z) (i : Z) (l : list CartItem) :
  (forall it, g (f it) = g it) ->
  map g (map (fun it => if (ci_id it =? i)%Z then f it else it) l) = map g l.
Proof. intros Hg. apply map_map_proj. intros it. destruct (ci_id it =? i)%Z; auto. Qed.

Lemma setQuantity_lines_wf i q c : lines_wf c -> (1 <= q)%Z -> lines_wf (setQuantity i q c).
Proof.
  intros (_ & Hq & Hp) Hq1. unfold lines_wf; cbn [items total setQuantity].
  rewrite (map_ids_proj (fun it => with_quantity it q)) by reflexivity. repeat split; try assumption.
  apply Forall_map, (Forall_impl _ (P := fun it => 1 <= quantity it)%Z); [|assumption].
  intros it Hit. destruct (ci_id it =? i)%Z; simpl; lia.
Qed.

Lemma setQuantity_wf i q c : cart_wf c -> (1 <= q)%Z -> cart_wf (setQuantity i q c).
Proof.
  intros [Hl Hi] Hq1. split; [now apply setQuantity_lines_wf|].
  cbn [items setQuantity]. now rewrite (map_ids_proj (fun it => with_quantity it q)).
Qed.

Lemma updateSupplier_lines i sid (l : list CartItem) :
  calculateTotal
    (map (fun it => if (ci_id it =? i)%Z then with_supplier it sid else it) l)
  = calculateTotal l.
Proof. apply calculateTotal_map. intros it. now destruct (ci_id it =? i)%Z. Qed.

Lemma updateSupplier_lines_wf i sid c : lines_wf c -> lines_wf (updateSupplier i sid c).
Proof.
  intros (Ht & Hq & Hp). unfold lines_wf; cbn [items total updateSupplier].
  rewrite updateSupplier_lines, Ht.
  rewrite (map_ids_proj (fun it => with_supplier it sid)) by reflexivity. repeat split; try assumption.
  apply Forall_map, (Forall_impl _ (P := fun it => 1 <= quantity it)%Z); [|assumption].
  intros it Hit. now destruct (ci_id it =? i)%Z.
Qed.

Lemma updateSupplier_wf i sid c : cart_wf c -> cart_wf (updateSupplier i sid c).
Proof.
  intros [Hl Hi]. split; [now apply updateSupplier_lines_wf|].
  cbn [items updateSupplier]. now rewrite (map_ids_proj (fun it => with_supplier it sid)).
Qed.

Lemma defaultCart_lines_wf : lines_wf defaultCart.
Proof. repeat split; constructor. Qed.

Lemma defaultCart_wf : cart_wf defaultCart.
Proof. repeat split; constructor. Qed.

#[export] Hint Resolve addToCart_wf removeFromCart_wf setQuantity_wf
  updateSupplier_wf defaultCart_wf addToCart_lines_wf removeFromCart_lines_wf
  setQuantity_lines_wf updateSupplier_lines_wf defaultCart_lines_wf : shop.

Lemma setCart_stored f s : stored (setCart f s) = Some (Snap (cart (setCart f s))).
Proof. reflexivity. Qed.

Lemma mount_cases s :
  (stored s = None -> mount s = persist s) /\
  (stored s = Some Corrupt -> mount s = mkCartState (cart s) (Some (Snap (cart s)))) /\
  (forall c, stored s = Some (Snap c) -> mount s = mkCartState c (Some (Snap c))).
Proof.
  unfold mount. repeat split; intros; rewrite ?H; destruct s; simpl in *; subst; reflexivity.
Qed.

(** ** Properties of the cart store *)


(** C3. Adding the same product twice to a cart that does not hold it yields
    one line for it, the line of the first add, with the two quantities
    summed: never two lines. *)
Theorem addToCart_twice_one_line now1 now2 p q1 q2 c :
  ~ In (p_id p) (map productId (items c)) ->
  filter (sameProduct p) (items (addToCart now2 p q2 (addToCart now1 p q1 c)))
  = [newItem now1 p (q1 + q2)].
Proof.
  intros Hnot. pose proof (notin_sameProduct p _ Hnot) as Hnone.
  assert (Hnew : sameProduct p (newItem now1 p q1) = true) by apply Z.eqb_refl.
  rewrite (addToCart_items_found _ _ _ _ (length (items c))).
  - rewrite (addToCart_items_new _ _ _ _ Hnone).
    rewrite update_nth_app_len, filter_app, (filter_all_false _ _ Hnone). simpl.
    unfold sameProduct. simpl. now rewrite Z.eqb_refl.
  - rewrite (addToCart_items_new _ _ _ _ Hnone). unfold findIndex.
    rewrite (findIndex_from_app_none _ _ _ _ Hnone). simpl. now rewrite Hnew.
Qed.

(** [itemCount] grows by exactly the added quantity, whether the product
    was merged into its line or appended as a new one. *)
Lemma itemCount_addToCart now p q c :
  itemCount (addToCart now p q c) = (itemCount c + q)%Z.
Proof.
  unfold itemCount.
  destruct (findIndex_cases (sameProduct p) (items c))
    as [[_ Hnone] | (n & x & Hidx & Hn & _ & _)].
  - rewrite (addToCart_items_new _ _ _ _ Hnone), fold_sumZ_app. simpl. lia.
  - rewrite (addToCart_items_found _ _ _ _ _ Hidx).
    apply fold_sumZ_update_nth; [|reflexivity].
    apply nth_error_Some. congruence.
Qed.

(** C10. [updateQuantity] with a quantity below 1 changes nothing, not even
    storage; with a quantity of at least 1 every line with that id gets
    exactly that quantity and every other line is kept. *)
Theorem updateQuantity_spec s i q :
  ((q < 1)%Z -> step s (UpdateQuantity i q) = s) /\
  ((1 <= q)%Z -> forall it, In it (items (cart (step s (UpdateQuantity i q)))) ->
                 ci_id it = i -> quantity it = q) /\
  ((1 <= q)%Z -> forall it, In it (items (cart s)) -> ci_id it <> i ->
                 In it (items (cart (step s (UpdateQuantity i q))))).
Proof.
  simpl. repeat split.
  - intros Hq. now replace (q <? 1)%Z with true by lia.
  - intros Hq it Hit Hid. replace (q <? 1)%Z with false in Hit by lia.
    simpl in Hit. apply in_map_iff in Hit as (it0 & <- & _).
    destruct (ci_id it0 =? i)%Z eqn:E; [reflexivity|]. simpl in Hid. bool_prop. congruence.
  - intros Hq it Hit Hid. replace (q <? 1)%Z with false by lia. simpl.
    apply in_map_iff. exists it. split; [|assumption].
    apply Z.eqb_neq in Hid. now rewrite Hid.
Qed.

(** [removeFromCart i] keeps exactly the lines whose id is not [i]. *)
Lemma removeFromCart_spec i c it :
  In it (items (removeFromCart i c)) <-> In it (items c) /\ ci_id it <> i.
Proof.
  simpl. rewrite filter_In, negb_true_iff, Z.eqb_neq. reflexivity.
Qed.

(** Choosing a supplier keeps the cart total, and the kept total is
    still the one computed from the lines; the lines with that id now name
    the supplier. *)
Lemma updateSupplier_total_consistent i sid c :
  cart_wf c ->
  total (updateSupplier i sid c) = calculateTotal (items (updateSupplier i sid c)) /\
  total (updateSupplier i sid c) = total c /\
  (forall it, In it (items (updateSupplier i sid c)) -> ci_id it = i ->
              selectedSupplierId it = Some sid).
Proof.
  intros Hwf. destruct (updateSupplier_wf i sid c Hwf) as [[Ht _] _].
  split; [exact Ht | split; [reflexivity |]].
  intros it Hit Hid. simpl in Hit. apply in_map_iff in Hit as (it0 & <- & _).
  destruct (ci_id it0 =? i)%Z eqn:E; [reflexivity|]. simpl in Hid. bool_prop. congruence.
Qed.

(** One line whose price string does not parse makes the whole cart
    total NaN, whatever the other lines hold. *)
Lemma calculateTotal_NaN (l : list CartItem) (it : CartItem) :
  In it l -> itemPrice (ci_price it) = NaN -> calculateTotal l = NaN.
Proof.
  intros Hin Hp. apply (sum_map_NaN _ _ it Hin). unfold lineTotal. now rewrite Hp.
Qed.

(** Mounting restores a saved cart although the save effect of the first
    render writes the empty cart in between; a corrupt snapshot is dropped
    and replaced by the current cart. *)
Lemma mount_restores_snapshot s c :
  (stored s = Some (Snap c) -> mount s = mkCartState c (Some (Snap c))) /\
  (stored s = Some Corrupt -> mount s = mkCartState (cart s) (Some (Snap (cart s)))).
Proof. destruct (mount_cases s) as (_ & Hc & Hs). split; auto. Qed.

(** The snapshot is loaded as it is: a stored cart whose total does not
    match its lines is restored with that total. *)
Lemma mount_keeps_inconsistent_total :
  let bad := mkCart [newItem 1 smartwatch 1] (Fin 0) in
  cart (mount (mkCartState defaultCart (Some (Snap bad)))) = bad /\
  ~ (total bad ≈ calculateTotal (items bad)).
Proof.
  split; [reflexivity|]. intros H. apply num_eqb_spec in H. vm_compute in H. discriminate.
Qed.

(** C39. Line ids are clock readings: when two products the cart does not
    hold are added in the same millisecond, both new lines get that
    reading as their id, and removing that id removes both lines (and
    keeps exactly the lines with another id). *)
Theorem same_clock_lines_share_id (s : CartState) (now : Z) (p1 p2 : Product) :
  p_id p1 <> p_id p2 ->
  ~ In (p_id p1) (map productId (items (cart s))) ->
  ~ In (p_id p2) (map productId (items (cart s))) ->
  items (cart (run s [AddToCart now p1 1; AddToCart now p2 1])) =
    items (cart s) ++ [newItem now p1 1; newItem now p2 1] /\
  map ci_id [newItem now p1 1; newItem now p2 1] = [now; now] /\
  (forall it, In it (items (cart (run s [AddToCart now p1 1; AddToCart now p2 1; RemoveFromCart now])))
              <-> In it (items (cart s)) /\ ci_id it <> now).
Proof.
  intros Hne H1 H2.
  assert (Hitems : items (cart (run s [AddToCart now p1 1; AddToCart now p2 1])) =
                   items (cart s) ++ [newItem now p1 1; newItem now p2 1]).
  { change (items (cart (run s [AddToCart now p1 1; AddToCart now p2 1])))
      with (items (addToCart now p2 1 (addToCart now p1 1 (cart s)))).
    pose proof (addToCart_items_new now p1 1 (cart s) (notin_sameProduct p1 _ H1)) as E1.
    rewrite (addToCart_items_new now p2 1 (addToCart now p1 1 (cart s))).
    - rewrite E1. now rewrite <- app_assoc.
    - intros it Hit. rewrite E1 in Hit. apply in_app_or in Hit as [Hit | [<- | []]].
      + exact (notin_sameProduct p2 _ H2 it Hit).
      + unfold sameProduct. cbn. apply Z.eqb_neq. congruence. }
  split; [exact Hitems|]. split; [reflexivity|].
  intros it. change (run s [AddToCart now p1 1; AddToCart now p2 1; RemoveFromCart now])
    with (step (run s [AddToCart now p1 1; AddToCart now p2 1]) (RemoveFromCart now)).
  change (items (cart (step (run s [AddToCart now p1 1; AddToCart now p2 1]) (RemoveFromCart now))))
    with (items (removeFromCart now (cart (run s [AddToCart now p1 1; AddToCart now p2 1])))).
  rewrite removeFromCart_spec, Hitems.
  split.
  - intros [Hin Hid]. apply in_app_or in Hin as [Hin | [<- | [<- | []]]]; [tauto | |];
      cbn in Hid; congruence.
  - intros [Hin Hid]. split; [apply in_or_app; now left | exact Hid].
Qed.

(** ** Witnesses *)

Lemma same_clock_lines_share_id_witness :
  map ci_id (items (cart (run (mount (mkCartState defaultCart None))
                             [AddToCart 7 smartwatch 1; AddToCart 7 headphones 1]))) = [7; 7]%Z.
Proof.
  destruct (same_clock_lines_share_id (mount (mkCartState defaultCart None)) 7 smartwatch headphones
              ltac:(discriminate) ltac:(cbn; tauto) ltac:(cbn; tauto)) as (-> & _ & _).
  reflexivity.
Defined.


Lemma addToCart_twice_one_line_witness :
  filter (sameProduct smartwatch)
    (items (addToCart 6 smartwatch 2 (addToCart 5 smartwatch 1 defaultCart)))
  = [newItem 5 smartwatch 3].
Proof. apply (addToCart_twice_one_line 5 6 smartwatch 1 2 defaultCart). simpl. tauto. Defined.

Lemma updateQuantity_spec_witness :
  let s := step (mount (mkCartState defaultCart None)) (AddToCart 5 smartwatch 1) in
  step s (UpdateQuantity 5 0) = s /\
  (forall it, In it (items (cart (step s (UpdateQuantity 5 3)))) -> ci_id it = 5%Z ->
              quantity it = 3%Z).
Proof.
  intros s. split.
  - apply (proj1 (updateQuantity_spec s 5 0)). lia.
  - apply (proj1 (proj2 (updateQuantity_spec s 5 3))). lia.
Defined.

Lemma updateSupplier_total_consistent_witness :
  let c := addToCart 5 smartwatch 1 defaultCart in
  total (updateSupplier 5 2 c) = calculateTotal (items (updateSupplier 5 2 c)).
Proof.
  intros c. apply (updateSupplier_total_consistent 5 2 c).
  apply addToCart_wf; [apply defaultCart_wf | lia | simpl; tauto].
Defined.

Lemma calculateTotal_NaN_witness :
  let bad := mkCartItem 9 3 "x" (PStr "abc") 1 "" None None in
  calculateTotal (items (addToCart 5 smartwatch 1 defaultCart) ++ [bad]) = NaN.
Proof.
  intros bad. apply (calculateTotal_NaN _ bad).
  - apply in_or_app. right. now left.
  - reflexivity.
Defined.

Lemma mount_restores_snapshot_witness :
  let c := addToCart 5 smartwatch 1 defaultCart in
  mount (mkCartState defaultCart (Some (Snap c))) = mkCartState c (Some (Snap c)).
Proof. intros c. apply (proj1 (mount_restores_snapshot _ c)). reflexivity. Defined.

End CartContext.
