(* ===== verification/Checkout.v ===== *)
(** The checkout page, src/client/src/pages/Checkout.tsx.

    [calculateTotalWithShipping] is the page's totals computation (one fee per
    distinct supplier, through a Set of the ids already charged);
    [handleSubmit] is the submit handler with its three early returns and
    the payload it builds; [page_step] is the page as a state machine over
    supplier choices, clicks on "Place Order", the outcome of the order
    request and the form's handlers (text inputs, document type, file
    input with its 10MB check, Remove, payment method, the empty-cart
    page's button), written against the cart context's interface
    [CartContextType]/[CartContextLaws] only.  A selected file is its name
    and size, the two fields the page reads. *)

From Stdlib Require Import ZArith QArith String List Bool Lia Permutation Setoid Morphisms.
From S2P Require Import Prelude JsNum Schema Cart.
Import ListNotations.

Module Checkout.
Import JsNum Schema CartContext.

(** [formatPrice] (58-61) *)
Definition formatPrice (price : PriceVal) : string := toFixed 2 (itemPrice price).

(** The result of [calculateTotalWithShipping] (79-83). *)
Record Totals : Type := mkTotals {
  subtotal : num;
  shipping : num;
  t_total : num
}.

(** JS truthiness of an optional supplier id: undefined and 0 are falsy. *)
Definition truthy_id (o : option Z) : bool :=
  match o with
  | Some z => negb (z =? 0)%Z
  | None => false
  end.

(** [SUPPLIERS.find(s => s.id === id)] (72) *)
Definition findSupplier (sid : Z) : option Supplier :=
  find (fun s => (s_id s =? sid)%Z) SUPPLIERS.

(** One iteration of the [forEach] (69-77) on the pair
    ([selectedSupplierIds], [shippingTotal]). *)
Definition shippingStep (acc : list Z * num) (item : CartItem) : list Z * num :=
  let '(selectedSupplierIds, shippingTotal) := acc in
  match selectedSupplierId item with
  | Some sid =>
      if truthy_id (Some sid) && negb (existsb (Z.eqb sid) selectedSupplierIds) then
        (sid :: selectedSupplierIds,
         match findSupplier sid with
         | Some supplier => add shippingTotal (shippingFee supplier)
         | None => shippingTotal
         end)
      else acc
  | None => acc
  end.

(** [calculateTotalWithShipping] (64-84) *)
Definition calculateTotalWithShipping (c : Cart) : Totals :=
  let subtotal := total c in
  let '(_, shippingTotal) := fold_left shippingStep (items c) ([], Fin 0) in
  mkTotals subtotal shippingTotal (add subtotal shippingTotal).

(** The fee a supplier id contributes: its table entry's, none when unknown. *)
Definition supplierFee (sid : Z) : num :=
  match findSupplier sid with
  | Some s => shippingFee s
  | None => Fin 0
  end.

(** The distinct truthy supplier ids of the lines, in order of first use,
    leaving out those already in [seen]. *)
Fixpoint distinctSuppliers (seen : list Z) (l : list CartItem) : list Z :=
  match l with
  | [] => []
  | it :: l' =>
      match selectedSupplierId it with
      | Some sid =>
          if truthy_id (Some sid) && negb (existsb (Z.eqb sid) seen)
          then sid :: distinctSuppliers (sid :: seen) l'
          else distinctSuppliers seen l'
      | None => distinctSuppliers seen l'
      end
  end.

(** ** Submission *)

(** One entry of [orderItemsPayload] (199-207). *)
Record OrderItemPayload : Type := mkOrderItemPayload {
  pl_productId : Z;
  pl_productName : string;
  pl_quantity : Z;
  pl_price : string;
  pl_supplierId : option Z
}.

(** [orderPayload] (209-218). *)
Record OrderPayload : Type := mkOrderPayload {
  pl_userId : Z;
  pl_totalAmount : string;
  pl_customerName : string;
  pl_customerEmail : string;
  pl_shippingAddress : string;
  pl_paymentMethod : string;
  pl_items : list OrderItemPayload
}.

(** [typeof item.price === 'string' ? item.price : item.price.toString()] *)
Definition priceString (p : PriceVal) : string :=
  match p with
  | PStr s => s
  | PNum n => numberToString n
  end.

Definition orderItemPayload (item : CartItem) : OrderItemPayload :=
  mkOrderItemPayload (productId item) (ci_name item) (quantity item)
    (priceString (ci_price item)) (selectedSupplierId item).

(** The [File] the file input yields, by the two fields the page reads. *)
Record FileInfo : Type := mkFileInfo {
  f_name : string;
  f_size : Z
}.

(** [10 * 1024 * 1024] (137) *)
Definition MAX_FILE_SIZE : Z := 10 * 1024 * 1024.

Inductive SubmitOutcome : Type :=
| AuthError                          (* 168-175 *)
| MissingSuppliers                   (* 178-186 *)
| DocumentRequired                   (* 189-196 *)
| Submitted (payload : OrderPayload). (* 198-235 *)

Definition buildPayload (u : User) (c : Cart) (formData : CheckoutFormData) : OrderPayload :=
  let totals := calculateTotalWithShipping c in
  mkOrderPayload (u_id u) (toFixed 2 (t_total totals))
    (firstName formData ++ " " ++ lastName formData)%string
    (email formData)
    (address formData ++ ", " ++ city formData ++ ", " ++ state formData ++ " "
       ++ zipCode formData)%string
    (string_of_payment (paymentMethod formData))
    (map orderItemPayload (items c)).

(** [handleSubmit] (165-236) *)
Definition handleSubmit (isAuthLoading : bool) (user : option User) (c : Cart)
    (formData : CheckoutFormData) (selectedFile : option FileInfo) : SubmitOutcome :=
  if isAuthLoading then AuthError else
  match user with
  | None => AuthError
  | Some u =>
      if some (fun it => negb (truthy_id (selectedSupplierId it))) (items c)
      then MissingSuppliers
      else if (match documentType formData with Some _ => true | None => false end)
              && (match selectedFile with Some _ => false | None => true end)
      then DocumentRequired
      else Submitted (buildPayload u c formData)
  end.

(** ** The form's handlers *)

(** The seven text inputs of the form, by their [name] attribute
    (373-447). *)
Inductive TextField : Type := FirstName | LastName | EmailField | Address | City | State | ZipCode.

(** [setFormData(prev => ({ ...prev, [name]: value }))] (117-120) *)
Definition setField (name : TextField) (value : string) (f : CheckoutFormData) : CheckoutFormData :=
  let 'mkCheckoutFormData fn ln em ad ci st zc pm dn dt := f in
  match name with
  | FirstName => mkCheckoutFormData value ln em ad ci st zc pm dn dt
  | LastName => mkCheckoutFormData fn value em ad ci st zc pm dn dt
  | EmailField => mkCheckoutFormData fn ln value ad ci st zc pm dn dt
  | Address => mkCheckoutFormData fn ln em value ci st zc pm dn dt
  | City => mkCheckoutFormData fn ln em ad value st zc pm dn dt
  | State => mkCheckoutFormData fn ln em ad ci value zc pm dn dt
  | ZipCode => mkCheckoutFormData fn ln em ad ci st value pm dn dt
  end.

Definition with_documentName (dn : option string) (f : CheckoutFormData) : CheckoutFormData :=
  mkCheckoutFormData (firstName f) (lastName f) (email f) (address f) (city f) (state f)
    (zipCode f) (paymentMethod f) dn (documentType f).

(** [handleDocumentTypeChange] (158-163) *)
Definition with_documentType (dt : DocumentType) (f : CheckoutFormData) : CheckoutFormData :=
  mkCheckoutFormData (firstName f) (lastName f) (email f) (address f) (city f) (state f)
    (zipCode f) (paymentMethod f) (documentName f) (Some dt).

(** The payment [RadioGroup]'s [onValueChange] (546-549) *)
Definition with_payment (pm : PaymentMethod) (f : CheckoutFormData) : CheckoutFormData :=
  mkCheckoutFormData (firstName f) (lastName f) (email f) (address f) (city f) (state f)
    (zipCode f) pm (documentName f) (documentType f).

(** [handleFileChange] (132-156) on the selected file and the form: no
    file changes nothing, a file over 10MB is refused, another one is
    selected and its name recorded as [documentName]. *)
Definition handleFileChange (files : list FileInfo) (sel : option FileInfo)
    (f : CheckoutFormData) : option FileInfo * CheckoutFormData :=
  match files with
  | [] => (sel, f)
  | file :: _ =>
      if (MAX_FILE_SIZE <? f_size file)%Z then (sel, f)
      else (Some file, with_documentName (Some (f_name file)) f)
  end.

(** ** The page as a state machine *)

Section Page.
Context {S : Type} `{CartContextLaws S}.

Record Page : Type := mkPage {
  ctx : S;
  formData : CheckoutFormData;
  selectedFile : option FileInfo;
  user : option User;
  isAuthLoading : bool;
  isPending : bool;
  isSuccess : bool;
  inflight : option OrderPayload;
  location : string;
  adminOrdersInvalidated : bool;
  lastError : option string
}.

Inductive PageEvent : Type :=
| SupplierChange (itemId supplierId : Z)
| SubmitClick
| RequestSucceeded
| RequestFailed (message : string)
| InputChange (name : TextField) (value : string)
| FileChange (files : list FileInfo)
| DocumentTypeChange (dt : DocumentType)
| RemoveFile
| PaymentChange (pm : PaymentMethod)
| ContinueShopping.

(** The form is rendered unless the cart is empty before a success (255). *)
Definition showsForm (p : Page) : bool :=
  negb (match items (ctx_cart (ctx p)) with [] => true | _ => false end && negb (isSuccess p)).

(** "Place Order" is disabled while pending or without a user (596). *)
Definition submitEnabled (p : Page) : bool :=
  negb (isPending p || isAuthLoading p || match user p with None => true | _ => false end).

(** The form's inputs, the document select, the file area and the
    payment radio group exist while the form is shown and are disabled
    while the order request is pending (377-550); the Remove button also
    tests [!createOrderMutation.isPending] itself (505). *)
Definition formEnabled (p : Page) : bool := showsForm p && negb (isPending p).

Definition with_form (p : Page) (f : CheckoutFormData) (sel : option FileInfo) : Page :=
  mkPage (ctx p) f sel (user p) (isAuthLoading p) (isPending p) (isSuccess p) (inflight p)
    (location p) (adminOrdersInvalidated p) (lastError p).

(** The toast text of [onError] (108-114). *)
Definition errorText (message : string) : string :=
  match message with
  | EmptyString => "An unexpected error occurred."
  | _ => message
  end.

Definition page_step (p : Page) (e : PageEvent) : Page :=
  match e with
  | SupplierChange i sid =>
      (* handleSupplierChange (122-124) *)
      mkPage (ctx_updateSupplier i sid (ctx p)) (formData p) (selectedFile p) (user p)
        (isAuthLoading p) (isPending p) (isSuccess p) (inflight p) (location p)
        (adminOrdersInvalidated p) (lastError p)
  | SubmitClick =>
      if showsForm p && submitEnabled p then
        match handleSubmit (isAuthLoading p) (user p) (ctx_cart (ctx p)) (formData p)
                (selectedFile p) with
        | Submitted payload =>
            (* createOrderMutation.mutate(orderPayload) (235) *)
            mkPage (ctx p) (formData p) (selectedFile p) (user p) (isAuthLoading p)
              true (isSuccess p) (Some payload) (location p)
              (adminOrdersInvalidated p) (lastError p)
        | _ => p
        end
      else p
  | RequestSucceeded =>
      (* onSuccess (96-107) *)
      match inflight p with
      | Some _ =>
          mkPage (ctx_clearCart (ctx p)) (formData p) (selectedFile p) (user p)
            (isAuthLoading p) false true None "/" true (lastError p)
      | None => p
      end
  | RequestFailed msg =>
      (* onError (108-114) *)
      match inflight p with
      | Some _ =>
          mkPage (ctx p) (formData p) (selectedFile p) (user p) (isAuthLoading p)
            false (isSuccess p) None (location p) (adminOrdersInvalidated p)
            (Some (errorText msg))
      | None => p
      end
  | InputChange name v =>
      if formEnabled p then with_form p (setField name v (formData p)) (selectedFile p) else p
  | FileChange files =>
      if formEnabled p then
        let '(sel, f) := handleFileChange files (selectedFile p) (formData p) in with_form p f sel
      else p
  | DocumentTypeChange dt =>
      if formEnabled p then with_form p (with_documentType dt (formData p)) (selectedFile p) else p
  | RemoveFile =>
      (* setSelectedFile(null); documentName: undefined (503-509) *)
      if formEnabled p then with_form p (with_documentName None (formData p)) None else p
  | PaymentChange pm =>
      if formEnabled p then with_form p (with_payment pm (formData p)) (selectedFile p) else p
  | ContinueShopping =>
      (* the empty-cart page's button: setLocation("/") (260) *)
      if showsForm p then p
      else mkPage (ctx p) (formData p) (selectedFile p) (user p) (isAuthLoading p) (isPending p)
             (isSuccess p) (inflight p) "/" (adminOrdersInvalidated p) (lastError p)
  end.

Definition page_run (p : Page) (es : list PageEvent) : Page := fold_left page_step es p.

(** The spinner shows exactly while a request is in flight. *)
Definition pending_consistent (p : Page) : Prop := isPending p = true <-> inflight p <> None.

(** ** What the page shows *)

(** A line of the order summary (278-353): name, quantity, unit price, the
    supplier select's value, the box naming the chosen supplier and its
    delivery time ([SUPPLIERS.find(...)?.name], undefined for an unknown
    id), and the warning for a line without a supplier. *)
Record LineView : Type := mkLineView {
  lv_name : string;
  lv_quantity : Z;
  lv_price : string;
  lv_select : string;
  lv_supplier : option (option string * option string);
  lv_warning : bool
}.

(** [item.selectedSupplierId?.toString() || ""] (303) *)
Definition selectValue (o : option Z) : string :=
  match o with
  | Some sid => numberToString (of_Z sid)
  | None => ""
  end.

(** The select's options, one per supplier: [supplier.id.toString()]
    (310-313). *)
Definition supplierOptions : list string := map (fun s => numberToString (of_Z (s_id s))) SUPPLIERS.

Definition lineView (it : CartItem) : LineView :=
  mkLineView (ci_name it) (quantity it) ("$" ++ formatPrice (ci_price it) ++ " each")
    (selectValue (selectedSupplierId it))
    (if truthy_id (selectedSupplierId it) then
       match selectedSupplierId it with
       | Some sid => Some (option_map s_name (findSupplier sid),
                           option_map deliveryTime (findSupplier sid))
       | None => None
       end
     else None)
    (negb (truthy_id (selectedSupplierId it))).

Record CheckoutView : Type := mkCheckoutView {
  cv_lines : list LineView;
  cv_documentAlert : bool;              (* 530-536 *)
  cv_file : option (string * string);   (* name and "x.xx MB" (488-494) *)
  cv_subtotal : string;                 (* 580 *)
  cv_shipping : string;                 (* 587 *)
  cv_total : string;                    (* 592 *)
  cv_button : string;                   (* 598-606 *)
  cv_buttonDisabled : bool              (* 596 *)
}.

Inductive PageView : Type :=
| EmptyCartView                         (* 255-263 *)
| FormView (v : CheckoutView).          (* 265-615 *)

(** [(selectedFile.size / 1024 / 1024).toFixed(2)] *)
Definition fileSizeText (f : FileInfo) : string :=
  toFixed 2 (Fin (inject_Z (f_size f) / 1024 / 1024)) ++ " MB".

Definition checkoutView (p : Page) : PageView :=
  if showsForm p then
    let c := ctx_cart (ctx p) in
    let totals := calculateTotalWithShipping c in
    FormView (mkCheckoutView (map lineView (items c))
      (match documentType (formData p), selectedFile p with Some _, None => true | _, _ => false end)
      (match selectedFile p with Some f => Some (f_name f, fileSizeText f) | None => None end)
      ("$" ++ formatPrice (PNum (subtotal totals)))
      ("$" ++ formatPrice (PNum (shipping totals)))
      ("$" ++ formatPrice (PNum (t_total totals)))
      (if isPending p then "Placing Order..." else "Place Order")
      (negb (submitEnabled p)))
  else EmptyCartView.

End Page.

(** The example of the specification: a line at 10.00 times 2 and a line
    at 5.00 times 1, both shipped by supplier 1 (Fast Express, 5.99). *)
Definition example_cart : Cart :=
  let l1 := mkCartItem 1 10 "A" (PStr "10.00") 2 "" None (Some 1%Z) in
  let l2 := mkCartItem 2 11 "B" (PStr "5.00") 1 "" None (Some 1%Z) in
  mkCart [l1; l2] (calculateTotal [l1; l2]).

Definition example_user : User := mkUser 3 "buyer" "" (Some false).

Definition example_form : CheckoutFormData :=
  mkCheckoutFormData "Ada" "Lovelace" "ada@example.com" "1 Main St" "Springfield" "IL"
    "62701" credit_card None None.

(** ** Lemmas *)

Lemma shipping_fold c :
  shipping (calculateTotalWithShipping c) = snd (fold_left shippingStep (items c) ([], Fin 0)).
Proof. unfold calculateTotalWithShipping. now destruct (fold_left shippingStep (items c) _). Qed.

Lemma t_total_fold c :
  t_total (calculateTotalWithShipping c) = add (total c) (shipping (calculateTotalWithShipping c)).
Proof. unfold calculateTotalWithShipping. now destruct (fold_left shippingStep (items c) _). Qed.

Lemma charge_fee (acc : num) (sid : Z) :
  match findSupplier sid with Some s => add acc (shippingFee s) | None => acc end
  ≈ add acc (supplierFee sid).
Proof. unfold supplierFee. destruct (findSupplier sid); [reflexivity | symmetry; apply add_0_r]. Qed.

Lemma fold_shippingStep (l : list CartItem) (seen : list Z) (acc : num) :
  snd (fold_left shippingStep l (seen, acc))
  ≈ add acc (sum_map supplierFee (distinctSuppliers seen l)).
Proof.
  revert seen acc; induction l as [|it l IH]; intros seen acc;
    cbn [fold_left distinctSuppliers shippingStep].
  - symmetry. apply add_0_r.
  - destruct (selectedSupplierId it) as [sid|]; [|apply IH].
    destruct (truthy_id (Some sid) && negb (existsb (Z.eqb sid) seen)); [|apply IH].
    rewrite IH, charge_fee, sum_map_cons. symmetry. apply add_assoc.
Qed.

Lemma distinctSuppliers_In (l : list CartItem) (seen : list Z) (x : Z) :
  In x (distinctSuppliers seen l) <->
  (exists it, In it l /\ selectedSupplierId it = Some x /\ x <> 0%Z) /\ ~ In x seen.
Proof.
  revert seen; induction l as [|it l IH]; intros seen; cbn [distinctSuppliers In].
  - firstorder.
  - destruct (selectedSupplierId it) as [sid|] eqn:Hs.
    + destruct (truthy_id (Some sid) && negb (existsb (Z.eqb sid) seen)) eqn:Hc;
        cbn [truthy_id] in Hc; bool_prop; [destruct Hc as [H0 Hseen] | ]; cbn [In];
        rewrite ?IH.
      * assert (Hnin : ~ In sid seen) by (rewrite <- existsb_Zeqb_In; congruence).
        split.
        -- intros [<- | [(it' & Hit' & Hs' & Hx0) Hxs]].
           ++ split; [exists it; auto | assumption].
           ++ split; [exists it'; auto | intros Hin; apply Hxs; now right].
        -- intros [(it' & [<- | Hit'] & Hs' & Hx0) Hxs]; [left; congruence|].
           destruct (Z.eq_dec sid x) as [<- | Hne]; [now left | right].
           split; [eauto | intros [Heq | Hin]; [congruence | tauto]].
      * split; [intros [(it' & Hit' & Hs' & Hx0) Hxs]; split; eauto |].
        intros [(it' & [<- | Hit'] & Hs' & Hx0) Hxs]; [|split; eauto].
        rewrite Hs in Hs'. injection Hs' as <-. exfalso.
        destruct Hc as [Hc | Hc]; [congruence | rewrite existsb_Zeqb_In in Hc; tauto].
    + rewrite IH. split; intros [(it' & Hit' & Hs' & Hx0) Hxs]; split; eauto.
      destruct Hit' as [<- | Hit']; [congruence | eauto].
Qed.

Lemma distinctSuppliers_NoDup (l : list CartItem) (seen : list Z) :
  NoDup (distinctSuppliers seen l).
Proof.
  revert seen; induction l as [|it l IH]; intros seen; cbn [distinctSuppliers]; [constructor|].
  destruct (selectedSupplierId it) as [sid|]; [|apply IH].
  destruct (truthy_id (Some sid) && negb (existsb (Z.eqb sid) seen)); [|apply IH].
  constructor; [|apply IH]. rewrite distinctSuppliers_In. intros [_ Hn]. apply Hn. now left.
Qed.

Section PageLemmas.
Context {S : Type} `{CartContextLaws S}.

Lemma page_run_cons (p : Page) (e : PageEvent) (es : list PageEvent) :
  page_run p (e :: es) = page_run (page_step p e) es.
Proof. reflexivity. Qed.

(** Choosing supplier [sid] for the lines of some ids: line ids are kept,
    and a line whose id was chosen names [sid] afterwards. *)
Lemma supplier_choices (ids : list Z) (sid : Z) (pre : list Z) (p : Page) :
  (forall it, In it (items (ctx_cart (ctx p))) -> In (ci_id it) pre ->
              selectedSupplierId it = Some sid) ->
  map ci_id (items (ctx_cart (ctx (page_run p (map (fun i => SupplierChange i sid) ids)))))
  = map ci_id (items (ctx_cart (ctx p))) /\
  (forall it, In it (items (ctx_cart (ctx (page_run p (map (fun i => SupplierChange i sid) ids)))))
              -> In (ci_id it) (pre ++ ids) -> selectedSupplierId it = Some sid).
Proof.
  revert pre p; induction ids as [|i ids IH]; intros pre p Hp; cbn [map].
  - rewrite app_nil_r. split; [reflexivity | exact Hp].
  - rewrite page_run_cons. set (p1 := page_step p (SupplierChange i sid)).
    assert (Hitems : items (ctx_cart (ctx p1))
      = map (fun it => if (ci_id it =? i)%Z then with_supplier it sid else it)
          (items (ctx_cart (ctx p)))) by apply ctx_updateSupplier_items.
    destruct (IH (pre ++ [i]) p1) as [Hids Hsup].
    + intros it Hit Hin. rewrite Hitems in Hit.
      apply in_map_iff in Hit as (it0 & <- & Hit0).
      destruct (ci_id it0 =? i)%Z eqn:E; [reflexivity|].
      apply Hp; [assumption|]. apply in_app_or in Hin as [Hin | [Heq | []]]; [assumption|].
      simpl in Heq. bool_prop. congruence.
    + split.
      * rewrite Hids, Hitems. apply map_map_proj. intros it. now destruct (ci_id it =? i)%Z.
      * intros it Hit Hin. apply Hsup; [assumption|]. now rewrite <- app_assoc.
Qed.

Lemma page_step_pending (p : Page) (e : PageEvent) :
  pending_consistent p -> pending_consistent (page_step p e).
Proof.
  unfold pending_consistent. intros Hp.
  destruct e as [i sid | | | msg | name v | files | dt | | pm |]; cbn [page_step];
    try (destruct (formEnabled p); [|assumption]); try assumption.
  - destruct (showsForm p && submitEnabled p); [|assumption].
    destruct (handleSubmit _ _ _ _ _); simpl; try assumption. split; congruence.
  - destruct (inflight p) eqn:E; simpl; [split; congruence | rewrite E; exact Hp].
  - destruct (inflight p) eqn:E; simpl; [split; congruence | rewrite E; exact Hp].
  - destruct (handleFileChange _ _ _). exact Hp.
  - destruct (showsForm p); exact Hp.
Qed.

Lemma with_form_same (p : @Page S) : with_form p (formData p) (selectedFile p) = p.
Proof. now destruct p. Qed.

Lemma setField_doc (name : TextField) (v : string) (f : CheckoutFormData) :
  documentName (setField name v f) = documentName f /\
  documentType (setField name v f) = documentType f.
Proof. destruct f, name; split; reflexivity. Qed.

Lemma handleFileChange_type (files : list FileInfo) (sel : option FileInfo) (f : CheckoutFormData) :
  documentType (snd (handleFileChange files sel f)) = documentType f.
Proof. destruct files as [|file fs]; [reflexivity|]. cbn. now destruct (_ <? _)%Z. Qed.

Lemma handleFileChange_name (files : list FileInfo) (sel : option FileInfo) (f : CheckoutFormData) :
  documentName f = option_map f_name sel ->
  documentName (snd (handleFileChange files sel f)) = option_map f_name (fst (handleFileChange files sel f)).
Proof. intros Hf. destruct files as [|file fs]; [exact Hf|]. cbn. now destruct (_ <? _)%Z. Qed.

(** Every event either keeps the form and the selected file, or is one of
    the form's own handlers. *)
Lemma page_step_form (p : Page) (e : PageEvent) :
  (formData (page_step p e) = formData p /\ selectedFile (page_step p e) = selectedFile p) \/
  (exists name v, e = InputChange name v /\
     page_step p e = with_form p (setField name v (formData p)) (selectedFile p)) \/
  (exists files, e = FileChange files /\
     page_step p e = with_form p (snd (handleFileChange files (selectedFile p) (formData p)))
                       (fst (handleFileChange files (selectedFile p) (formData p)))) \/
  (exists dt, e = DocumentTypeChange dt /\
     page_step p e = with_form p (with_documentType dt (formData p)) (selectedFile p)) \/
  (e = RemoveFile /\ page_step p e = with_form p (with_documentName None (formData p)) None) \/
  (exists pm, e = PaymentChange pm /\
     page_step p e = with_form p (with_payment pm (formData p)) (selectedFile p)).
Proof.
  destruct e as [i sid | | | msg | name v | files | dt | | pm |]; cbn [page_step];
    try (destruct (formEnabled p); [|now left]).
  - now left.
  - left. destruct (showsForm p && submitEnabled p); [|auto].
    destruct (handleSubmit _ _ _ _ _); auto.
  - left. destruct (inflight p); auto.
  - left. destruct (inflight p); auto.
  - right; left. eauto.
  - right; right; left. exists files. split; [reflexivity|]. now destruct (handleFileChange _ _ _).
  - right; right; right; left. eauto.
  - right; right; right; right; left. auto.
  - right; right; right; right; right. eauto.
  - left. destruct (showsForm p); auto.
Qed.

Lemma handleSubmit_no_file (a : bool) (u : option User) (c : Cart) (f : CheckoutFormData)
    (pl : OrderPayload) :
  documentType f <> None -> handleSubmit a u c f None <> Submitted pl.
Proof.
  intros Hd. unfold handleSubmit. destruct (documentType f); [|congruence].
  destruct a, u; try discriminate. cbn [andb]. now destruct (some _ _).
Qed.

End PageLemmas.

(** ** Properties of the checkout *)

(** The page's loop with its Set of charged ids computes the sum of the
    fees of the distinct supplier ids of the lines, taken in order of first
    use (a falsy id, and an id not in [SUPPLIERS], adds nothing). *)
Lemma shipping_distinct_suppliers (c : Cart) :
  shipping (calculateTotalWithShipping c) ≈ sum_map supplierFee (distinctSuppliers [] (items c)).
Proof. rewrite shipping_fold, fold_shippingStep, add_0_l. reflexivity. Qed.

(** C2. Shipping charges exactly one fee per distinct supplier chosen on
    the lines, whatever order or repetition the lines have: for any
    duplicate-free list of those ids, shipping is the sum of their fees and
    the total is the subtotal plus that sum. *)
Theorem shipping_one_fee_per_supplier (c : Cart) (ds : list Z) :
  NoDup ds ->
  (forall sid, In sid ds <->
     exists it, In it (items c) /\ selectedSupplierId it = Some sid /\ sid <> 0%Z) ->
  shipping (calculateTotalWithShipping c) ≈ sum_map supplierFee ds /\
  t_total (calculateTotalWithShipping c) ≈ add (total c) (sum_map supplierFee ds).
Proof.
  intros Hnd Hds.
  assert (Hperm : Permutation (distinctSuppliers [] (items c)) ds).
  { apply NoDup_Permutation; [apply distinctSuppliers_NoDup | assumption |].
    intros x. rewrite distinctSuppliers_In, Hds. simpl. tauto. }
  assert (Hs : shipping (calculateTotalWithShipping c) ≈ sum_map supplierFee ds).
  { rewrite shipping_distinct_suppliers. now apply sum_map_perm. }
  split; [exact Hs|]. rewrite t_total_fold, Hs. reflexivity.
Qed.

(** The specification's example as the page prints it: the order is
    submitted with the amount "30.99" (subtotal 25.00 plus one fee of 5.99
    for the supplier both lines use).  Only the printed strings are
    stated: they are the same with binary64 numbers, where the sum is
    30.990000000000002 before [toFixed(2)]. *)
Lemma checkout_spec_example :
  handleSubmit false (Some example_user) example_cart example_form None
  = Submitted (buildPayload example_user example_cart example_form) /\
  pl_totalAmount (buildPayload example_user example_cart example_form) = "30.99"%string.
Proof. split; vm_compute; reflexivity. Qed.

(** C4. For a signed-in user, submission is refused for missing suppliers
    exactly when some line has no supplier id (or the falsy id 0). *)
Theorem handleSubmit_requires_suppliers (u : User) (c : Cart) (fd : CheckoutFormData)
    (file : option FileInfo) :
  handleSubmit false (Some u) c fd file = MissingSuppliers <->
  exists it, In it (items c) /\ truthy_id (selectedSupplierId it) = false.
Proof.
  unfold handleSubmit. destruct (some _ (items c)) eqn:E.
  - apply some_true_iff in E as (it & Hit & Hn). rewrite negb_true_iff in Hn.
    split; [intros _; now exists it | reflexivity].
  - rewrite some_false_iff in E. split.
    + destruct (_ && _); discriminate.
    + intros (it & Hit & Hn). specialize (E it Hit). rewrite Hn in E. discriminate.
Qed.

(** C11. A submitted order comes from a signed-in user whose auth state has
    loaded, every line has a supplier, the payload has one entry per line
    carrying that line's supplier, and its amount is the page total printed
    with two decimals. *)
Theorem handleSubmit_payload (loading : bool) (user : option User) (c : Cart)
    (fd : CheckoutFormData) (file : option FileInfo) (pl : OrderPayload) :
  handleSubmit loading user c fd file = Submitted pl ->
  loading = false /\ (exists u, user = Some u /\ pl_userId pl = u_id u) /\
  (forall it, In it (items c) -> truthy_id (selectedSupplierId it) = true) /\
  map pl_supplierId (pl_items pl) = map selectedSupplierId (items c) /\
  pl_totalAmount pl = toFixed 2 (add (total c) (shipping (calculateTotalWithShipping c))).
Proof.
  unfold handleSubmit. destruct loading; [discriminate|].
  destruct user as [u|]; [|discriminate].
  destruct (some _ (items c)) eqn:E; [discriminate|].
  destruct (_ && _); [discriminate|]. intros Hpl. injection Hpl as <-.
  rewrite some_false_iff in E. split; [reflexivity|]. split; [now exists u|].
  split; [intros it Hit; specialize (E it Hit); now rewrite negb_false_iff in E|].
  split; [unfold buildPayload; simpl; now rewrite map_map|].
  unfold buildPayload. simpl. now rewrite t_total_fold.
Qed.

(** A submitted payload is the one [buildPayload] makes for the cart and
    the form. *)
Lemma handleSubmit_submitted (loading : bool) (user : option User) (c : Cart)
    (fd : CheckoutFormData) (file : option FileInfo) (pl : OrderPayload) :
  handleSubmit loading user c fd file = Submitted pl -> exists u, pl = buildPayload u c fd.
Proof.
  unfold handleSubmit. destruct loading; [discriminate|]. destruct user as [u|]; [|discriminate].
  destruct (some _ _); [discriminate|]. destruct (_ && _); [discriminate|].
  intros E. injection E as <-. now exists u.
Qed.

Section Submit.
Context {S : Type} `{CartContextLaws S}.

(** A click on "Place Order" that sends a request: the form was shown,
    [handleSubmit] built the payload, and the page only records the
    request as pending. *)
Lemma submit_sends (p : Page) (pl : OrderPayload) :
  inflight p = None -> inflight (page_step p SubmitClick) = Some pl ->
  showsForm p = true /\
  handleSubmit (isAuthLoading p) (user p) (ctx_cart (ctx p)) (formData p) (selectedFile p)
  = Submitted pl /\
  page_step p SubmitClick =
  mkPage (ctx p) (formData p) (selectedFile p) (user p) (isAuthLoading p) true (isSuccess p)
    (Some pl) (location p) (adminOrdersInvalidated p) (lastError p).
Proof.
  intros Hn Hs. cbn [page_step] in Hs |- *.
  destruct (showsForm p); cbn [andb] in Hs |- *; [|rewrite Hn in Hs; discriminate].
  destruct (submitEnabled p); [|rewrite Hn in Hs; discriminate].
  destruct (handleSubmit _ _ _ _ _) as [| | |pl'] eqn:E; try (rewrite Hn in Hs; discriminate).
  cbn [inflight] in Hs. injection Hs as <-. auto.
Qed.

End Submit.

Section PageProps.
Context {S : Type} `{CartContextLaws S}.

(** C29. When the order request fails the cart is left as it was for a
    retry, the spinner stops and the error is shown; when it succeeds the
    cart is cleared, the admin order list is invalidated and the page goes
    home. *)
Theorem request_outcome_cart (p : Page) (msg : string) :
  inflight p <> None ->
  (ctx (page_step p (RequestFailed msg)) = ctx p /\
   isPending (page_step p (RequestFailed msg)) = false /\
   lastError (page_step p (RequestFailed msg)) = Some (errorText msg)) /\
  (items (ctx_cart (ctx (page_step p RequestSucceeded))) = [] /\
   adminOrdersInvalidated (page_step p RequestSucceeded) = true /\
   location (page_step p RequestSucceeded) = "/"%string).
Proof.
  intros Hin. simpl. destruct (inflight p) as [pl|]; [|congruence]. simpl.
  split; [repeat split | split; [apply ctx_clearCart_items | split; reflexivity]].
Qed.

(** C30. At most one order request is in flight: from a page whose spinner
    matches its requests, every sequence of events keeps it so, and a click
    on "Place Order" while a request is in flight does nothing. *)
Theorem one_order_in_flight (p : Page) (es : list PageEvent) :
  pending_consistent p ->
  pending_consistent (page_run p es) /\
  (inflight (page_run p es) <> None -> page_step (page_run p es) SubmitClick = page_run p es).
Proof.
  intros Hp. assert (Hr : pending_consistent (page_run p es)).
  { revert p Hp; induction es as [|e es IH]; intros p Hp; [exact Hp|].
    rewrite page_run_cons. apply IH. now apply page_step_pending. }
  split; [exact Hr|]. intros Hin. apply Hr in Hin. simpl. unfold submitEnabled.
  rewrite Hin. now rewrite andb_false_r.
Qed.

(** C31. Choosing a supplier other than the falsy 0 for every line of the
    cart, through the page's select, is enough for a signed-in user without
    a document type to get the order submitted. *)
Theorem choosing_suppliers_unblocks_submit (p : Page) (sid : Z) (u : User) :
  sid <> 0%Z -> documentType (formData p) = None ->
  exists pl,
    handleSubmit false (Some u)
      (ctx_cart (ctx (page_run p (map (fun it => SupplierChange (ci_id it) sid)
                                   (items (ctx_cart (ctx p)))))))
      (formData p) (selectedFile p) = Submitted pl.
Proof.
  intros Hsid Hdoc.
  destruct (supplier_choices (map ci_id (items (ctx_cart (ctx p)))) sid [] p)
    as [Hids Hsup]; [simpl; tauto|].
  rewrite map_map in Hids, Hsup.
  unfold handleSubmit. rewrite Hdoc.
  replace (some _ _) with false; [eexists; reflexivity|].
  symmetry. apply some_false_iff. intros it Hit.
  rewrite (Hsup it Hit); [simpl; now rewrite (proj2 (Z.eqb_neq sid 0) Hsid)|].
  simpl. rewrite <- map_map with (f := ci_id) (g := fun i => i). rewrite map_id.
  rewrite <- Hids. now apply in_map.
Qed.

(** C34. The size check of the file input: while the form is enabled, a
    file of at most 10MB (10 * 1024 * 1024 bytes, the bound included) is
    selected and its name recorded as the form's [documentName]; a larger
    one changes nothing. *)
Theorem file_size_limit (p : Page) (f : FileInfo) (fs : list FileInfo) :
  formEnabled p = true ->
  ((f_size f <= MAX_FILE_SIZE)%Z ->
     selectedFile (page_step p (FileChange (f :: fs))) = Some f /\
     documentName (formData (page_step p (FileChange (f :: fs)))) = Some (f_name f)) /\
  ((MAX_FILE_SIZE < f_size f)%Z -> page_step p (FileChange (f :: fs)) = p).
Proof.
  intros He. cbn [page_step]. rewrite He. unfold handleFileChange. split; intros Hs.
  - now rewrite (proj2 (Z.ltb_ge _ _) Hs).
  - rewrite (proj2 (Z.ltb_lt _ _) Hs). apply with_form_same.
Qed.

(** C35. The form's [documentName] always names the selected file: a page
    where it does keeps it so under every sequence of events. *)
Theorem document_name_tracks_file (p : Page) (es : list PageEvent) :
  documentName (formData p) = option_map f_name (selectedFile p) ->
  documentName (formData (page_run p es)) = option_map f_name (selectedFile (page_run p es)).
Proof.
  revert p; induction es as [|e es IH]; intros p Hp; [exact Hp|].
  rewrite page_run_cons. apply IH.
  destruct (page_step_form p e) as [[-> ->] | [(name & v & _ & ->) | [(files & _ & ->) |
    [(dt & _ & ->) | [(_ & ->) | (pm & _ & ->)]]]]]; cbn [formData selectedFile with_form];
    try exact Hp.
  - now rewrite (proj1 (setField_doc name v (formData p))).
  - now apply handleFileChange_name.
  - reflexivity.
Qed.

(** C32. A document type, once chosen, cannot be cleared: no event of the
    page resets it, and with no file selected a click on "Place Order"
    does nothing, although the toast tells the user to "deselect the
    document type". *)
Theorem document_type_needs_file (p : Page) (es : list PageEvent) :
  documentType (formData p) <> None ->
  documentType (formData (page_run p es)) <> None /\
  (selectedFile (page_run p es) = None -> page_step (page_run p es) SubmitClick = page_run p es).
Proof.
  intros Hd. assert (Hr : documentType (formData (page_run p es)) <> None).
  { revert p Hd; induction es as [|e es IH]; intros p Hd; [exact Hd|].
    rewrite page_run_cons. apply IH.
    destruct (page_step_form p e) as [[-> _] | [(name & v & _ & ->) | [(files & _ & ->) |
      [(dt & _ & ->) | [(_ & ->) | (pm & _ & ->)]]]]]; cbn [formData with_form];
      try exact Hd.
    - now rewrite (proj2 (setField_doc name v (formData p))).
    - now rewrite handleFileChange_type.
    - discriminate. }
  split; [exact Hr|]. intros Hf. cbn [page_step].
  destruct (showsForm _ && submitEnabled _); [|reflexivity].
  rewrite Hf. destruct (handleSubmit _ _ _ _ None) as [| | |pl] eqn:E; try reflexivity.
  exfalso. exact (handleSubmit_no_file _ _ _ _ pl Hr E).
Qed.

(** What the buyer sees is what is charged: when a click on "Place
    Order" sends a request, the total the page shows is "$" followed by
    the [totalAmount] of the payload. *)
Lemma shown_total_is_charged (p : Page) (pl : OrderPayload) :
  inflight p = None -> inflight (page_step p SubmitClick) = Some pl ->
  exists v, checkoutView p = FormView v /\ cv_total v = ("$" ++ pl_totalAmount pl)%string.
Proof.
  intros Hn Hs. destruct (submit_sends p pl Hn Hs) as (Hf & E & _).
  destruct (handleSubmit_submitted _ _ _ _ _ _ E) as [u ->].
  unfold checkoutView. rewrite Hf. eexists. split; reflexivity.
Qed.

End PageProps.

(** ** Witnesses *)

Definition example_page : @Page CartState :=
  mkPage (step (mount (mkCartState defaultCart None)) (AddToCart 5 smartwatch 1))
    example_form None (Some example_user) false false false None "/checkout" false None.

Lemma shipping_one_fee_per_supplier_witness :
  shipping (calculateTotalWithShipping example_cart) ≈ sum_map supplierFee [1%Z].
Proof.
  apply (shipping_one_fee_per_supplier example_cart [1%Z]).
  - repeat constructor. simpl. tauto.
  - intros sid. split.
    + intros [<- | []]. eexists. split; [left; reflexivity | split; [reflexivity | lia]].
    + intros (it & [<- | [<- | []]] & Hs & _); simpl in Hs; injection Hs as <-; now left.
Defined.

Lemma handleSubmit_payload_witness :
  pl_totalAmount (buildPayload example_user example_cart example_form) = "30.99"%string.
Proof.
  destruct (handleSubmit_payload false (Some example_user) example_cart example_form None
              (buildPayload example_user example_cart example_form)) as (_ & _ & _ & _ & ->).
  - vm_compute. reflexivity.
  - vm_compute. reflexivity.
Defined.

Lemma request_outcome_cart_witness :
  let p := page_run example_page [SupplierChange 5 1; SubmitClick] in
  ctx (page_step p (RequestFailed "")) = ctx p.
Proof.
  intros p. apply (proj1 (proj1 (request_outcome_cart p "" ltac:(vm_compute; intros Hc; discriminate Hc)))).
Defined.

Lemma one_order_in_flight_witness :
  let p := page_run example_page [SupplierChange 5 1; SubmitClick] in
  page_step p SubmitClick = p.
Proof.
  intros p. apply (proj2 (one_order_in_flight example_page [SupplierChange 5 1; SubmitClick]
                           ltac:(split; [intros Hc; discriminate Hc |
                                          intros Hc; exfalso; now apply Hc]))).
  vm_compute. discriminate.
Defined.

Lemma choosing_suppliers_unblocks_submit_witness :
  exists pl, handleSubmit false (Some example_user)
    (ctx_cart (ctx (page_run example_page
       (map (fun it => SupplierChange (ci_id it) 2) (items (ctx_cart (ctx example_page)))))))
    (formData example_page) (selectedFile example_page) = Submitted pl.
Proof. apply choosing_suppliers_unblocks_submit; [lia | reflexivity]. Defined.

(** A file of exactly 10MB is accepted on the example page. *)
Lemma file_size_limit_witness :
  selectedFile (page_step example_page (FileChange [mkFileInfo "id.pdf" MAX_FILE_SIZE])) =
  Some (mkFileInfo "id.pdf" MAX_FILE_SIZE).
Proof.
  refine (proj1 (proj1 (file_size_limit example_page (mkFileInfo "id.pdf" MAX_FILE_SIZE) [] _) _)).
  - vm_compute. reflexivity.
  - cbn. lia.
Defined.

(** Uploading, typing, removing and uploading again on the example page. *)
Lemma document_name_tracks_file_witness :
  let q := page_run example_page [FileChange [mkFileInfo "a.pdf" 5]; InputChange City "Paris";
                                  RemoveFile; FileChange [mkFileInfo "b.png" 7]] in
  documentName (formData q) = option_map f_name (selectedFile q).
Proof. apply document_name_tracks_file. reflexivity. Defined.

(** After choosing "Other Document" and removing the file, the order
    cannot be placed. *)
Lemma document_type_needs_file_witness :
  let q := page_run example_page [DocumentTypeChange other; SupplierChange 5 1; RemoveFile] in
  page_step q SubmitClick = q.
Proof.
  refine (proj2 (document_type_needs_file (page_step example_page (DocumentTypeChange other))
                  [SupplierChange 5 1; RemoveFile] _) _).
  - vm_compute. discriminate.
  - vm_compute. reflexivity.
Defined.

(** Placing the example order after choosing a supplier. *)
Lemma shown_total_is_charged_witness :
  exists pl v,
    inflight (page_step (page_step example_page (SupplierChange 5 1)) SubmitClick) = Some pl /\
    checkoutView (page_step example_page (SupplierChange 5 1)) = FormView v /\
    cv_total v = ("$" ++ pl_totalAmount pl)%string.
Proof.
  destruct (inflight (page_step (page_step example_page (SupplierChange 5 1)) SubmitClick))
    as [pl|] eqn:E; [|vm_compute in E; discriminate].
  destruct (shown_total_is_charged (page_step example_page (SupplierChange 5 1)) pl
              ltac:(vm_compute; reflexivity) E) as (v & Hv & Ht).
  exists pl, v. split; [reflexivity | split; assumption].
Defined.

End Checkout.
