(* ===== verification/Storage.v ===== *)
(** The server's in-memory store, class [MemStorage] of
    src/server/storage.ts, behind the interface [IStorage].

    [MemStorage] holds four JS maps keyed by serial id and four id
    counters.  Every method is a function of the store: readers return a
    value, writers return their result and the next store; [new Date()]
    is the argument [now].  [IStorage] (13-35) is a class of operations
    with the laws the request handlers rely on ([IStorageLaws]); the
    instance for [MemStorage] discharges them under the store's
    invariant [mem_ok] (every key below its counter, keys distinct, each
    order stored under its own id). *)

From Stdlib Require Import ZArith String List Bool Lia.
From S2P Require Import Prelude JsNum JsMap Schema.
Import ListNotations.

Module Storage.
Import Schema.

Record MemStorage : Type := mkMemStorage {
  users : JsMap.t User;
  productsData : JsMap.t Product;
  ordersData : JsMap.t Order;
  orderItemsData : JsMap.t OrderItem;
  currentUserId : Z;
  currentProductId : Z;
  currentOrderId : Z;
  currentOrderItemId : Z
}.

(** [x || null] on the optional columns: "" and false are falsy. *)
Definition str_or_null (o : option string) : option string :=
  match o with
  | Some EmptyString => None
  | _ => o
  end.

Definition bool_or_null (o : option bool) : option bool :=
  match o with
  | Some true => Some true
  | _ => None
  end.

Definition int_or_null (o : option Z) : option Z :=
  match o with
  | Some 0%Z => None
  | _ => o
  end.

(** [getUser] (69-71) *)
Definition getUser (id : Z) (st : MemStorage) : option User := JsMap.get id (users st).

(** [getUserByUsername] (73-77) *)
Definition getUserByUsername (name : string) (st : MemStorage) : option User :=
  find (fun u => String.eqb (username u) name) (JsMap.values (users st)).

(** The row [createUser] stores: [{ ...insertUser, id, isAdmin:
    insertUser.isAdmin ?? false }] (81-85). *)
Definition userOf (id : Z) (insertUser : InsertUser) : User :=
  mkUser id (iu_username insertUser) (iu_password insertUser)
    (Some (match iu_isAdmin insertUser with Some b => b | None => false end)).

(** [createUser] (79-88) *)
Definition createUser (insertUser : InsertUser) (st : MemStorage) : User * MemStorage :=
  let id := currentUserId st in
  let user := userOf id insertUser in
  (user, mkMemStorage (JsMap.set id user (users st)) (productsData st) (ordersData st)
           (orderItemsData st) (id + 1) (currentProductId st) (currentOrderId st)
           (currentOrderItemId st)).

(** [getProducts] (90-92) *)
Definition getProducts (st : MemStorage) : list Product := JsMap.values (productsData st).

(** [getProductsByCategory] (94-101) *)
Definition getProductsByCategory (cat : string) (st : MemStorage) : list Product :=
  if String.eqb cat "all" then getProducts st
  else filter (fun p => String.eqb (category p) cat) (JsMap.values (productsData st)).

(** [getProduct] (103-105) *)
Definition getProduct (id : Z) (st : MemStorage) : option Product :=
  JsMap.get id (productsData st).

(** [createProduct] (107-119) *)
Definition createProduct (now : Z) (ip : InsertProduct) (st : MemStorage)
    : Product * MemStorage :=
  let id := currentProductId st in
  let product := mkProduct id (ip_name ip) (ip_description ip) (ip_price ip)
                   (ip_category ip) (ip_image ip) (ip_rating ip)
                   (str_or_null (ip_badge ip)) (str_or_null (ip_discountPrice ip))
                   (bool_or_null (ip_isService ip)) now in
  (product, mkMemStorage (users st) (JsMap.set id product (productsData st)) (ordersData st)
              (orderItemsData st) (currentUserId st) (id + 1) (currentOrderId st)
              (currentOrderItemId st)).

(** [getOrders] (121-123) *)
Definition getOrders (st : MemStorage) : list Order := JsMap.values (ordersData st).

(** [getOrderById] (125-127) *)
Definition getOrderById (id : Z) (st : MemStorage) : option Order := JsMap.get id (ordersData st).

(** [getOrdersByUserId] (129-133) *)
Definition getOrdersByUserId (uid : Z) (st : MemStorage) : list Order :=
  filter (fun o => (userId o =? uid)%Z) (JsMap.values (ordersData st)).

(** The row [createOrder] stores: [{ ...insertOrder, id, createdAt,
    status: insertOrder.status || "pending" }] (137-142). *)
Definition orderOf (id now : Z) (io : InsertOrder) : Order :=
  mkOrder id (io_userId io) (io_totalAmount io) (io_customerName io)
    (io_customerEmail io) (io_shippingAddress io) (io_paymentMethod io)
    (match io_status io with
     | Some EmptyString | None => "pending"
     | Some s => s
     end) now.

(** [createOrder] (135-145) *)
Definition createOrder (now : Z) (io : InsertOrder) (st : MemStorage) : Order * MemStorage :=
  let id := currentOrderId st in
  let order := orderOf id now io in
  (order, mkMemStorage (users st) (productsData st) (JsMap.set id order (ordersData st))
            (orderItemsData st) (currentUserId st) (currentProductId st) (id + 1)
            (currentOrderItemId st)).

Definition with_status (o : Order) (s : string) : Order :=
  mkOrder (o_id o) (userId o) (totalAmount o) (customerName o) (customerEmail o)
    (shippingAddress o) (o_paymentMethod o) s (o_createdAt o).

(** An order after [updateOrderStatus id status], seen in a list: the
    order with that id has the new status, the others are as they were. *)
Definition status_updated (id : Z) (status : string) (o : Order) : Order :=
  if (o_id o =? id)%Z then with_status o status else o.

(** [updateOrderStatus] (147-157) *)
Definition updateOrderStatus (id : Z) (status : string) (st : MemStorage)
    : option Order * MemStorage :=
  match JsMap.get id (ordersData st) with
  | None => (None, st)
  | Some order =>
      let updatedOrder := with_status order status in
      (Some updatedOrder,
       mkMemStorage (users st) (productsData st) (JsMap.set id updatedOrder (ordersData st))
         (orderItemsData st) (currentUserId st) (currentProductId st) (currentOrderId st)
         (currentOrderItemId st))
  end.

(** [getOrderItems] (159-163) *)
Definition getOrderItems (oid : Z) (st : MemStorage) : list OrderItem :=
  filter (fun it => (orderId it =? oid)%Z) (JsMap.values (orderItemsData st)).

(** The row [createOrderItem] stores (167-172): a supplier id of 0 becomes
    null. *)
Definition orderItemOf (id now : Z) (ioi : InsertOrderItem) : OrderItem :=
  mkOrderItem id (ioi_orderId ioi) (ioi_productId ioi) (ioi_productName ioi)
    (ioi_quantity ioi) (ioi_price ioi) (int_or_null (ioi_supplierId ioi)) now.

(** [createOrderItem] (165-175) *)
Definition createOrderItem (now : Z) (ioi : InsertOrderItem) (st : MemStorage)
    : OrderItem * MemStorage :=
  let id := currentOrderItemId st in
  let orderItem := orderItemOf id now ioi in
  (orderItem, mkMemStorage (users st) (productsData st) (ordersData st)
                (JsMap.set id orderItem (orderItemsData st)) (currentUserId st)
                (currentProductId st) (currentOrderId st) (id + 1)).

(** [seedAdminUser] (178-196), with the hash [hashPassword("Coimbatore")]
    produced. *)
Definition seedAdminUser (hashedPassword : string) (st : MemStorage) : MemStorage :=
  match getUserByUsername "admin" st with
  | Some _ => st
  | None => snd (createUser (mkInsertUser "admin" hashedPassword (Some true)) st)
  end.

(** The catalogue [seedProducts] inserts (204-347). *)
Definition dummyProducts : list InsertProduct := [
  mkInsertProduct "Smartwatch X1"
    "Premium smartwatch with health tracking and long battery life."
    "999.99" "electronics"
    "https://images.unsplash.com/photo-1546868871-0f936769675e?auto=format&fit=crop&w=400&h=300"
    "4.5" (Some "NEW"%string) None (Some false);
  mkInsertProduct "Wireless Headphones"
    "Noise-cancelling headphones with crystal clear sound quality."
    "449.99" "electronics"
    "https://images.unsplash.com/photo-1492107376256-4026437926cd?auto=format&fit=crop&w=400&h=300"
    "4.8" (Some "SALE"%string) (Some "599.99"%string) (Some false);
  mkInsertProduct "Designer Backpack"
    "Stylish and functional backpack with multiple compartments."
    "79.99" "fashion"
    "https://images.unsplash.com/photo-1598033129183-c4f50c736f10?auto=format&fit=crop&w=400&h=300"
    "4.3" None None (Some false);
  mkInsertProduct "Smart Coffee Maker"
    "App-controlled coffee maker with programmable brewing."
    "199.99" "home"
    "https://images.unsplash.com/photo-1540574163026-643ea20ade25?auto=format&fit=crop&w=400&h=300"
    "4.6" None None (Some false);
  mkInsertProduct "Premium Web Design"
    "Professional web design services for your business or personal site."
    "149.00" "services"
    "https://images.unsplash.com/photo-1590650046871-92c887180603?auto=format&fit=crop&w=400&h=300"
    "4.9" (Some "POPULAR"%string) None (Some true);
  mkInsertProduct "Leather Wallet"
    "Handcrafted genuine leather wallet with RFID protection."
    "59.99" "fashion"
    "https://images.unsplash.com/photo-1602810318660-d2c46b750f88?auto=format&fit=crop&w=400&h=300"
    "4.1" None None (Some false);
  mkInsertProduct "Smart Home Hub"
    "Control all your smart home devices from one central hub."
    "299.99" "home"
    "https://images.unsplash.com/photo-1579656381226-5fc0f0100c3b?auto=format&fit=crop&w=400&h=300"
    "4.4" None None (Some false);
  mkInsertProduct "Ultra Slim Laptop"
    "Powerful laptop with all-day battery life and stunning display."
    "1299.99" "electronics"
    "https://images.unsplash.com/photo-1593642702909-dec73df255d7?auto=format&fit=crop&w=400&h=300"
    "4.7" (Some "BESTSELLER"%string) None (Some false);
  mkInsertProduct "Mobile App Development"
    "Custom mobile application development for iOS and Android."
    "89.99" "services"
    "https://images.unsplash.com/photo-1551650975-87deedd944c3?auto=format&fit=crop&w=400&h=300"
    "4.5" None None (Some true);
  mkInsertProduct "Indoor Plant Set"
    "Set of 3 low-maintenance indoor plants with decorative pots."
    "49.99" "home"
    "https://images.unsplash.com/photo-1554244933-d876deb6b2ff?auto=format&fit=crop&w=400&h=300"
    "4.2" (Some "SALE"%string) (Some "69.99"%string) (Some false);
  mkInsertProduct "Running Shoes"
    "Lightweight running shoes with ergonomic design and extra cushioning."
    "129.99" "fashion"
    "https://images.unsplash.com/photo-1520639888713-7851133b1ed0?auto=format&fit=crop&w=400&h=300"
    "4.3" None None (Some false);
  mkInsertProduct "Smart Security Camera"
    "Wireless security camera with motion detection and cloud storage."
    "349.99" "electronics"
    "https://images.unsplash.com/photo-1546435770-a3e426bf472b?auto=format&fit=crop&w=400&h=300"
    "4.6" None None (Some false);
  mkInsertProduct "Professional Photography"
    "Professional photography services for events, portraits, and products."
    "199.99" "services"
    "https://images.unsplash.com/photo-1542038784456-1ea8e935640e?auto=format&fit=crop&w=400&h=300"
    "4.7" None None (Some true);
  mkInsertProduct "Wireless Earbuds"
    "True wireless earbuds with touch controls and noise isolation."
    "129.99" "electronics"
    "https://images.unsplash.com/photo-1588423771073-b8903fbb85b5?auto=format&fit=crop&w=400&h=300"
    "4.3" None None (Some false);
  mkInsertProduct "Stylish Sunglasses"
    "Polarized sunglasses with UV protection and durable frame."
    "89.99" "fashion"
    "https://images.unsplash.com/photo-1577803645773-f96470509666?auto=format&fit=crop&w=400&h=300"
    "4.2" None None (Some false)
].

(** [seedProducts] (198-353) *)
Definition seedProducts (now : Z) (st : MemStorage) : MemStorage :=
  if (0 <? JsMap.size (productsData st))%nat then st
  else fold_left (fun st ip => snd (createProduct now ip st)) dummyProducts st.

(** The constructor (47-67): empty maps, counters at 1, the products
    seeded, then the admin user. *)
Definition newMemStorage (now : Z) (hashedPassword : string) : MemStorage :=
  seedAdminUser hashedPassword
    (seedProducts now (mkMemStorage JsMap.empty JsMap.empty JsMap.empty JsMap.empty 1 1 1 1)).

(** ** The interface [IStorage] (13-35) and its laws *)

Class IStorage (St : Type) := {
  st_getUser : Z -> St -> option User;
  st_getUserByUsername : string -> St -> option User;
  st_createUser : InsertUser -> St -> User * St;
  st_getProducts : St -> list Product;
  st_getProductsByCategory : string -> St -> list Product;
  st_getProduct : Z -> St -> option Product;
  st_createProduct : Z -> InsertProduct -> St -> Product * St;
  st_getOrders : St -> list Order;
  st_getOrderById : Z -> St -> option Order;
  st_getOrdersByUserId : Z -> St -> list Order;
  st_createOrder : Z -> InsertOrder -> St -> Order * St;
  st_updateOrderStatus : Z -> string -> St -> option Order * St;
  st_getOrderItems : Z -> St -> list OrderItem;
  st_createOrderItem : Z -> InsertOrderItem -> St -> OrderItem * St
}.

(** What the routes rely on, under an invariant [st_ok] of the store: a
    created user is the row [userOf] builds, found by its id and, when its
    name was free, by its name; a created order gets a fresh id, is found
    by it and has no items yet;
    an item created for an existing order is appended to that order's
    items; a status update changes that order alone. *)
Class IStorageLaws (St : Type) `{IStorage St} := {
  st_ok : St -> Prop;
  createUser_law : forall iu s u s',
    st_createUser iu s = (u, s') ->
    u = userOf (u_id u) iu /\ st_getUser (u_id u) s' = Some u /\
    (st_getUserByUsername (iu_username iu) s = None ->
     st_getUserByUsername (iu_username iu) s' = Some u);
  createOrder_law : forall s now io o s',
    st_ok s -> st_createOrder now io s = (o, s') ->
    st_ok s' /\ o = orderOf (o_id o) now io /\
    st_getOrderById (o_id o) s = None /\ st_getOrderById (o_id o) s' = Some o /\
    (forall j, j <> o_id o -> st_getOrderById j s' = st_getOrderById j s) /\
    (forall j, st_getOrderItems j s' = st_getOrderItems j s);
  createOrderItem_law : forall s now ioi it s',
    st_ok s -> st_getOrderById (ioi_orderId ioi) s <> None ->
    st_createOrderItem now ioi s = (it, s') ->
    st_ok s' /\ it = orderItemOf (oi_id it) now ioi /\
    st_getOrderItems (ioi_orderId ioi) s' = st_getOrderItems (ioi_orderId ioi) s ++ [it] /\
    (forall j, j <> ioi_orderId ioi -> st_getOrderItems j s' = st_getOrderItems j s) /\
    (forall j, st_getOrderById j s' = st_getOrderById j s);
  fresh_order_no_items : forall s j,
    st_ok s -> st_getOrderById j s = None -> st_getOrderItems j s = [];
  getOrderById_listed : forall s j o,
    st_getOrderById j s = Some o -> In o (st_getOrders s);
  updateOrderStatus_orders : forall s id status,
    st_ok s ->
    st_getOrders (snd (st_updateOrderStatus id status s)) =
    map (status_updated id status) (st_getOrders s);
  updateOrderStatus_law : forall s id status,
    st_ok s ->
    match st_getOrderById id s with
    | None => st_updateOrderStatus id status s = (None, s)
    | Some o => exists s',
        st_updateOrderStatus id status s = (Some (with_status o status), s') /\
        st_ok s' /\ st_getOrderById id s' = Some (with_status o status) /\
        (forall j, j <> id -> st_getOrderById j s' = st_getOrderById j s) /\
        (forall j, st_getOrderItems j s' = st_getOrderItems j s)
    end
}.

#[export] Instance mem_storage : IStorage MemStorage := {
  st_getUser := getUser;
  st_getUserByUsername := getUserByUsername;
  st_createUser := createUser;
  st_getProducts := getProducts;
  st_getProductsByCategory := getProductsByCategory;
  st_getProduct := getProduct;
  st_createProduct := createProduct;
  st_getOrders := getOrders;
  st_getOrderById := getOrderById;
  st_getOrdersByUserId := getOrdersByUserId;
  st_createOrder := createOrder;
  st_updateOrderStatus := updateOrderStatus;
  st_getOrderItems := getOrderItems;
  st_createOrderItem := createOrderItem
}.

(** The invariant of a [MemStorage]: order keys are distinct and below the
    order counter, item keys are below the item counter, every item
    belongs to a stored order, and each order is stored under its id. *)
Definition mem_ok (st : MemStorage) : Prop :=
  NoDup (JsMap.keys (ordersData st)) /\
  (forall k, In k (JsMap.keys (ordersData st)) -> (k < currentOrderId st)%Z) /\
  (forall k, In k (JsMap.keys (orderItemsData st)) -> (k < currentOrderItemId st)%Z) /\
  (forall it, In it (JsMap.values (orderItemsData st)) ->
              In (orderId it) (JsMap.keys (ordersData st))) /\
  Forall (fun e => o_id (snd e) = fst e) (ordersData st).

(** ** The laws hold for [MemStorage] *)

Lemma counter_fresh (ks : list Z) (c : Z) : (forall k, In k ks -> (k < c)%Z) -> ~ In c ks.
Proof. intros H Hin. specialize (H c Hin). lia. Qed.

Lemma keys_set_fresh {V} (k : Z) (v : V) (m : JsMap.t V) :
  ~ In k (JsMap.keys m) -> JsMap.keys (JsMap.set k v m) = JsMap.keys m ++ [k].
Proof. intros H. rewrite JsMap.set_fresh by assumption. unfold JsMap.keys. now rewrite map_app. Qed.

Lemma mem_createOrder_law s now io o s' :
  mem_ok s -> createOrder now io s = (o, s') ->
  mem_ok s' /\ o = orderOf (o_id o) now io /\
  getOrderById (o_id o) s = None /\ getOrderById (o_id o) s' = Some o /\
  (forall j, j <> o_id o -> getOrderById j s' = getOrderById j s) /\
  (forall j, getOrderItems j s' = getOrderItems j s).
Proof.
  intros (Hnd & Hb & Hbi & Hit & Hid) Heq. injection Heq as <- <-.
  pose proof (counter_fresh _ _ Hb) as Hfresh. cbn [o_id orderOf].
  unfold mem_ok, getOrderById, getOrderItems; cbn [ordersData orderItemsData
    currentOrderId currentOrderItemId].
  rewrite keys_set_fresh by assumption.
  repeat split; auto.
  - now apply NoDup_app_fresh.
  - intros k Hk. apply in_app_or in Hk as [Hk | [<- | []]]; [specialize (Hb k Hk)|]; lia.
  - intros it Hin. apply in_or_app. left. auto.
  - apply JsMap.Forall_set; [assumption | reflexivity].
  - now apply JsMap.get_None_iff.
  - apply JsMap.get_set_eq.
  - intros j Hj. now apply JsMap.get_set_ne.
Qed.

Lemma mem_createOrderItem_law s now ioi it s' :
  mem_ok s -> getOrderById (ioi_orderId ioi) s <> None ->
  createOrderItem now ioi s = (it, s') ->
  mem_ok s' /\ it = orderItemOf (oi_id it) now ioi /\
  getOrderItems (ioi_orderId ioi) s' = getOrderItems (ioi_orderId ioi) s ++ [it] /\
  (forall j, j <> ioi_orderId ioi -> getOrderItems j s' = getOrderItems j s) /\
  (forall j, getOrderById j s' = getOrderById j s).
Proof.
  intros (Hnd & Hb & Hbi & Hit & Hid) Hord Heq. injection Heq as <- <-.
  pose proof (counter_fresh _ _ Hbi) as Hfresh.
  assert (Hk : In (ioi_orderId ioi) (JsMap.keys (ordersData s))).
  { destruct (getOrderById (ioi_orderId ioi) s) eqn:E; [|congruence].
    now apply JsMap.get_Some_keys in E. }
  unfold mem_ok, getOrderById, getOrderItems; cbn [ordersData orderItemsData
    currentOrderId currentOrderItemId oi_id orderItemOf].
  rewrite keys_set_fresh, JsMap.values_set_fresh, filter_app by assumption.
  repeat split; auto.
  - intros k Hk'. apply in_app_or in Hk' as [Hk' | [<- | []]]; [specialize (Hbi k Hk')|]; lia.
  - intros it0 Hin. apply in_app_or in Hin as [Hin | [<- | []]]; auto.
  - simpl. now rewrite Z.eqb_refl.
  - intros j Hj. rewrite filter_app. simpl.
    replace (ioi_orderId ioi =? j)%Z with false by lia. apply app_nil_r.
Qed.

Lemma mem_fresh_order_no_items s j :
  mem_ok s -> getOrderById j s = None -> getOrderItems j s = [].
Proof.
  intros (_ & _ & _ & Hit & _) Hj. apply JsMap.get_None_iff in Hj.
  apply filter_all_false. intros it Hin. apply Z.eqb_neq. intros <-. exact (Hj (Hit it Hin)).
Qed.

Lemma mem_updateOrderStatus_law s id status :
  mem_ok s ->
  match getOrderById id s with
  | None => updateOrderStatus id status s = (None, s)
  | Some o => exists s',
      updateOrderStatus id status s = (Some (with_status o status), s') /\
      mem_ok s' /\ getOrderById id s' = Some (with_status o status) /\
      (forall j, j <> id -> getOrderById j s' = getOrderById j s) /\
      (forall j, getOrderItems j s' = getOrderItems j s)
  end.
Proof.
  intros (Hnd & Hb & Hbi & Hit & Hid). unfold updateOrderStatus, getOrderById.
  destruct (JsMap.get id (ordersData s)) as [o|] eqn:E; [|reflexivity].
  pose proof (JsMap.get_Some_keys _ _ _ E) as Hk.
  eexists. split; [reflexivity|]. unfold mem_ok, getOrderItems; cbn [ordersData orderItemsData
    currentOrderId currentOrderItemId].
  rewrite JsMap.keys_set_present by assumption.
  repeat split; auto.
  - apply JsMap.Forall_set; [assumption|]. exact (JsMap.get_Forall _ _ _ _ Hid E).
  - apply JsMap.get_set_eq.
  - intros j Hj. now apply JsMap.get_set_ne.
Qed.

Lemma values_status_fresh (m : JsMap.t Order) (id : Z) (status : string) :
  ~ In id (JsMap.keys m) -> Forall (fun e => o_id (snd e) = fst e) m ->
  map (status_updated id status) (JsMap.values m) = JsMap.values m.
Proof.
  intros Hk Hm. induction Hm as [|e m Hkv Hm IH]; [reflexivity|]. destruct e as [k v].
  cbn [fst snd] in Hkv. simpl in *.
  unfold status_updated at 1. rewrite Hkv.
  replace (k =? id)%Z with false by (symmetry; apply Z.eqb_neq; tauto). now rewrite IH by tauto.
Qed.

Lemma values_status_set (m : JsMap.t Order) (id : Z) (status : string) (o : Order) :
  NoDup (JsMap.keys m) -> Forall (fun e => o_id (snd e) = fst e) m ->
  JsMap.get id m = Some o ->
  JsMap.values (JsMap.set id (with_status o status) m) =
  map (status_updated id status) (JsMap.values m).
Proof.
  intros Hnd Hm. induction Hm as [|e m Hkv Hm IH]; [discriminate|]. destruct e as [k v].
  cbn [fst snd] in Hkv. simpl in *. apply NoDup_cons_iff in Hnd as [Hnin Hnd'].
  unfold status_updated at 1. rewrite Hkv. destruct (k =? id)%Z eqn:E; simpl.
  - intros Ho. injection Ho as <-. apply Z.eqb_eq in E. subst id.
    f_equal. symmetry. now apply values_status_fresh.
  - intros Hget. f_equal. now apply IH.
Qed.

Lemma mem_updateOrderStatus_orders s id status :
  mem_ok s ->
  getOrders (snd (updateOrderStatus id status s)) = map (status_updated id status) (getOrders s).
Proof.
  intros (Hnd & _ & _ & _ & Hid). unfold updateOrderStatus, getOrders.
  destruct (JsMap.get id (ordersData s)) as [o|] eqn:E; cbn [snd ordersData].
  - now apply values_status_set.
  - symmetry. apply values_status_fresh; [now apply JsMap.get_None_iff | assumption].
Qed.

(** Seeding touches neither the orders nor the items. *)
Lemma seedProducts_orders (now : Z) (st : MemStorage) :
  ordersData (seedProducts now st) = ordersData st /\
  orderItemsData (seedProducts now st) = orderItemsData st /\
  currentOrderId (seedProducts now st) = currentOrderId st /\
  currentOrderItemId (seedProducts now st) = currentOrderItemId st.
Proof.
  unfold seedProducts. destruct (0 <? JsMap.size (productsData st))%nat; [auto|].
  generalize dummyProducts st. intros l. induction l as [|ip l IH]; intros s; cbn [fold_left]; [auto|].
  destruct (IH (snd (createProduct now ip s))) as (-> & -> & -> & ->). auto.
Qed.

Lemma seedAdminUser_orders (h : string) (st : MemStorage) :
  ordersData (seedAdminUser h st) = ordersData st /\
  orderItemsData (seedAdminUser h st) = orderItemsData st /\
  currentOrderId (seedAdminUser h st) = currentOrderId st /\
  currentOrderItemId (seedAdminUser h st) = currentOrderItemId st.
Proof. unfold seedAdminUser. destruct (getUserByUsername "admin" st); auto. Qed.

Lemma mem_createUser_law iu s u s' :
  createUser iu s = (u, s') ->
  u = userOf (u_id u) iu /\ getUser (u_id u) s' = Some u /\
  (getUserByUsername (iu_username iu) s = None -> getUserByUsername (iu_username iu) s' = Some u).
Proof.
  intros Heq. injection Heq as <- <-. split; [reflexivity|]. split; [apply JsMap.get_set_eq|].
  intros Hnone. apply JsMap.find_values_set; [assumption | apply String.eqb_refl].
Qed.

#[export] Instance mem_storage_laws : IStorageLaws MemStorage := {
  st_ok := mem_ok;
  createUser_law := mem_createUser_law;
  createOrder_law := mem_createOrder_law;
  createOrderItem_law := mem_createOrderItem_law;
  fresh_order_no_items := mem_fresh_order_no_items;
  getOrderById_listed s j o := JsMap.get_In j o (ordersData s);
  updateOrderStatus_orders := mem_updateOrderStatus_orders;
  updateOrderStatus_law := mem_updateOrderStatus_law
}.

(** The store the server starts with satisfies the invariant. *)
Lemma newMemStorage_ok (now : Z) (h : string) : mem_ok (newMemStorage now h).
Proof.
  unfold newMemStorage.
  destruct (seedAdminUser_orders h (seedProducts now
    (mkMemStorage JsMap.empty JsMap.empty JsMap.empty JsMap.empty 1 1 1 1))) as (E1 & E2 & _).
  destruct (seedProducts_orders now
    (mkMemStorage JsMap.empty JsMap.empty JsMap.empty JsMap.empty 1 1 1 1)) as (F1 & F2 & _).
  unfold mem_ok. rewrite E1, E2, F1, F2. simpl. repeat split; [constructor | tauto .. | constructor].
Qed.

End Storage.
