(* ===== verification/Http.v ===== *)
(** Requests and responses of the REST API (src/server/routes.ts,
    src/server/auth.ts): JSON request bodies, the validation that the
    drizzle-zod insert schemas of src/shared/schema.ts perform on them, and
    responses as a status code with a body.

    The validation follows the column types of schema.ts as drizzle-zod
    turns them into zod schemas: a text or numeric column is a string, an
    integer column an integral number, a boolean column a boolean; a column
    with a default or without [notNull] is optional (and nullable without
    [notNull]); unknown keys are dropped; every failing field is reported.
    An object body keeps each key once, as [JSON.parse] leaves it. *)

From Stdlib Require Import ZArith QArith String List Bool Lia.
From S2P Require Import Prelude JsNum Schema.
Import ListNotations.

Module Http.
Import JsNum Schema.
#[local] Open Scope string_scope.
#[local] Set Warnings "-register-all".

Inductive json : Type :=
| JNull
| JBool (b : bool)
| JNum (n : num)
| JStr (s : string)
| JArr (l : list json)
| JObj (fields : list (string * json)).

(** [obj[k]] *)
Fixpoint jget (k : string) (fs : list (string * json)) : option json :=
  match fs with
  | [] => None
  | (k', v) :: fs' => if String.eqb k' k then Some v else jget k fs'
  end.

(** [{ ...obj, [k]: v }]: a present key keeps its place. *)
Fixpoint jset (k : string) (v : json) (fs : list (string * json)) : list (string * json) :=
  match fs with
  | [] => [(k, v)]
  | (k', v') :: fs' => if String.eqb k' k then (k, v) :: fs' else (k', v') :: jset k v fs'
  end.

(** The own properties a spread copies: those of an object, none for the
    other values (an array body fails every schema below either way). *)
Definition fields_of (j : json) : list (string * json) :=
  match j with
  | JObj fs => fs
  | _ => []
  end.

(** [Number.isInteger] on a finite value. *)
Definition int_of_num (n : num) : option Z :=
  match n with
  | Fin q => let r := Qred q in if (Zpos (Qden r) =? 1)%Z then Some (Qnum r) else None
  | _ => None
  end.

Definition json_of_Z (z : Z) : json := JNum (of_Z z).

(** Field readers: [None] is a zod issue at that key. *)
Definition str_field (fs : list (string * json)) (k : string) : option string :=
  match jget k fs with Some (JStr s) => Some s | _ => None end.

Definition int_field (fs : list (string * json)) (k : string) : option Z :=
  match jget k fs with Some (JNum n) => int_of_num n | _ => None end.

(** An optional field: absent is [Some None]. *)
Definition opt_str_field (fs : list (string * json)) (k : string) : option (option string) :=
  match jget k fs with
  | None => Some None
  | Some (JStr s) => Some (Some s)
  | _ => None
  end.

(** An optional and nullable field: absent or null is [Some None]. *)
Definition nullable_str_field (fs : list (string * json)) (k : string) : option (option string) :=
  match jget k fs with
  | None | Some JNull => Some None
  | Some (JStr s) => Some (Some s)
  | _ => None
  end.

Definition nullable_int_field (fs : list (string * json)) (k : string) : option (option Z) :=
  match jget k fs with
  | None | Some JNull => Some None
  | Some (JNum n) => option_map Some (int_of_num n)
  | _ => None
  end.

Definition nullable_bool_field (fs : list (string * json)) (k : string) : option (option bool) :=
  match jget k fs with
  | None | Some JNull => Some None
  | Some (JBool b) => Some (Some b)
  | _ => None
  end.

(** The keys whose reader failed, in schema order. *)
Definition issues (checks : list (string * bool)) : list string :=
  map fst (filter (fun kc => negb (snd kc)) checks).

Definition ok {A} (o : option A) : bool := match o with Some _ => true | None => false end.

(** [insertOrderSchema.parse] *)
Definition parseInsertOrder (fs : list (string * json)) : list string + InsertOrder :=
  let u := int_field fs "userId" in
  let t := str_field fs "totalAmount" in
  let n := str_field fs "customerName" in
  let e := str_field fs "customerEmail" in
  let a := str_field fs "shippingAddress" in
  let p := str_field fs "paymentMethod" in
  let s := opt_str_field fs "status" in
  match u, t, n, e, a, p, s with
  | Some u, Some t, Some n, Some e, Some a, Some p, Some s =>
      inr (mkInsertOrder u t n e a p s)
  | _, _, _, _, _, _, _ =>
      inl (issues [("userId", ok u); ("totalAmount", ok t); ("customerName", ok n);
                   ("customerEmail", ok e); ("shippingAddress", ok a);
                   ("paymentMethod", ok p); ("status", ok s)])
  end.

(** [insertOrderItemSchema.parse] *)
Definition parseInsertOrderItem (fs : list (string * json)) : list string + InsertOrderItem :=
  let o := int_field fs "orderId" in
  let pid := int_field fs "productId" in
  let n := str_field fs "productName" in
  let q := int_field fs "quantity" in
  let pr := str_field fs "price" in
  let sid := nullable_int_field fs "supplierId" in
  match o, pid, n, q, pr, sid with
  | Some o, Some pid, Some n, Some q, Some pr, Some sid =>
      inr (mkInsertOrderItem o pid n q pr sid)
  | _, _, _, _, _, _ =>
      inl (issues [("orderId", ok o); ("productId", ok pid); ("productName", ok n);
                   ("quantity", ok q); ("price", ok pr); ("supplierId", ok sid)])
  end.

(** [insertProductSchema.parse] *)
Definition parseInsertProduct (fs : list (string * json)) : list string + InsertProduct :=
  let n := str_field fs "name" in
  let d := str_field fs "description" in
  let pr := str_field fs "price" in
  let c := str_field fs "category" in
  let i := str_field fs "image" in
  let r := str_field fs "rating" in
  let b := nullable_str_field fs "badge" in
  let dp := nullable_str_field fs "discountPrice" in
  let sv := nullable_bool_field fs "isService" in
  match n, d, pr, c, i, r, b, dp, sv with
  | Some n, Some d, Some pr, Some c, Some i, Some r, Some b, Some dp, Some sv =>
      inr (mkInsertProduct n d pr c i r b dp sv)
  | _, _, _, _, _, _, _, _, _ =>
      inl (issues [("name", ok n); ("description", ok d); ("price", ok pr);
                   ("category", ok c); ("image", ok i); ("rating", ok r);
                   ("badge", ok b); ("discountPrice", ok dp); ("isService", ok sv)])
  end.

(** ** Responses *)

Inductive Body : Type :=
| BMessage (message : string)
| BInvalid (message : string) (errors : list string)
| BProducts (ps : list Product)
| BProduct (p : Product)
| BOrder (o : Order)
| BOrders (os : list Order)
| BOrderDetails (o : Order) (its : list OrderItem)
| BUser (id : Z) (username : string) (isAdmin : option bool)
| BEmpty.

Record Response : Type := mkResponse {
  code : Z;
  body : Body
}.

Definition message (c : Z) (m : string) : Response := mkResponse c (BMessage m).

(** A body that reports an error: [{ message }] or [{ message, errors }]. *)
Definition error_body (b : Body) : bool :=
  match b with BMessage _ | BInvalid _ _ => true | _ => false end.

(** What the client relies on when it reads an answer: a status the
    server uses, and an error body exactly when the status is 400 or
    more, so that the text [apiRequest] puts in its error is a message. *)
Definition typed_response (r : Response) : bool :=
  existsb (Z.eqb (code r)) [200; 201; 400; 401; 403; 404]%Z &&
  Bool.eqb (400 <=? code r)%Z (error_body (body r)).

(** ** Lemmas *)

Lemma jget_jset_eq (k : string) (v : json) (fs : list (string * json)) :
  jget k (jset k v fs) = Some v.
Proof.
  induction fs as [|[k' v'] fs IH]; simpl; [now rewrite String.eqb_refl|].
  destruct (String.eqb k' k) eqn:E; simpl; [now rewrite String.eqb_refl | now rewrite E].
Qed.

Lemma jget_jset_ne (k k' : string) (v : json) (fs : list (string * json)) :
  k <> k' -> jget k' (jset k v fs) = jget k' fs.
Proof.
  intros Hne. induction fs as [|[k0 v0] fs IH]; simpl.
  - apply String.eqb_neq in Hne. now rewrite Hne.
  - destruct (String.eqb k0 k) eqn:E; simpl.
    + apply String.eqb_eq in E. subst k0. apply String.eqb_neq in Hne. now rewrite Hne.
    + now rewrite IH.
Qed.

Lemma int_of_num_of_Z (z : Z) : int_of_num (of_Z z) = Some z.
Proof. unfold int_of_num, of_Z. rewrite Qred_inject_Z. reflexivity. Qed.

Lemma int_field_jset_eq (k : string) (z : Z) (fs : list (string * json)) :
  int_field (jset k (json_of_Z z) fs) k = Some z.
Proof. unfold int_field. rewrite jget_jset_eq. apply int_of_num_of_Z. Qed.

(** Setting a key leaves the readers of the other keys as they were. *)
Section FieldsNe.
Context (k k' : string) (v : json) (fs : list (string * json)) (Hne : k <> k').

Lemma int_field_jset_ne : int_field (jset k v fs) k' = int_field fs k'.
Proof. unfold int_field. now rewrite jget_jset_ne. Qed.

Lemma str_field_jset_ne : str_field (jset k v fs) k' = str_field fs k'.
Proof. unfold str_field. now rewrite jget_jset_ne. Qed.

Lemma opt_str_field_jset_ne : opt_str_field (jset k v fs) k' = opt_str_field fs k'.
Proof. unfold opt_str_field. now rewrite jget_jset_ne. Qed.

Lemma nullable_int_field_jset_ne :
  nullable_int_field (jset k v fs) k' = nullable_int_field fs k'.
Proof. unfold nullable_int_field. now rewrite jget_jset_ne. Qed.

End FieldsNe.

(** Setting [orderId] to a number makes that field valid and leaves the
    other fields as they were. *)
Lemma parseInsertOrderItem_orderId (oid : Z) (fs : list (string * json)) :
  parseInsertOrderItem (jset "orderId" (json_of_Z oid) fs) =
  match int_field fs "productId", str_field fs "productName", int_field fs "quantity",
        str_field fs "price", nullable_int_field fs "supplierId" with
  | Some pid, Some n, Some q, Some pr, Some sid => inr (mkInsertOrderItem oid pid n q pr sid)
  | pid, n, q, pr, sid =>
      inl (issues [("orderId", true); ("productId", ok pid); ("productName", ok n);
                   ("quantity", ok q); ("price", ok pr); ("supplierId", ok sid)])
  end.
Proof.
  unfold parseInsertOrderItem. rewrite int_field_jset_eq.
  rewrite !int_field_jset_ne, !str_field_jset_ne, nullable_int_field_jset_ne by discriminate.
  destruct (int_field fs "productId"), (str_field fs "productName"), (int_field fs "quantity"),
    (str_field fs "price"), (nullable_int_field fs "supplierId"); reflexivity.
Qed.

(** The [userId] the server spreads over the body is the one the order
    gets. *)
Lemma parseInsertOrder_userId (z : Z) (fs : list (string * json)) (io : InsertOrder) :
  parseInsertOrder (jset "userId" (json_of_Z z) fs) = inr io -> io_userId io = z.
Proof.
  unfold parseInsertOrder. rewrite int_field_jset_eq.
  destruct (str_field _ "totalAmount"), (str_field _ "customerName"),
    (str_field _ "customerEmail"), (str_field _ "shippingAddress"),
    (str_field _ "paymentMethod"), (opt_str_field _ "status");
    intros Hio; try discriminate; injection Hio as <-; reflexivity.
Qed.

(** A [status] string in the body is the status the parsed order has. *)
Lemma parseInsertOrder_status (fs : list (string * json)) (io : InsertOrder) (s : string) :
  jget "status" fs = Some (JStr s) -> parseInsertOrder fs = inr io -> io_status io = Some s.
Proof.
  intros Hs. unfold parseInsertOrder. replace (opt_str_field fs "status") with (Some (Some s))
    by (unfold opt_str_field; now rewrite Hs).
  destruct (int_field fs "userId"), (str_field fs "totalAmount"), (str_field fs "customerName"),
    (str_field fs "customerEmail"), (str_field fs "shippingAddress"),
    (str_field fs "paymentMethod");
    intros Hio; try discriminate; injection Hio as <-; reflexivity.
Qed.

End Http.
