(* ===== verification/Routes.v ===== *)
(** The REST handlers of src/server/routes.ts.

    Each handler is a function of the session's user (what passport put in
    [req.user]; [req.isAuthenticated()] is its presence), the request's
    path parameters and JSON body, and the store, written against the
    storage interface [IStorage] of Storage.v; writers also return the next
    store.  [route] dispatches a method and path to the handler the way the
    registrations of [registerRoutes] do.  The [try/catch] blocks that
    answer 500 are not modelled: no operation of the in-memory store
    throws, so only the validation errors reach a catch. *)

From Stdlib Require Import ZArith QArith String List Bool Lia.
From S2P Require Import Prelude JsNum JsMap Schema Storage Http.
Import ListNotations.

Module Routes.
Import JsNum Schema Storage Http.
#[local] Open Scope string_scope.

Section Handlers.
Context {St : Type} `{IStorage St}.

(** The [isAuthenticated] middleware (75-80): [None] lets the request
    through. *)
Definition isAuthenticated (user : option User) : option Response :=
  match user with
  | Some _ => None
  | None => Some (message 401 "You must be logged in")
  end.

(** The [isAdmin] middleware (83-88). *)
Definition isAdmin (user : option User) : option Response :=
  match user with
  | Some u => match Schema.isAdmin u with
              | Some true => None
              | _ => Some (message 403 "Admin access required")
              end
  | None => Some (message 403 "Admin access required")
  end.

(** GET /api/products (21-28) *)
Definition getProductsRoute (st : St) : Response := mkResponse 200 (BProducts (st_getProducts st)).

(** GET /api/products/category/:category (31-39) *)
Definition getProductsByCategoryRoute (category : string) (st : St) : Response :=
  mkResponse 200 (BProducts (st_getProductsByCategory category st)).

(** GET /api/products/:id (42-58) *)
Definition getProductRoute (idParam : string) (st : St) : Response :=
  match parseInt idParam with
  | None => message 400 "Invalid product ID"
  | Some id =>
      match st_getProduct id st with
      | None => message 404 "Product not found"
      | Some p => mkResponse 200 (BProduct p)
      end
  end.

(** POST /api/products (61-72) *)
Definition postProductRoute (now : Z) (body : json) (st : St) : Response * St :=
  match parseInsertProduct (fields_of body) with
  | inl errs => (mkResponse 400 (BInvalid "Invalid product data" errs), st)
  | inr productData =>
      let '(newProduct, st') := st_createProduct now productData st in
      (mkResponse 201 (BProduct newProduct), st')
  end.

(** The loop over [req.body.items] (102-108): each item is validated with
    the new order's id and stored; the first invalid item throws, and the
    items stored before it stay. *)
Fixpoint createItems (now oid : Z) (items : list json) (st : St) : option (list string) * St :=
  match items with
  | [] => (None, st)
  | item :: rest =>
      match parseInsertOrderItem (jset "orderId" (json_of_Z oid) (fields_of item)) with
      | inl errs => (Some errs, st)
      | inr orderItemData => createItems now oid rest (snd (st_createOrderItem now orderItemData st))
      end
  end.

(** POST /api/orders (91-118) *)
Definition postOrdersRoute (now : Z) (user : option User) (body : json) (st : St)
    : Response * St :=
  match isAuthenticated user with
  | Some r => (r, st)
  | None =>
      let uid := match user with Some u => json_of_Z (u_id u) | None => JNull end in
      match parseInsertOrder (jset "userId" uid (fields_of body)) with
      | inl errs => (mkResponse 400 (BInvalid "Invalid order data" errs), st)
      | inr orderData =>
          let '(newOrder, st1) := st_createOrder now orderData st in
          match jget "items" (fields_of body) with
          | Some (JArr items) =>
              match createItems now (o_id newOrder) items st1 with
              | (Some errs, st2) => (mkResponse 400 (BInvalid "Invalid order data" errs), st2)
              | (None, st2) => (mkResponse 201 (BOrder newOrder), st2)
              end
          | _ => (mkResponse 201 (BOrder newOrder), st1)
          end
      end
  end.

(** GET /api/orders/my-orders (121-133): a falsy id (0) is refused. *)
Definition myOrdersRoute (user : option User) (st : St) : Response :=
  match isAuthenticated user with
  | Some r => r
  | None =>
      match user with
      | Some u =>
          if (u_id u =? 0)%Z then message 400 "User ID not found"
          else mkResponse 200 (BOrders (st_getOrdersByUserId (u_id u) st))
      | None => message 400 "User ID not found"
      end
  end.

(** GET /api/admin/orders (138-145) *)
Definition adminOrdersRoute (user : option User) (st : St) : Response :=
  match isAdmin user with
  | Some r => r
  | None => mkResponse 200 (BOrders (st_getOrders st))
  end.

(** GET /api/admin/orders/:id (148-169) *)
Definition adminOrderDetailsRoute (user : option User) (idParam : string) (st : St) : Response :=
  match isAdmin user with
  | Some r => r
  | None =>
      match parseInt idParam with
      | None => message 400 "Invalid order ID"
      | Some id =>
          match st_getOrderById id st with
          | None => message 404 "Order not found"
          | Some order => mkResponse 200 (BOrderDetails order (st_getOrderItems (o_id order) st))
          end
      end
  end.

(** PATCH /api/admin/orders/:id/status (172-193): any non-empty string is
    passed to the store as the new status. *)
Definition patchStatusRoute (user : option User) (idParam : string) (body : json) (st : St)
    : Response * St :=
  match isAdmin user with
  | Some r => (r, st)
  | None =>
      match parseInt idParam with
      | None => (message 400 "Invalid order ID", st)
      | Some id =>
          match jget "status" (fields_of body) with
          | Some (JStr s) =>
              if String.eqb s "" then (message 400 "Status is required", st)
              else
                match st_updateOrderStatus id s st with
                | (None, st') => (message 404 "Order not found", st')
                | (Some updatedOrder, st') => (mkResponse 200 (BOrder updatedOrder), st')
                end
          | _ => (message 400 "Status is required", st)
          end
      end
  end.

(** ** Dispatch *)

Inductive Method : Type := GET | POST | PATCH.

(** A request as the router sees it: method, path segments after the host,
    session user, JSON body, and the time it is served. *)
Record Request : Type := mkRequest {
  method : Method;
  path : list string;
  reqUser : option User;
  reqBody : json;
  reqTime : Z
}.

(** [registerRoutes] (13-198): the first registration that matches the
    method and path handles the request; [None] when none does (express
    then answers with its own 404). *)
Definition route (r : Request) (st : St) : option (Response * St) :=
  match method r, path r with
  | GET, ["api"; "products"] => Some (getProductsRoute st, st)
  | GET, ["api"; "products"; "category"; c] => Some (getProductsByCategoryRoute c st, st)
  | GET, ["api"; "products"; id] => Some (getProductRoute id st, st)
  | POST, ["api"; "products"] => Some (postProductRoute (reqTime r) (reqBody r) st)
  | POST, ["api"; "orders"] => Some (postOrdersRoute (reqTime r) (reqUser r) (reqBody r) st)
  | GET, ["api"; "orders"; "my-orders"] => Some (myOrdersRoute (reqUser r) st, st)
  | GET, ["api"; "admin"; "orders"] => Some (adminOrdersRoute (reqUser r) st, st)
  | GET, ["api"; "admin"; "orders"; id] => Some (adminOrderDetailsRoute (reqUser r) id st, st)
  | PATCH, ["api"; "admin"; "orders"; id; "status"] =>
      Some (patchStatusRoute (reqUser r) id (reqBody r) st)
  | _, _ => None
  end.

(** Whether an item of [req.body.items] passes [insertOrderItemSchema]
    once the server has set its [orderId]. *)
Definition item_valid (item : json) : bool :=
  match parseInsertOrderItem (jset "orderId" (json_of_Z 0) (fields_of item)) with
  | inr _ => true
  | inl _ => false
  end.

(** The items the loop stores before it meets the first invalid one. *)
Fixpoint valid_prefix (items : list json) : list json :=
  match items with
  | [] => []
  | item :: rest => if item_valid item then item :: valid_prefix rest else []
  end.

(** The items of [req.body.items]; no array means no items. *)
Definition body_items (body : json) : list json :=
  match jget "items" (fields_of body) with
  | Some (JArr items) => items
  | _ => []
  end.

End Handlers.

(** ** Example requests, on the store the server starts with *)

Definition store0 : MemStorage := newMemStorage 0 "hash".

Definition alice : User := mkUser 2 "alice" "hash" (Some false).
Definition admin : User := mkUser 1 "admin" "hash" (Some true).

Definition good_item : json :=
  JObj [("productId", json_of_Z 1); ("productName", JStr "Smartwatch");
        ("quantity", json_of_Z 2); ("price", JStr "199.99"); ("supplierId", json_of_Z 1)].

(** A quantity sent as a string fails [insertOrderItemSchema]. *)
Definition bad_item : json :=
  JObj [("productId", json_of_Z 2); ("productName", JStr "Headphones");
        ("quantity", JStr "1"); ("price", JStr "99.99")].

(** The buyer fields of a checkout; the body claims user 99 and status
    "delivered". *)
Definition order_fields : list (string * json) :=
  [("userId", json_of_Z 99); ("totalAmount", JStr "405.96");
   ("customerName", JStr "Ada Lovelace"); ("customerEmail", JStr "ada@example.com");
   ("shippingAddress", JStr "1 Main St, Springfield, IL 62701");
   ("paymentMethod", JStr "credit_card"); ("status", JStr "delivered")].

Definition body_ok : json := JObj (order_fields ++ [("items", JArr [good_item])]).
Definition body_bad : json := JObj (order_fields ++ [("items", JArr [good_item; bad_item])]).

(** The order both bodies parse to once the session's id is spread over
    them. *)
Definition example_io : InsertOrder :=
  mkInsertOrder 2 "405.96" "Ada Lovelace" "ada@example.com"
    "1 Main St, Springfield, IL 62701" "credit_card" (Some "delivered").

Definition status_body : json := JObj [("status", JStr "refunded")].

(** ** What the order routes do, against the storage laws *)

Section Typed.
Context {St : Type} `{IStorage St}.

Lemma getProducts_typed (st : St) : typed_response (getProductsRoute st) = true.
Proof. reflexivity. Qed.

Lemma getProductsByCategory_typed (c : string) (st : St) :
  typed_response (getProductsByCategoryRoute c st) = true.
Proof. reflexivity. Qed.

Lemma getProduct_typed (idParam : string) (st : St) : typed_response (getProductRoute idParam st) = true.
Proof.
  unfold getProductRoute. destruct (parseInt idParam) as [id|]; [|reflexivity].
  now destruct (st_getProduct id st).
Qed.

Lemma postProduct_typed (now : Z) (body : json) (st : St) :
  typed_response (fst (postProductRoute now body st)) = true.
Proof.
  unfold postProductRoute. destruct (parseInsertProduct _) as [errs|ip]; [reflexivity|].
  now destruct (st_createProduct now ip st).
Qed.

Lemma myOrders_typed (user : option User) (st : St) : typed_response (myOrdersRoute user st) = true.
Proof.
  unfold myOrdersRoute, isAuthenticated. destruct user as [u|]; [|reflexivity].
  now destruct (u_id u =? 0)%Z.
Qed.

Lemma adminOrders_typed (user : option User) (st : St) : typed_response (adminOrdersRoute user st) = true.
Proof.
  unfold adminOrdersRoute, isAdmin. destruct user as [u|]; [|reflexivity].
  now destruct (Schema.isAdmin u) as [[]|].
Qed.

Lemma adminOrderDetails_typed (user : option User) (idParam : string) (st : St) :
  typed_response (adminOrderDetailsRoute user idParam st) = true.
Proof.
  unfold adminOrderDetailsRoute, isAdmin. destruct user as [u|]; [|reflexivity].
  destruct (Schema.isAdmin u) as [[]|]; try reflexivity.
  destruct (parseInt idParam) as [id|]; [|reflexivity]. now destruct (st_getOrderById id st).
Qed.

Lemma postOrders_typed (now : Z) (user : option User) (body : json) (st : St) :
  typed_response (fst (postOrdersRoute now user body st)) = true.
Proof.
  unfold postOrdersRoute, isAuthenticated. destruct user as [u|]; [|reflexivity].
  destruct (parseInsertOrder _) as [errs|io]; [reflexivity|].
  destruct (st_createOrder now io st) as [o st1].
  destruct (jget "items" (fields_of body)) as [[| | | | l |]|]; try reflexivity.
  destruct (createItems now (o_id o) l st1) as [[errs|] st2]; reflexivity.
Qed.

Lemma patchStatus_typed (user : option User) (idParam : string) (body : json) (st : St) :
  typed_response (fst (patchStatusRoute user idParam body st)) = true.
Proof.
  unfold patchStatusRoute, isAdmin. destruct user as [u|]; [|reflexivity].
  destruct (Schema.isAdmin u) as [[]|]; try reflexivity.
  destruct (parseInt idParam) as [id|]; [|reflexivity].
  destruct (jget "status" (fields_of body)) as [[| | | s | |]|]; try reflexivity.
  destruct (String.eqb s ""); [reflexivity|].
  destruct (st_updateOrderStatus id s st) as [[o|] st']; reflexivity.
Qed.

Create HintDb typed.
#[local] Hint Resolve getProducts_typed getProductsByCategory_typed getProduct_typed
  postProduct_typed postOrders_typed myOrders_typed adminOrders_typed adminOrderDetails_typed
  patchStatus_typed : typed.

(** C18. Every answer of the server's routes is typed as the client reads
    it: its status is one of 200, 201, 400, 401, 403 and 404, and its
    body is a message ([{ message }] or [{ message, errors }]) exactly
    when the status is 400 or more. *)
Theorem route_responses_typed (r : Request) (st : St) (x : Response * St) :
  route r st = Some x -> typed_response (fst x) = true.
Proof.
  unfold route. destruct (method r); destruct (path r) as [|s1 [|s2 [|s3 [|s4 [|s5 [|s6 l]]]]]];
    repeat match goal with |- context [match ?e with _ => _ end] => destruct e end;
    intros E; try discriminate E; injection E as <-; cbn [fst]; auto with typed.
Qed.

End Typed.

Section Props.
Context {St : Type} `{Hlaws : IStorageLaws St}.

(** Validity of an item does not depend on the order id the server sets,
    and the parsed item carries that id. *)
Lemma item_parse (oid : Z) (item : json) :
  match parseInsertOrderItem (jset "orderId" (json_of_Z oid) (fields_of item)) with
  | inr ioi => item_valid item = true /\ ioi_orderId ioi = oid
  | inl _ => item_valid item = false
  end.
Proof.
  unfold item_valid. rewrite !parseInsertOrderItem_orderId.
  set (fs := fields_of item).
  destruct (int_field fs "productId"), (str_field fs "productName"), (int_field fs "quantity"),
    (str_field fs "price"), (nullable_int_field fs "supplierId"); cbv beta iota zeta; auto.
Qed.

(** The loop [createItems] for an order [oid] that is stored: it keeps
    the store's invariant and its orders, stores one item of [oid] per item
    of the valid prefix and nothing for other orders, and reports an error
    exactly when some item is invalid. *)
Lemma createItems_spec (now oid : Z) (items : list json) (st st' : St) r :
  st_ok st -> st_getOrderById oid st <> None ->
  createItems now oid items st = (r, st') ->
  st_ok st' /\ (forall j, st_getOrderById j st' = st_getOrderById j st) /\
  (forall j, j <> oid -> st_getOrderItems j st' = st_getOrderItems j st) /\
  (exists its, st_getOrderItems oid st' = (st_getOrderItems oid st ++ its)%list /\
     length its = length (valid_prefix items) /\ Forall (fun it => orderId it = oid) its) /\
  (r = None <-> forallb item_valid items = true).
Proof.
  revert st. induction items as [|item rest IH]; intros st Hok Hord Hrun; simpl in Hrun.
  - invert Hrun. repeat split; auto. exists []. now rewrite app_nil_r.
  - pose proof (item_parse oid item) as Hp. simpl.
    destruct (parseInsertOrderItem _) as [errs|ioi].
    + invert Hrun. rewrite Hp. repeat split; auto; try discriminate.
      exists []. now rewrite app_nil_r.
    + destruct Hp as [Hv Hoid]. rewrite Hv. subst oid.
      destruct (st_createOrderItem now ioi st) as [it st1] eqn:Ec. simpl in Hrun.
      destruct (createOrderItem_law _ _ _ _ _ Hok Hord Ec) as (Hok1 & Hit & Happ & Hother & Hget).
      assert (Hord1 : st_getOrderById (ioi_orderId ioi) st1 <> None) by now rewrite Hget.
      destruct (IH st1 Hok1 Hord1 Hrun) as (Hok' & Hget' & Hother' & (its & Hits & Hlen & Hall) & Hr).
      repeat split; auto.
      * intros j. now rewrite Hget', Hget.
      * intros j Hj. now rewrite Hother', Hother.
      * exists (it :: its). rewrite Hits, Happ, <- app_assoc. simpl. repeat split; auto.
        constructor; auto. rewrite Hit. reflexivity.
      * now apply Hr.
      * now apply Hr.
Qed.

Lemma valid_prefix_app (good : list json) (bad : json) (rest : list json) :
  forallb item_valid good = true -> item_valid bad = false ->
  valid_prefix (good ++ bad :: rest) = good.
Proof.
  intros Hg Hb. induction good as [|g good IH]; simpl in *; [now rewrite Hb|].
  apply andb_prop in Hg as [-> Hg]. now rewrite IH.
Qed.

Lemma valid_prefix_all (l : list json) : forallb item_valid l = true -> valid_prefix l = l.
Proof.
  induction l as [|i l IH]; simpl; [reflexivity|].
  intros Hall. apply andb_prop in Hall as [-> Hall]. now rewrite IH.
Qed.

Lemma forallb_app_invalid (good : list json) (bad : json) (rest : list json) :
  item_valid bad = false -> forallb item_valid (good ++ bad :: rest) = false.
Proof. intros Hb. rewrite forallb_app. simpl. rewrite Hb. apply andb_false_r. Qed.

(** What an authenticated POST /api/orders with a valid order does: it
    stores the order (the row [createOrder] builds from the parsed body) under
    a fresh id, then the valid prefix of the items, and answers 201 with the
    order when every item is valid and 400 otherwise; the order is stored in
    both cases. *)
Lemma postOrders_effect (now : Z) (u : User) (body : json) (st : St) (io : InsertOrder)
    resp st' :
  st_ok st ->
  parseInsertOrder (jset "userId" (json_of_Z (u_id u)) (fields_of body)) = inr io ->
  postOrdersRoute now (Some u) body st = (resp, st') ->
  exists o, o = orderOf (o_id o) now io /\ st_ok st' /\
    st_getOrderById (o_id o) st = None /\ st_getOrderById (o_id o) st' = Some o /\
    (forall j, j <> o_id o -> st_getOrderById j st' = st_getOrderById j st) /\
    length (st_getOrderItems (o_id o) st') = length (valid_prefix (body_items body)) /\
    (forallb item_valid (body_items body) = true /\ resp = mkResponse 201 (BOrder o) \/
     forallb item_valid (body_items body) = false /\ code resp = 400).
Proof.
  intros Hok Hp Hrun. unfold postOrdersRoute in Hrun. cbn [isAuthenticated] in Hrun.
  rewrite Hp in Hrun. destruct (st_createOrder now io st) as [o st1] eqn:Ec.
  destruct (createOrder_law _ _ _ _ _ Hok Ec) as (Hok1 & Ho & Hfresh & Hget & Hother & Hits).
  pose proof (fresh_order_no_items _ _ Hok Hfresh) as Hnil.
  exists o. unfold body_items.
  destruct (jget "items" (fields_of body)) as [[| | | | l |]|];
    try (invert Hrun; repeat split; auto; now rewrite Hits, Hnil).
  destruct (createItems now (o_id o) l st1) as [r st2] eqn:Ei.
  assert (Hord1 : st_getOrderById (o_id o) st1 <> None) by congruence.
  destruct (createItems_spec _ _ _ _ _ _ Hok1 Hord1 Ei)
    as (Hok2 & Hget2 & _ & (its & Hits2 & Hlen & _) & Hr).
  assert (Hlen2 : length (st_getOrderItems (o_id o) st2) = length (valid_prefix l))
    by now rewrite Hits2, Hits, Hnil.
  destruct r as [errs|]; invert Hrun; repeat split; auto;
    try (intros j Hj; now rewrite Hget2, Hother); try now rewrite Hget2.
  - right. split; [|reflexivity]. destruct (forallb item_valid l) eqn:E; [|reflexivity].
    enough (Some errs = None) by discriminate. now apply Hr.
  - left. split; [now apply Hr | reflexivity].
Qed.

(** C6. An authenticated POST /api/orders whose body parses stores one new
    order under a fresh id, with the session user's id (whatever [userId]
    the body carries) and the other fields of the body, leaves the other
    orders as they were and keeps the store's invariant; when every item
    is valid it answers 201 with that order and stores one item per item of
    the body. *)
Theorem postOrders_spec (now : Z) (u : User) (body : json) (st : St) (io : InsertOrder)
    resp st' :
  st_ok st ->
  parseInsertOrder (jset "userId" (json_of_Z (u_id u)) (fields_of body)) = inr io ->
  postOrdersRoute now (Some u) body st = (resp, st') ->
  exists o, o = orderOf (o_id o) now io /\ userId o = u_id u /\ st_ok st' /\
    st_getOrderById (o_id o) st = None /\ st_getOrderById (o_id o) st' = Some o /\
    (forall j, j <> o_id o -> st_getOrderById j st' = st_getOrderById j st) /\
    (forallb item_valid (body_items body) = true ->
     resp = mkResponse 201 (BOrder o) /\
     length (st_getOrderItems (o_id o) st') = length (body_items body)).
Proof.
  intros Hok Hp Hrun.
  destruct (postOrders_effect _ _ _ _ _ _ _ Hok Hp Hrun)
    as (o & Ho & Hok' & Hfresh & Hget & Hother & Hlen & Hresp).
  exists o. split; [assumption|]. split; [rewrite Ho; apply (parseInsertOrder_userId _ _ _ Hp)|].
  do 4 (split; [assumption|]).
  intros Hall. rewrite Hlen, valid_prefix_all by assumption.
  destruct Hresp as [[_ Hr] | [Hf _]]; [now split | congruence].
Qed.

(** C7. POST /api/orders is not atomic: when the items of a valid order
    are some valid items followed by an invalid one, the handler answers
    400, yet the new order is stored together with the valid items before
    the invalid one. *)
Theorem postOrders_not_atomic (now : Z) (u : User) (body : json) (st : St) (io : InsertOrder)
    (good : list json) (bad : json) (rest : list json) resp st' :
  st_ok st ->
  parseInsertOrder (jset "userId" (json_of_Z (u_id u)) (fields_of body)) = inr io ->
  body_items body = (good ++ bad :: rest)%list ->
  forallb item_valid good = true -> item_valid bad = false ->
  postOrdersRoute now (Some u) body st = (resp, st') ->
  code resp = 400 /\
  exists o, st_getOrderById (o_id o) st = None /\ st_getOrderById (o_id o) st' = Some o /\
    length (st_getOrderItems (o_id o) st') = length good.
Proof.
  intros Hok Hp Hitems Hg Hb Hrun.
  destruct (postOrders_effect _ _ _ _ _ _ _ Hok Hp Hrun)
    as (o & _ & _ & Hfresh & Hget & _ & Hlen & Hresp).
  rewrite Hitems, forallb_app_invalid in Hresp by assumption.
  rewrite Hitems, valid_prefix_app in Hlen by assumption.
  destruct Hresp as [[Hf _] | [_ Hc]]; [discriminate|]. split; [assumption|]. now exists o.
Qed.

(** C22. The client chooses the status of the order it creates: a
    non-empty [status] string in the body of POST /api/orders is the status
    of the stored order, although status changes are meant to be an
    admin's. *)
Theorem postOrders_client_status (now : Z) (u : User) (body : json) (st : St)
    (io : InsertOrder) (s : string) resp st' :
  st_ok st ->
  parseInsertOrder (jset "userId" (json_of_Z (u_id u)) (fields_of body)) = inr io ->
  jget "status" (fields_of body) = Some (JStr s) -> s <> "" ->
  postOrdersRoute now (Some u) body st = (resp, st') ->
  exists o, st_getOrderById (o_id o) st = None /\ st_getOrderById (o_id o) st' = Some o /\
    status o = s.
Proof.
  intros Hok Hp Hs Hne Hrun.
  destruct (postOrders_effect _ _ _ _ _ _ _ Hok Hp Hrun) as (o & Ho & _ & Hfresh & Hget & _).
  exists o. split; [assumption|]. split; [assumption|]. rewrite Ho. unfold orderOf. cbn [status].
  assert (Hs' : jget "status" (jset "userId" (json_of_Z (u_id u)) (fields_of body)) = Some (JStr s))
    by (rewrite jget_jset_ne by discriminate; exact Hs).
  rewrite (parseInsertOrder_status _ _ s Hs' Hp).
  destruct s; [congruence | reflexivity].
Qed.

(** C12. PATCH /api/admin/orders/:id/status by an admin with a numeric id
    and a non-empty status string: when the order exists the handler stores
    it with that status, answers 200 with it and changes nothing else
    (other orders and all items stay); otherwise it answers 404 and the
    store is unchanged.  The status is not checked against
    [ORDER_STATUSES]. *)
Theorem patchStatus_spec (u : User) (idParam : string) (id : Z) (body : json) (s : string)
    (st : St) :
  st_ok st -> Schema.isAdmin u = Some true -> parseInt idParam = Some id ->
  jget "status" (fields_of body) = Some (JStr s) -> s <> "" ->
  match st_getOrderById id st with
  | None => patchStatusRoute (Some u) idParam body st = (message 404 "Order not found", st)
  | Some o => exists st',
      patchStatusRoute (Some u) idParam body st = (mkResponse 200 (BOrder (with_status o s)), st') /\
      st_ok st' /\ st_getOrderById id st' = Some (with_status o s) /\
      (forall j, j <> id -> st_getOrderById j st' = st_getOrderById j st) /\
      (forall j, st_getOrderItems j st' = st_getOrderItems j st)
  end.
Proof.
  intros Hok Ha Hid Hs Hne. unfold patchStatusRoute. cbn [isAdmin]. rewrite Ha, Hid, Hs.
  replace (String.eqb s "") with false by (symmetry; now apply String.eqb_neq).
  pose proof (updateOrderStatus_law st id s Hok) as Hlaw.
  destruct (st_getOrderById id st) as [o|].
  - destruct Hlaw as (st' & Hu & Hrest). exists st'. now rewrite Hu.
  - now rewrite Hlaw.
Qed.

(** C17. The admin routes refuse every request whose session user is not
    an admin, anonymous requests included, with 403 and without touching
    the store: an anonymous request is answered 403, not 401. *)
Theorem admin_routes_forbidden (user : option User) (idParam : string) (body : json) (st : St) :
  (forall u, user = Some u -> Schema.isAdmin u <> Some true) ->
  adminOrdersRoute user st = message 403 "Admin access required" /\
  adminOrderDetailsRoute user idParam st = message 403 "Admin access required" /\
  patchStatusRoute user idParam body st = (message 403 "Admin access required", st).
Proof.
  intros Hna. unfold adminOrdersRoute, adminOrderDetailsRoute, patchStatusRoute, isAdmin.
  destruct user as [u|]; [|auto].
  specialize (Hna u eq_refl). destruct (Schema.isAdmin u) as [[]|]; [congruence | auto ..].
Qed.

End Props.

Lemma store0_ok : st_ok store0.
Proof. apply newMemStorage_ok. Qed.

(** Alice's order with one valid item is stored as hers (not user 99's)
    and answered 201. *)
Lemma postOrders_spec_witness :
  exists o, userId o = 2 /\
    fst (postOrdersRoute 5 (Some alice) body_ok store0) = mkResponse 201 (BOrder o) /\
    getOrderById (o_id o) (snd (postOrdersRoute 5 (Some alice) body_ok store0)) = Some o.
Proof.
  destruct (postOrders_spec 5 alice body_ok store0 example_io
              (fst (postOrdersRoute 5 (Some alice) body_ok store0))
              (snd (postOrdersRoute 5 (Some alice) body_ok store0))
              store0_ok eq_refl (surjective_pairing _))
    as (o & _ & Hu & _ & _ & Hget & _ & Hall).
  exists o. destruct (Hall eq_refl) as [Hr _]. split; [exact Hu|]. split; [exact Hr | exact Hget].
Defined.

(** The second item of [body_bad] is invalid: the answer is 400, and the
    order is stored with the first item. *)
Lemma postOrders_not_atomic_witness :
  code (fst (postOrdersRoute 5 (Some alice) body_bad store0)) = 400 /\
  exists o, getOrderById (o_id o) store0 = None /\
    getOrderById (o_id o) (snd (postOrdersRoute 5 (Some alice) body_bad store0)) = Some o /\
    length (getOrderItems (o_id o) (snd (postOrdersRoute 5 (Some alice) body_bad store0))) = 1%nat.
Proof.
  exact (postOrders_not_atomic 5 alice body_bad store0 example_io [good_item] bad_item []
           (fst (postOrdersRoute 5 (Some alice) body_bad store0))
           (snd (postOrdersRoute 5 (Some alice) body_bad store0))
           store0_ok eq_refl eq_refl eq_refl eq_refl (surjective_pairing _)).
Defined.

(** The order of [body_bad] is stored as "delivered". *)
Lemma postOrders_client_status_witness :
  exists o, getOrderById (o_id o) store0 = None /\
    getOrderById (o_id o) (snd (postOrdersRoute 5 (Some alice) body_bad store0)) = Some o /\
    status o = "delivered".
Proof.
  apply (postOrders_client_status 5 alice body_bad store0 example_io "delivered"
           (fst (postOrdersRoute 5 (Some alice) body_bad store0))
           (snd (postOrdersRoute 5 (Some alice) body_bad store0))
           store0_ok eq_refl eq_refl); [discriminate | apply surjective_pairing].
Defined.

(** The admin sets order 1 to "refunded", which is not one of
    [ORDER_STATUSES]: the handler stores it and answers 200. *)
Lemma patchStatus_spec_witness :
  ~ In "refunded" ORDER_STATUSES /\
  exists o st', patchStatusRoute (Some admin) "1" status_body
                  (snd (postOrdersRoute 5 (Some alice) body_ok store0)) =
                (mkResponse 200 (BOrder o), st') /\ status o = "refunded".
Proof.
  split; [vm_compute; intuition discriminate|].
  destruct (postOrders_effect 5 alice body_ok store0 example_io
              (fst (postOrdersRoute 5 (Some alice) body_ok store0))
              (snd (postOrdersRoute 5 (Some alice) body_ok store0))
              store0_ok eq_refl (surjective_pairing _)) as (_ & _ & Hok & _).
  pose proof (patchStatus_spec admin "1" 1 status_body "refunded" _ Hok eq_refl eq_refl eq_refl
                ltac:(discriminate)) as H.
  destruct (st_getOrderById 1 _) as [o|] eqn:E; [|vm_compute in E; discriminate].
  destruct H as (st' & Hr & _). exists (with_status o "refunded"), st'. split; [exact Hr | reflexivity].
Defined.

(** An anonymous request to the admin routes is answered 403. *)
Lemma admin_routes_forbidden_witness :
  adminOrdersRoute None store0 = message 403 "Admin access required" /\
  adminOrderDetailsRoute None "1" store0 = message 403 "Admin access required" /\
  patchStatusRoute None "1" status_body store0 = (message 403 "Admin access required", store0).
Proof.
  apply admin_routes_forbidden. intros u Hu. discriminate.
Defined.

(** A rejected order (an invalid item) is answered with a typed 400. *)
Lemma route_responses_typed_witness :
  typed_response (fst (postOrdersRoute 5 (Some alice) body_bad store0)) = true.
Proof.
  apply (route_responses_typed (mkRequest POST ["api"; "orders"] (Some alice) body_bad 5) store0).
  reflexivity.
Defined.

End Routes.
