(* ===== verification/Auth.v ===== *)
(** Authentication, src/server/auth.ts: password hashing and checking, the
    passport local strategy, and the routes /api/register, /api/login,
    /api/logout and /api/user over a session.

    scrypt is a parameter of the section ([scrypt password salt] is the
    64-byte key as a list of bytes); [randomBytes(16)] is the argument
    [salt].  The hex codec of [Buffer] and [String.prototype.split(".")]
    are written out.  The session holds the user id passport serializes;
    [req.user] is the user [getUser] finds for it on each request.  A
    stored [isAdmin] is the truthiness of the value the body carried:
    every reader of the flag (the [isAdmin] middleware, [ProtectedRoute])
    only tests its truthiness. *)

From Stdlib Require Import ZArith QArith String Ascii List Bool Lia.
From S2P Require Import Prelude JsNum JsMap Schema Storage Http Routes.
Import ListNotations.

Module Auth.
Import JsNum Schema Storage Http.
#[local] Open Scope string_scope.

(** ** Hex, as [Buffer] writes and reads it *)

Definition hex_digits : string := "0123456789abcdef".

Definition hex_char (d : Z) : ascii :=
  match String.get (Z.to_nat d) hex_digits with Some c => c | None => "0"%char end.

(** A hex digit in either case. *)
Definition hex_val (c : ascii) : option Z :=
  let n := Z.of_nat (nat_of_ascii c) in
  if (48 <=? n)%Z && (n <=? 57)%Z then Some (n - 48)%Z
  else if (97 <=? n)%Z && (n <=? 102)%Z then Some (n - 87)%Z
  else if (65 <=? n)%Z && (n <=? 70)%Z then Some (n - 55)%Z
  else None.

(** [buf.toString("hex")] *)
Fixpoint hex_encode (bs : list Z) : string :=
  match bs with
  | [] => ""
  | b :: bs' => String (hex_char (b / 16)%Z) (String (hex_char (b mod 16)%Z) (hex_encode bs'))
  end.

(** [Buffer.from(s, "hex")]: pairs of hex digits up to the first pair that
    is not one; an odd last digit is dropped. *)
Fixpoint hex_decode (s : string) : list Z :=
  match s with
  | String c1 (String c2 rest) =>
      match hex_val c1, hex_val c2 with
      | Some a, Some b => (16 * a + b)%Z :: hex_decode rest
      | _, _ => []
      end
  | _ => []
  end.

(** [s.split(".")] *)
Fixpoint split_dot (s : string) : list string :=
  match s with
  | EmptyString => [""]
  | String c rest =>
      let ps := split_dot rest in
      if Ascii.eqb c "." then "" :: ps
      else match ps with
           | p :: ps' => String c p :: ps'
           | [] => [String c ""]
           end
  end.

Fixpoint no_dot (s : string) : bool :=
  match s with
  | EmptyString => true
  | String c s' => negb (Ascii.eqb c ".") && no_dot s'
  end.

(** [timingSafeEqual] on buffers of the same length. *)
Fixpoint bytes_eqb (a b : list Z) : bool :=
  match a, b with
  | [], [] => true
  | x :: a', y :: b' => Z.eqb x y && bytes_eqb a' b'
  | _, _ => false
  end.

(** JS truthiness of a JSON value. *)
Definition truthy (v : json) : bool :=
  match v with
  | JNull => false
  | JBool b => b
  | JNum (Fin q) => negb (Qeq_bool q 0)
  | JNum NaN => false
  | JNum _ => true
  | JStr s => negb (String.eqb s "")
  | JArr _ | JObj _ => true
  end.

Definition truthy_opt (v : option json) : bool :=
  match v with Some v => truthy v | None => false end.

Section Passwords.
Variable scrypt : string -> string -> list Z.

(** [hashPassword] (20-24) *)
Definition hashPassword (salt : list Z) (password : string) : string :=
  let s := hex_encode salt in
  hex_encode (scrypt password s) ++ "." ++ s.

(** [comparePasswords] (26-46) *)
Definition comparePasswords (supplied stored : string) : bool :=
  match split_dot stored with
  | hashed :: salt :: _ =>
      if String.eqb hashed "" || String.eqb salt "" then false
      else
        let hashedBuf := hex_decode hashed in
        let suppliedBuf := scrypt supplied salt in
        if negb (Nat.eqb (length hashedBuf) (length suppliedBuf)) then false
        else bytes_eqb hashedBuf suppliedBuf
  | _ => false
  end.

(** The check [comparePasswords] makes before it hashes (27-32). *)
Definition stored_format_ok (stored : string) : bool :=
  match split_dot stored with
  | hashed :: salt :: _ => negb (String.eqb hashed "" || String.eqb salt "")
  | _ => false
  end.

End Passwords.

(** The stored [isAdmin]: [insertUser.isAdmin ?? false] leaves [false] to
    [createUser] when the body has no flag or a null one. *)
Definition admin_flag (v : option json) : option bool :=
  match v with
  | None | Some JNull => None
  | Some v => Some (truthy v)
  end.

(** What the strategy hands to passport's callback. *)
Inductive Verdict : Type :=
| VOk (u : User)
| VFail (msg : string)
| VError.

(** What a route does to the session: [req.login] stores the user's id,
    [req.logout] and [session.destroy] drop it. *)
Definition Session : Type := option Z.

Section AuthRoutes.
Context {St : Type} `{IStorage St}.
Variable scrypt : string -> string -> list Z.

(** [deserializeUser] (84-91): the session's id looked up on each
    request. *)
Definition sessionUser (sess : Session) (st : St) : option User :=
  match sess with
  | Some id => st_getUser id st
  | None => None
  end.

(** passport-local: a falsy username or password fails with "Missing
    credentials"; then the verify callback of the [LocalStrategy] (69-81).
    A password that is not a string makes scrypt throw once the stored
    hash has the right shape. *)
Definition localStrategy (fs : list (string * json)) (st : St) : Verdict :=
  let uname := jget "username" fs in
  let pw := jget "password" fs in
  if negb (truthy_opt uname) || negb (truthy_opt pw) then VFail "Missing credentials"
  else
    match uname with
    | Some (JStr name) =>
        match st_getUserByUsername name st with
        | None => VFail "Invalid username or password"
        | Some user =>
            match pw with
            | Some (JStr p) =>
                if comparePasswords scrypt p (password user) then VOk user
                else VFail "Invalid username or password"
            | _ => if stored_format_ok (password user) then VError
                   else VFail "Invalid username or password"
            end
        end
    | _ => VFail "Invalid username or password"
    end.

(** The user without its password, as the routes answer it. *)
Definition userResponse (c : Z) (user : User) : Response :=
  mkResponse c (BUser (u_id user) (username user) (isAdmin user)).

(** POST /api/register (93-119).  [None]: a truthy username that is not a
    string, which the model's user rows cannot hold. *)
Definition registerRoute (salt : list Z) (body : json) (sess : Session) (st : St)
    : option (Response * Session * St) :=
  let fs := fields_of body in
  let uname := jget "username" fs in
  let pw := jget "password" fs in
  if negb (truthy_opt uname) || negb (truthy_opt pw) then
    Some (message 400 "Username and password are required", sess, st)
  else
    match uname with
    | Some (JStr name) =>
        match st_getUserByUsername name st with
        | Some _ => Some (message 400 "Username already exists", sess, st)
        | None =>
            match pw with
            | Some (JStr p) =>
                let '(user, st') :=
                  st_createUser (mkInsertUser name (hashPassword scrypt salt p)
                                   (admin_flag (jget "isAdmin" fs))) st in
                Some (userResponse 201 user, Some (u_id user), st')
            | _ => Some (message 500 "Internal Server Error", sess, st)
            end
        end
    | _ => None
    end.

(** POST /api/login (121-134) *)
Definition loginRoute (body : json) (sess : Session) (st : St) : Response * Session :=
  match localStrategy (fields_of body) st with
  | VError => (message 500 "Internal Server Error", sess)
  | VFail m => (message 401 m, sess)
  | VOk user => (userResponse 200 user, Some (u_id user))
  end.

(** POST /api/logout (136-147) *)
Definition logoutRoute (sess : Session) : Response * Session := (mkResponse 200 BEmpty, None).

(** GET /api/user (150-157) *)
Definition userRoute (sess : Session) (st : St) : Response :=
  match sessionUser sess st with
  | None => mkResponse 401 BEmpty
  | Some user => userResponse 200 user
  end.

End AuthRoutes.

(** ** The answers of the authentication routes *)

(** The server's answer contract ([Http.typed_response]) with the generic
    500 that an error passed to [next] turns into. *)
Definition auth_typed (r : Response) : bool :=
  typed_response r || ((code r =? 500)%Z && error_body (body r)).

Section AuthTyped.
Context {St : Type} `{IStorage St}.
Variable scrypt : string -> string -> list Z.

Lemma userResponse_typed (c : Z) (u : User) :
  c = 200%Z \/ c = 201%Z -> auth_typed (userResponse c u) = true.
Proof. intros [-> | ->]; reflexivity. Qed.

Lemma registerRoute_typed (salt : list Z) (b : json) (sess : Session) (st : St) r sess' st' :
  registerRoute scrypt salt b sess st = Some (r, sess', st') -> auth_typed r = true.
Proof.
  unfold registerRoute. intros E.
  repeat match type of E with
  | context [match ?x with _ => _ end] => destruct x
  | context [if ?b then _ else _] => destruct b
  end; try discriminate; invert E; try reflexivity; apply userResponse_typed; auto.
Qed.

Lemma loginRoute_typed (b : json) (sess : Session) (st : St) :
  auth_typed (fst (loginRoute scrypt b sess st)) = true.
Proof.
  unfold loginRoute. destruct (localStrategy scrypt _ st); reflexivity.
Qed.

(** C19. The authentication routes keep the server's answer contract with
    one exception: POST /api/register, /api/login and /api/logout answer a
    status the client expects, with a JSON message exactly on an error
    (the 500 of an error passed to [next] included), but GET /api/user
    without a signed-in user answers [res.sendStatus(401)]: an error
    status without the JSON [message] every other error carries. *)
Theorem auth_responses_typed (salt : list Z) (b : json) (sess : Session) (st : St) :
  (forall r sess' st', registerRoute scrypt salt b sess st = Some (r, sess', st') ->
     auth_typed r = true) /\
  auth_typed (fst (loginRoute scrypt b sess st)) = true /\
  auth_typed (fst (logoutRoute sess)) = true /\
  (auth_typed (userRoute sess st) = false <-> sessionUser sess st = None).
Proof.
  split; [intros r sess' st'; apply registerRoute_typed|].
  split; [apply loginRoute_typed|]. split; [reflexivity|].
  unfold userRoute. destruct (sessionUser sess st) as [u|].
  - rewrite userResponse_typed by auto. split; discriminate.
  - split; reflexivity.
Qed.

End AuthTyped.

(** ** [ProtectedRoute] (src/client/src/lib/protected-route.tsx) *)

Inductive RouteView : Type := ShowLoader | RedirectAuth | NotFound | ShowComponent.

Definition protectedRoute (requireAdmin isLoading : bool) (user : option User) : RouteView :=
  if isLoading then ShowLoader
  else
    match user with
    | None => RedirectAuth
    | Some u =>
        if requireAdmin && negb (match isAdmin u with Some true => true | _ => false end)
        then NotFound else ShowComponent
    end.

(** ** Example: a registration that sets the admin flag *)

(** A stand-in for scrypt with the shape the lemmas need (64 bytes). *)
Definition toy_scrypt (p s : string) : list Z := repeat (Z.of_nat (String.length p) mod 256)%Z 64.

Definition salt0 : list Z := repeat 171%Z 16.

Definition mallory_fields : list (string * json) :=
  [("username", JStr "mallory"); ("password", JStr "secret1"); ("isAdmin", JBool true)].

Definition mallory_body : json := JObj mallory_fields.

(** ** The hex codec and the hash format *)

Definition is_byte (b : Z) : Prop := (0 <= b < 256)%Z.

Lemma hex_val_hex_char (d : Z) : (0 <= d < 16)%Z -> hex_val (hex_char d) = Some d.
Proof.
  intros Hd. assert (Hn : (Z.to_nat d < 16)%nat) by lia.
  rewrite <- (Z2Nat.id d) at 2 by lia. unfold hex_char. revert Hn.
  generalize (Z.to_nat d) as n. intros n Hn.
  do 16 (destruct n as [|n]; [reflexivity|]). lia.
Qed.

Lemma hex_char_not_dot (d : Z) : Ascii.eqb (hex_char d) "." = false.
Proof.
  unfold hex_char. generalize (Z.to_nat d) as n. intros n.
  do 16 (destruct n as [|n]; [reflexivity|]). reflexivity.
Qed.

Lemma byte_digits (b : Z) : is_byte b -> (0 <= b / 16 < 16)%Z /\ (0 <= b mod 16 < 16)%Z.
Proof.
  intros Hb. unfold is_byte in Hb. split; [|apply Z.mod_pos_bound; lia].
  split; [apply Z.div_pos; lia | apply Z.div_lt_upper_bound; lia].
Qed.

Lemma hex_encode_no_dot (bs : list Z) : no_dot (hex_encode bs) = true.
Proof. induction bs as [|b bs IH]; simpl; [reflexivity|]. now rewrite !hex_char_not_dot. Qed.

Lemma hex_encode_nonempty (bs : list Z) : bs <> [] -> String.eqb (hex_encode bs) "" = false.
Proof. destruct bs; [congruence | reflexivity]. Qed.

Lemma split_dot_no_dot (s : string) : no_dot s = true -> split_dot s = [s].
Proof.
  induction s as [|c s IH]; simpl; [reflexivity|].
  intros Hs. apply andb_prop in Hs as [Hc Hs]. apply negb_true_iff in Hc.
  rewrite Hc, IH by assumption. reflexivity.
Qed.

Lemma split_dot_app_dot (s1 s2 : string) :
  no_dot s1 = true -> split_dot (s1 ++ String "." s2) = s1 :: split_dot s2.
Proof.
  induction s1 as [|c s1 IH]; simpl; [reflexivity|].
  intros Hs. apply andb_prop in Hs as [Hc Hs]. apply negb_true_iff in Hc.
  rewrite Hc, IH by assumption. reflexivity.
Qed.

Lemma bytes_eqb_spec (a b : list Z) : bytes_eqb a b = true <-> a = b.
Proof.
  revert b. induction a as [|x a IH]; intros [|y b]; simpl; try (split; congruence).
  rewrite andb_true_iff, Z.eqb_eq, IH. split; [intros [-> ->]; reflexivity | intros E; injection E; auto].
Qed.

Section Hashing.
Variable scrypt : string -> string -> list Z.
Hypothesis scrypt_len : forall p s, length (scrypt p s) = 64%nat.
Hypothesis scrypt_bytes : forall p s, Forall is_byte (scrypt p s).

Lemma hex_decode_encode (bs : list Z) : Forall is_byte bs -> hex_decode (hex_encode bs) = bs.
Proof.
  induction 1 as [|b bs Hb _ IH]; [reflexivity|]. simpl.
  destruct (byte_digits b Hb) as [H1 H2].
  rewrite !hex_val_hex_char, IH by assumption. f_equal. symmetry. apply Z.div_mod. lia.
Qed.

(** Checking a password against a hash made with a non-empty salt
    compares the two scrypt keys of that salt. *)
Lemma comparePasswords_hash (salt : list Z) (pw pw' : string) :
  salt <> [] ->
  comparePasswords scrypt pw' (hashPassword scrypt salt pw) =
  bytes_eqb (scrypt pw (hex_encode salt)) (scrypt pw' (hex_encode salt)).
Proof.
  intros Hsalt. unfold comparePasswords, hashPassword. cbv zeta.
  change ("." ++ hex_encode salt) with (String "." (hex_encode salt)).
  rewrite split_dot_app_dot, split_dot_no_dot by apply hex_encode_no_dot.
  assert (Hk : scrypt pw (hex_encode salt) <> []).
  { intros E. pose proof (scrypt_len pw (hex_encode salt)) as L. rewrite E in L. discriminate. }
  rewrite !hex_encode_nonempty, hex_decode_encode, !scrypt_len by auto. reflexivity.
Qed.

(** C21. A password checks against the hash [hashPassword] made of a
    password with a non-empty salt exactly when scrypt gives both the same
    key for that salt: the stored format round-trips through [split(".")]
    and the hex codec. *)
Theorem comparePasswords_hashPassword (salt : list Z) (pw pw' : string) :
  salt <> [] ->
  comparePasswords scrypt pw' (hashPassword scrypt salt pw) = true <->
  scrypt pw' (hex_encode salt) = scrypt pw (hex_encode salt).
Proof.
  intros Hsalt. rewrite comparePasswords_hash, bytes_eqb_spec by assumption.
  split; intros; congruence.
Qed.

End Hashing.

(** ** The authentication routes, against the storage laws *)

Lemma truthy_str (s : string) : truthy (JStr s) = negb (String.eqb s "").
Proof. reflexivity. Qed.

Lemma eqb_nonempty (s : string) : s <> "" -> String.eqb s "" = false.
Proof. intros H. now apply String.eqb_neq. Qed.

Section AuthProps.
Context {St : Type} `{Hlaws : IStorageLaws St}.
Variable scrypt : string -> string -> list Z.
Hypothesis scrypt_len : forall p s, length (scrypt p s) = 64%nat.
Hypothesis scrypt_bytes : forall p s, Forall is_byte (scrypt p s).

(** Registering a fresh username with a non-empty password creates the
    user row from the body and logs it in. *)
Lemma register_effect (salt : list Z) (fs : list (string * json)) (sess : Session) (st : St)
    (name pw : string) :
  jget "username" fs = Some (JStr name) -> jget "password" fs = Some (JStr pw) ->
  name <> "" -> pw <> "" -> st_getUserByUsername name st = None ->
  exists u st', registerRoute scrypt salt (JObj fs) sess st =
                  Some (userResponse 201 u, Some (u_id u), st') /\
    u = userOf (u_id u) (mkInsertUser name (hashPassword scrypt salt pw)
                           (admin_flag (jget "isAdmin" fs))) /\
    st_getUser (u_id u) st' = Some u /\ st_getUserByUsername name st' = Some u.
Proof.
  intros Hu Hp Hn Hpw Hnone. unfold registerRoute. cbn [fields_of]. rewrite Hu, Hp.
  cbn [truthy_opt]. rewrite !truthy_str, !eqb_nonempty by assumption. cbn [negb orb].
  rewrite Hnone. destruct (st_createUser _ st) as [u st'] eqn:E.
  destruct (createUser_law _ _ _ _ E) as (Hu' & Hget & Hfind).
  exists u, st'. repeat split; auto.
Qed.

(** Logging in as a user whose stored password is a hash. *)
Lemma login_hashed (name pw pw' : string) (salt : list Z) (u : User) (sess : Session) (st : St) :
  name <> "" -> pw' <> "" -> salt <> [] ->
  st_getUserByUsername name st = Some u -> password u = hashPassword scrypt salt pw ->
  loginRoute scrypt (JObj [("username", JStr name); ("password", JStr pw')]) sess st =
  if bytes_eqb (scrypt pw (hex_encode salt)) (scrypt pw' (hex_encode salt))
  then (userResponse 200 u, Some (u_id u))
  else (message 401 "Invalid username or password", sess).
Proof.
  intros Hn Hpw Hsalt Hfind Hpass. unfold loginRoute, localStrategy. cbn [fields_of jget].
  cbn [String.eqb Ascii.eqb Bool.eqb]. cbn [truthy_opt].
  rewrite !truthy_str, !eqb_nonempty by assumption. cbn [negb orb].
  rewrite Hfind, Hpass, comparePasswords_hash by assumption.
  destruct (bytes_eqb _ _); reflexivity.
Qed.

(** C20. POST /api/register with a fresh, non-empty username and a
    non-empty password answers 201, stores a user with that name and the
    body's admin flag ([?? false]), and logs it in; afterwards POST
    /api/login with that name and a non-empty password answers 200 and
    logs the user in exactly when scrypt gives the registered key, and
    answers 401 otherwise. *)
Theorem register_login_spec (salt : list Z) (fs : list (string * json)) (sess : Session)
    (st : St) (name pw : string) resp sess' st' :
  salt <> [] ->
  jget "username" fs = Some (JStr name) -> jget "password" fs = Some (JStr pw) ->
  name <> "" -> pw <> "" -> st_getUserByUsername name st = None ->
  registerRoute scrypt salt (JObj fs) sess st = Some (resp, sess', st') ->
  code resp = 201 /\
  exists u, sess' = Some (u_id u) /\ sessionUser sess' st' = Some u /\ username u = name /\
    isAdmin u = Some (match admin_flag (jget "isAdmin" fs) with Some b => b | None => false end) /\
    (forall pw' sess0, pw' <> "" ->
     loginRoute scrypt (JObj [("username", JStr name); ("password", JStr pw')]) sess0 st' =
     if bytes_eqb (scrypt pw (hex_encode salt)) (scrypt pw' (hex_encode salt))
     then (userResponse 200 u, Some (u_id u))
     else (message 401 "Invalid username or password", sess0)).
Proof.
  intros Hsalt Hu Hp Hn Hpw Hnone Hreg.
  destruct (register_effect salt fs sess st name pw Hu Hp Hn Hpw Hnone)
    as (u & st1 & Hr & Hrow & Hget & Hfind).
  rewrite Hr in Hreg. invert Hreg. split; [reflexivity|].
  exists u. split; [reflexivity|]. split; [exact Hget|].
  split; [rewrite Hrow; reflexivity|]. split; [rewrite Hrow; reflexivity|].
  intros pw' sess0 Hpw'. apply login_hashed; auto. rewrite Hrow. reflexivity.
Qed.

(** C8. Anyone can make themselves an admin: POST /api/register passes the
    body to [createUser], so a body with a truthy [isAdmin] creates an
    admin user, and the session it opens passes the [isAdmin] middleware
    and reads every order. *)
Theorem register_admin_escalation (salt : list Z) (fs : list (string * json)) (sess : Session)
    (st : St) (name pw : string) (v : json) resp sess' st' :
  jget "username" fs = Some (JStr name) -> jget "password" fs = Some (JStr pw) ->
  name <> "" -> pw <> "" -> st_getUserByUsername name st = None ->
  jget "isAdmin" fs = Some v -> truthy v = true ->
  registerRoute scrypt salt (JObj fs) sess st = Some (resp, sess', st') ->
  code resp = 201 /\ Routes.isAdmin (sessionUser sess' st') = None /\
  Routes.adminOrdersRoute (sessionUser sess' st') st' = mkResponse 200 (BOrders (st_getOrders st')).
Proof.
  intros Hu Hp Hn Hpw Hnone Hv Ht Hreg.
  destruct (register_effect salt fs sess st name pw Hu Hp Hn Hpw Hnone)
    as (u & st1 & Hr & Hrow & Hget & _).
  rewrite Hr in Hreg. invert Hreg. cbn [sessionUser]. rewrite Hget.
  assert (Ha : isAdmin u = Some true)
    by (rewrite Hrow; cbn; rewrite Hv; destruct v; cbn in *; congruence).
  unfold Routes.adminOrdersRoute, Routes.isAdmin. rewrite Ha. auto.
Qed.

End AuthProps.

(** The client's admin gate agrees with the server's: for a loaded,
    signed-in user, [ProtectedRoute] with [requireAdmin] shows the page
    exactly when the [isAdmin] middleware lets the user's requests
    through. *)
Lemma protected_route_matches_server (u : User) :
  protectedRoute true false (Some u) = ShowComponent <-> Routes.isAdmin (Some u) = None.
Proof.
  unfold protectedRoute, Routes.isAdmin. destruct (isAdmin u) as [[]|]; cbn; split; congruence.
Qed.

Lemma toy_scrypt_len (p s : string) : length (toy_scrypt p s) = 64%nat.
Proof. apply repeat_length. Qed.

Lemma toy_scrypt_bytes (p s : string) : Forall is_byte (toy_scrypt p s).
Proof.
  apply Forall_forall. intros b Hb. apply repeat_spec in Hb. subst b.
  unfold is_byte. apply Z.mod_pos_bound. lia.
Qed.

(** Mallory registers on the store the server starts with and logs in
    with the same password. *)
Lemma register_login_spec_witness :
  exists resp sess' st',
    registerRoute toy_scrypt salt0 mallory_body None Routes.store0 = Some (resp, sess', st') /\
    code resp = 201 /\
    exists u, sessionUser sess' st' = Some u /\ username u = "mallory" /\
      loginRoute toy_scrypt (JObj [("username", JStr "mallory"); ("password", JStr "secret1")])
        None st' = (userResponse 200 u, Some (u_id u)).
Proof.
  destruct (registerRoute toy_scrypt salt0 mallory_body None Routes.store0)
    as [[[resp sess'] st']|] eqn:E; [|vm_compute in E; discriminate].
  exists resp, sess', st'. split; [reflexivity|].
  destruct (register_login_spec toy_scrypt toy_scrypt_len toy_scrypt_bytes salt0 mallory_fields None
              Routes.store0 "mallory" "secret1" resp sess' st'
              ltac:(discriminate) eq_refl eq_refl ltac:(discriminate) ltac:(discriminate)
              ltac:(vm_compute; reflexivity) E)
    as (Hc & u & _ & Hsu & Hn & _ & Hlogin).
  split; [exact Hc|]. exists u. split; [exact Hsu|]. split; [exact Hn|].
  rewrite Hlogin by discriminate. reflexivity.
Defined.

(** Mallory's registration makes her an admin. *)
Lemma register_admin_escalation_witness :
  exists resp sess' st',
    registerRoute toy_scrypt salt0 mallory_body None Routes.store0 = Some (resp, sess', st') /\
    Routes.isAdmin (sessionUser sess' st') = None.
Proof.
  destruct (registerRoute toy_scrypt salt0 mallory_body None Routes.store0)
    as [[[resp sess'] st']|] eqn:E; [|vm_compute in E; discriminate].
  exists resp, sess', st'. split; [reflexivity|].
  apply (register_admin_escalation toy_scrypt salt0 mallory_fields None Routes.store0 "mallory" "secret1"
           (JBool true) resp sess' st' eq_refl eq_refl ltac:(discriminate) ltac:(discriminate)
           ltac:(vm_compute; reflexivity) eq_refl eq_refl E).
Defined.

(** The stored hash of "secret1" accepts "secret1". *)
Lemma comparePasswords_hashPassword_witness :
  comparePasswords toy_scrypt "secret1" (hashPassword toy_scrypt salt0 "secret1") = true.
Proof.
  apply (comparePasswords_hashPassword toy_scrypt toy_scrypt_len toy_scrypt_bytes salt0
           "secret1" "secret1"); [discriminate | reflexivity].
Defined.

(** Without a session, GET /api/user answers the bare 401. *)
Lemma auth_responses_typed_witness :
  auth_typed (userRoute None Routes.store0) = false.
Proof.
  apply (proj2 (proj2 (proj2 (proj2 (auth_responses_typed toy_scrypt salt0 mallory_body None
                                        Routes.store0)))) eq_refl).
Defined.

End Auth.
