(* ===== verification/Filter.v ===== *)
(** The product list of the home page: the hook
    src/client/src/hooks/useFilteredProducts.ts (fetch, search, price and
    rating filters, sort options), the filter state of
    src/client/src/pages/Home.tsx with its handlers, and the price inputs
    of src/client/src/components/FilterSidebar.tsx.

    Strings are ASCII, so [toLowerCase] maps A-Z to a-z.
    [Array.prototype.sort] is a stable insertion sort that places an element
    after every element the comparator does not put after it.  A
    comparator's value is a JS number; NaN counts as 0, as the spec of
    [sort] says.  [localeCompare] depends on the locale and is a parameter.
    The products come from GET /api/products or
    /api/products/category/:category, answered by [Routes.route]. *)

From Stdlib Require Import ZArith QArith Lqa String Ascii List Bool Lia Permutation Sorted.
From S2P Require Import Prelude JsNum JsMap Schema Storage Http Routes.
Import ListNotations.

Module ProductFilter.
Import JsNum Schema Storage Http.
#[local] Open Scope string_scope.

(** ** Strings *)

Definition lower_char (c : ascii) : ascii :=
  let n := nat_of_ascii c in
  if (65 <=? n)%nat && (n <=? 90)%nat then ascii_of_nat (n + 32) else c.

(** [s.toLowerCase()] *)
Fixpoint toLowerCase (s : string) : string :=
  match s with
  | EmptyString => EmptyString
  | String c s' => String (lower_char c) (toLowerCase s')
  end.

(** [hay.includes(needle)] *)
Definition includes (hay needle : string) : bool :=
  match String.index 0 needle hay with Some _ => true | None => false end.

(** ** Numbers *)

(** [a <= b] on JS numbers: false when either is NaN. *)
Definition num_le (a b : num) : bool :=
  match a, b with
  | NaN, _ | _, NaN => false
  | NegInf, _ | _, PosInf => true
  | PosInf, _ | _, NegInf => false
  | Fin x, Fin y => Qle_bool x y
  end.

(** [a - b] *)
Definition sub (a b : num) : num := add a (neg b).

(** Whether a comparator's value puts its first argument after its second;
    NaN counts as +0. *)
Definition positive (v : num) : bool :=
  match v with
  | Fin q => negb (Qle_bool q 0)
  | PosInf => true
  | _ => false
  end.

(** ** [Array.prototype.sort] with a comparator *)

Section Sort.
Context {A : Type} (cmp : A -> A -> num).

Fixpoint insert_by (x : A) (l : list A) : list A :=
  match l with
  | [] => [x]
  | y :: l' => if positive (cmp y x) then x :: y :: l' else y :: insert_by x l'
  end.

Definition sort_by (l : list A) : list A := fold_left (fun acc x => insert_by x acc) l [].

End Sort.

(** ** The hook *)

Definition price_of (p : Product) : num := parseFloat (p_price p).
Definition rating_of (p : Product) : num := parseFloat (rating p).

(** The text search (39-46). *)
Definition matchesSearch (searchQuery : string) (p : Product) : bool :=
  let q := toLowerCase searchQuery in
  includes (toLowerCase (p_name p)) q || includes (toLowerCase (description p)) q.

(** Each filter of the hook: the products a bound keeps. *)
Definition minFilter (key : Product -> num) (bound : option num) (l : list Product) : list Product :=
  match bound with
  | None => l
  | Some m => filter (fun p => num_le m (key p)) l
  end.

Definition maxFilter (key : Product -> num) (bound : option num) (l : list Product) : list Product :=
  match bound with
  | None => l
  | Some m => filter (fun p => num_le (key p) m) l
  end.

Section Hook.
Variable localeCompare : string -> string -> Z.

(** The comparator of a sort option (64-84); [None] leaves the order. *)
Definition comparator (sortOption : string) : option (Product -> Product -> num) :=
  if String.eqb sortOption "price-asc" then Some (fun a b => sub (price_of a) (price_of b))
  else if String.eqb sortOption "price-desc" then Some (fun a b => sub (price_of b) (price_of a))
  else if String.eqb sortOption "name-asc" then
    Some (fun a b => of_Z (localeCompare (p_name a) (p_name b)))
  else if String.eqb sortOption "name-desc" then
    Some (fun a b => of_Z (localeCompare (p_name b) (p_name a)))
  else if String.eqb sortOption "rating-desc" then
    Some (fun a b => sub (rating_of b) (rating_of a))
  else None.

(** The [filteredProducts] memo (31-88). *)
Definition filteredProducts (products : list Product) (searchQuery : string)
    (minPrice maxPrice minRating : option num) (sortOption : string) : list Product :=
  match products with
  | [] => []
  | _ =>
      let r1 := if String.eqb searchQuery "" then products
                else filter (matchesSearch searchQuery) products in
      let r2 := minFilter price_of minPrice r1 in
      let r3 := maxFilter price_of maxPrice r2 in
      let r4 := minFilter rating_of minRating r3 in
      match comparator sortOption with
      | Some cmp => sort_by cmp r4
      | None => r4
      end
  end.

End Hook.

(** The request the hook's query key names (23-25). *)
Definition productsPath (category : string) : list string :=
  if String.eqb category "all" then ["api"; "products"]
  else ["api"; "products"; "category"; category].

(** [data || []]: the products of a 200 answer, none otherwise. *)
Definition fetchProducts {St} `{IStorage St} (category : string) (st : St) : list Product :=
  match Routes.route (Routes.mkRequest Routes.GET (productsPath category) None JNull 0) st with
  | Some (mkResponse 200 (BProducts ps), _) => ps
  | _ => []
  end.

(** ** The filter state of the home page *)

Record HomeState : Type := mkHome {
  searchQuery : string;
  selectedCategory : string;
  minPrice : option num;
  maxPrice : option num;
  minRating : option num;
  sortOption : string
}.

Definition initialHome : HomeState := mkHome "" "all" None None None "featured".

Inductive HomeEvent : Type :=
| Search (q : string)
| CategoryChange (c : string)
| SortChange (o : string)
| PriceFilterChange (mn mx : option num)
| RatingFilterChange (r : option num)
| ResetFilters.

(** The handlers of Home (33-61). *)
Definition home_step (h : HomeState) (e : HomeEvent) : HomeState :=
  match e with
  | Search q => mkHome q (selectedCategory h) (minPrice h) (maxPrice h) (minRating h) (sortOption h)
  | CategoryChange c => mkHome (searchQuery h) c (minPrice h) (maxPrice h) (minRating h) (sortOption h)
  | SortChange o => mkHome (searchQuery h) (selectedCategory h) (minPrice h) (maxPrice h) (minRating h) o
  | PriceFilterChange mn mx => mkHome (searchQuery h) (selectedCategory h) mn mx (minRating h) (sortOption h)
  | RatingFilterChange r => mkHome (searchQuery h) (selectedCategory h) (minPrice h) (maxPrice h) r (sortOption h)
  | ResetFilters => mkHome "" "all" None None None "featured"
  end.

(** The grid's products for a filter state and a store. *)
Definition homeView {St} `{IStorage St} (localeCompare : string -> string -> Z)
    (h : HomeState) (st : St) : list Product :=
  filteredProducts localeCompare (fetchProducts (selectedCategory h) st) (searchQuery h)
    (minPrice h) (maxPrice h) (minRating h) (sortOption h).

(** [handleApplyPriceFilter] of FilterSidebar (32-36): an empty input is no
    bound, any other is parsed. *)
Definition handleApplyPriceFilter (minInput maxInput : string) : HomeEvent :=
  PriceFilterChange (if String.eqb minInput "" then None else Some (parseFloat minInput))
                    (if String.eqb maxInput "" then None else Some (parseFloat maxInput)).

(** What the filters of the hook keep, as a predicate of one product. *)
Definition passes (searchQuery : string) (minPrice maxPrice minRating : option num)
    (p : Product) : bool :=
  (String.eqb searchQuery "" || matchesSearch searchQuery p) &&
  match minPrice with Some m => num_le m (price_of p) | None => true end &&
  match maxPrice with Some m => num_le (price_of p) m | None => true end &&
  match minRating with Some m => num_le m (rating_of p) | None => true end.

(** The exact value of a finite number (0 otherwise). *)
Definition finite_value (x : num) : Q := match x with Fin q => q | _ => 0 end.

(** ** The sort: a permutation, sorted and stable on a keyed comparator *)

Section SortLaws.
Local Open Scope Q_scope.
Local Open Scope list_scope.
Context {A : Type} (cmp : A -> A -> num).

Lemma insert_by_perm (x : A) (l : list A) : Permutation (insert_by cmp x l) (x :: l).
Proof.
  induction l as [|y l IH]; simpl; [reflexivity|].
  destruct (positive (cmp y x)); [reflexivity|].
  rewrite IH. apply perm_swap.
Qed.

Lemma sort_by_app (l : list A) (x : A) : sort_by cmp (l ++ [x]) = insert_by cmp x (sort_by cmp l).
Proof. unfold sort_by. now rewrite fold_left_app. Qed.

Lemma sort_by_perm (l : list A) : Permutation (sort_by cmp l) l.
Proof.
  induction l as [|x l IH] using rev_ind; [reflexivity|].
  rewrite sort_by_app, insert_by_perm, IH. apply Permutation_cons_append.
Qed.

(** The comparator orders the elements of [P] by a rational key. *)
Variables (key : A -> Q) (P : A -> Prop).
Hypothesis Hkey : forall a b, P a -> P b -> positive (cmp a b) = negb (Qle_bool (key a) (key b)).

Definition key_le (a b : A) : Prop := key a <= key b.

#[local] Instance key_le_trans : Transitive key_le.
Proof. intros a b c H1 H2. unfold key_le in *. eapply Qle_trans; eauto. Qed.

Lemma insert_by_hd (x y : A) (l : list A) :
  P x -> key_le y x -> HdRel key_le y l -> HdRel key_le y (insert_by cmp x l).
Proof.
  intros Hx Hyx Hhd. destruct l as [|z l]; simpl; [now constructor|].
  destruct (positive (cmp z x)); constructor; [assumption|]. now inversion Hhd.
Qed.

Lemma insert_by_sorted (x : A) (l : list A) :
  P x -> Forall P l -> Sorted key_le l -> Sorted key_le (insert_by cmp x l).
Proof.
  intros Hx. induction l as [|y l IH]; intros Hl Hs; simpl; [now repeat constructor|].
  inversion Hl as [|? ? Hy Hl']; subst. rewrite (Hkey y x Hy Hx).
  destruct (Qle_bool (key y) (key x)) eqn:E; simpl.
  - apply Qle_bool_iff in E. inversion Hs; subst.
    constructor; [now apply IH | now apply insert_by_hd].
  - assert (key x <= key y).
    { apply Qlt_le_weak, Qnot_le_lt. intros C. apply Qle_bool_iff in C. congruence. }
    constructor; [assumption | now constructor].
Qed.

Lemma sort_by_sorted (l : list A) : Forall P l -> Sorted key_le (sort_by cmp l).
Proof.
  induction l as [|x l IH] using rev_ind; intros Hl; [constructor|].
  apply Forall_app in Hl as [Hl Hx]. inversion Hx; subst.
  rewrite sort_by_app. apply insert_by_sorted; auto.
  eapply Permutation_Forall; [symmetry; apply sort_by_perm | assumption].
Qed.

Definition key_is (c : Q) (a : A) : bool := Qeq_bool (key a) c.

Lemma insert_by_stable (c : Q) (x : A) (l : list A) :
  P x -> Forall P l -> Sorted key_le l ->
  filter (key_is c) (insert_by cmp x l) = filter (key_is c) l ++ filter (key_is c) [x].
Proof.
  intros Hx. induction l as [|y l IH]; intros Hl Hs; simpl; [reflexivity|].
  inversion Hl as [|? ? Hy Hl']; subst. rewrite (Hkey y x Hy Hx).
  destruct (Qle_bool (key y) (key x)) eqn:E; simpl.
  - inversion Hs; subst. rewrite IH by assumption. now destruct (key_is c y).
  - assert (Hlt : key x < key y).
    { apply Qnot_le_lt. intros C. apply Qle_bool_iff in C. congruence. }
    destruct (key_is c x) eqn:Ex; [|now rewrite app_nil_r].
    unfold key_is in Ex. apply Qeq_bool_iff in Ex.
    assert (Hnone : filter (key_is c) (y :: l) = []).
    { apply filter_all_false. intros z Hz. unfold key_is. apply not_true_iff_false.
      intros Hz'. apply Qeq_bool_iff in Hz'.
      assert (Hyz : key y <= key z).
      { destruct Hz as [<- | Hz]; [apply Qle_refl|].
        apply Sorted_extends in Hs; [|apply key_le_trans]. eapply Forall_forall in Hs; eauto. }
      apply (Qlt_irrefl c). rewrite <- Ex at 1. rewrite <- Hz'. eapply Qlt_le_trans; eauto. }
    simpl in Hnone. rewrite Hnone. reflexivity.
Qed.

Lemma sort_by_stable (c : Q) (l : list A) :
  Forall P l -> filter (key_is c) (sort_by cmp l) = filter (key_is c) l.
Proof.
  induction l as [|x l IH] using rev_ind; intros Hl; [reflexivity|].
  apply Forall_app in Hl as [Hl Hx]. inversion Hx; subst.
  rewrite sort_by_app, insert_by_stable, IH, filter_app; auto.
  - eapply Permutation_Forall; [symmetry; apply sort_by_perm | assumption].
  - now apply sort_by_sorted.
Qed.

End SortLaws.

(** ** The hook *)

Lemma filter_filter {A} (f g : A -> bool) (l : list A) :
  filter f (filter g l) = filter (fun x => g x && f x) l.
Proof.
  induction l as [|x l IH]; simpl; [reflexivity|].
  destruct (g x); simpl; [destruct (f x); simpl; now rewrite IH | exact IH].
Qed.

Lemma filter_true {A} (f : A -> bool) (l : list A) : (forall x, f x = true) -> filter f l = l.
Proof. intros Hf. induction l as [|x l IH]; simpl; [reflexivity|]. now rewrite Hf, IH. Qed.

(** The four filters of the hook keep the products [passes] keeps, in
    their order. *)
Lemma filteredProducts_eq (lc : string -> string -> Z) (products : list Product)
    (q : string) (mn mx mr : option num) (o : string) :
  filteredProducts lc products q mn mx mr o =
  match comparator lc o with
  | Some cmp => sort_by cmp (filter (passes q mn mx mr) products)
  | None => filter (passes q mn mx mr) products
  end.
Proof.
  assert (Hr : minFilter rating_of mr (maxFilter price_of mx (minFilter price_of mn
                 (if String.eqb q "" then products else filter (matchesSearch q) products))) =
               filter (passes q mn mx mr) products).
  { unfold minFilter, maxFilter, passes.
    destruct (String.eqb q ""), mn, mx, mr; rewrite ?filter_filter;
      first [symmetry; apply filter_true; intros; reflexivity
            | apply filter_ext; intros p; cbn [orb andb]; now rewrite ?andb_true_r, ?andb_assoc]. }
  unfold filteredProducts. rewrite Hr. destruct products; [|reflexivity].
  now destruct (comparator lc o).
Qed.

(** The price-ascending comparator orders products with finite prices by
    their exact price. *)
Lemma price_asc_key (a b : Product) :
  is_finite (price_of a) = true -> is_finite (price_of b) = true ->
  positive (sub (price_of a) (price_of b)) =
  negb (Qle_bool (finite_value (price_of a)) (finite_value (price_of b))).
Proof.
  destruct (price_of a) as [qa| | |], (price_of b) as [qb| | |]; try discriminate.
  intros _ _. cbn. f_equal.
  destruct (Qle_bool (qa + - qb) 0) eqn:E1, (Qle_bool qa qb) eqn:E2; auto;
    rewrite ?Qle_bool_iff in *;
    try (apply not_true_iff_false in E1 || apply not_true_iff_false in E2;
         rewrite Qle_bool_iff in *; exfalso; lra).
Qed.

Lemma fetchProducts_all {St} `{IStorage St} (st : St) : fetchProducts "all" st = st_getProducts st.
Proof. reflexivity. Qed.

(** C23. The grid shows exactly the fetched products the search, price and
    rating filters keep: a permutation of them for a sort option, and them
    in the server's order for any other option ("featured"). *)
Theorem filteredProducts_spec (lc : string -> string -> Z) (products : list Product)
    (q : string) (mn mx mr : option num) (o : string) :
  Permutation (filteredProducts lc products q mn mx mr o) (filter (passes q mn mx mr) products) /\
  (comparator lc o = None ->
   filteredProducts lc products q mn mx mr o = filter (passes q mn mx mr) products).
Proof.
  rewrite filteredProducts_eq. destruct (comparator lc o).
  - split; [apply sort_by_perm | discriminate].
  - split; reflexivity.
Qed.

(** C24. With every price a finite number, "price-asc" lists the kept
    products by ascending price, and products of equal price keep their
    order (the sort is stable). *)
Theorem price_asc_sorted_stable (lc : string -> string -> Z) (products : list Product)
    (q : string) (mn mx mr : option num) :
  Forall (fun p => is_finite (price_of p) = true) products ->
  Sorted (fun a b => (finite_value (price_of a) <= finite_value (price_of b))%Q)
    (filteredProducts lc products q mn mx mr "price-asc") /\
  forall c, filter (fun p => Qeq_bool (finite_value (price_of p)) c)
              (filteredProducts lc products q mn mx mr "price-asc") =
            filter (fun p => Qeq_bool (finite_value (price_of p)) c)
              (filter (passes q mn mx mr) products).
Proof.
  intros Hfin. rewrite filteredProducts_eq. cbn [comparator String.eqb Ascii.eqb Bool.eqb].
  assert (Hf : Forall (fun p => is_finite (price_of p) = true) (filter (passes q mn mx mr) products)).
  { apply Forall_forall. intros p Hp. apply filter_In in Hp as [Hp _].
    eapply Forall_forall in Hfin; eauto. }
  split.
  - apply (sort_by_sorted _ (fun p => finite_value (price_of p)) _ price_asc_key _ Hf).
  - intros c. apply (sort_by_stable _ (fun p => finite_value (price_of p)) _ price_asc_key c _ Hf).
Qed.

(** Resetting the filters shows the whole catalogue in the server's
    order, from any filter state and on any store. *)
Lemma reset_shows_catalog {St} `{IStorage St} (lc : string -> string -> Z)
    (h : HomeState) (st : St) :
  homeView lc (home_step h ResetFilters) st = st_getProducts st.
Proof.
  unfold homeView. cbn [home_step selectedCategory searchQuery minPrice maxPrice minRating sortOption].
  rewrite fetchProducts_all, filteredProducts_eq. cbn [comparator String.eqb Ascii.eqb Bool.eqb].
  now apply filter_true.
Qed.

(** Four of the five categories the sidebar offers show nothing on the
    store the server starts with: the seeded products are in categories
    "electronics", "fashion", "home" and "services", and only "home" is
    among [PRODUCT_CATEGORIES]. *)
Lemma sidebar_categories_empty (c : string) :
  In c PRODUCT_CATEGORIES -> c <> "home" -> fetchProducts c Routes.store0 = [].
Proof.
  cbn [PRODUCT_CATEGORIES In]. intros Hc Hh.
  repeat (destruct Hc as [<- | Hc]; [vm_compute; first [reflexivity | congruence] |]). contradiction.
Qed.

(** A minimum price the input cannot parse (parseFloat gives NaN)
    hides every product: no price is at least NaN. *)
Lemma unparsable_min_price_hides_all {St} `{IStorage St} (lc : string -> string -> Z)
    (h : HomeState) (minInput maxInput : string) (st : St) :
  parseFloat minInput = NaN -> minInput <> "" ->
  homeView lc (home_step h (handleApplyPriceFilter minInput maxInput)) st = [].
Proof.
  intros Hnan Hne. unfold homeView, handleApplyPriceFilter.
  cbn [home_step selectedCategory searchQuery minPrice maxPrice minRating sortOption].
  rewrite filteredProducts_eq. replace (String.eqb minInput "") with false
    by (symmetry; now apply String.eqb_neq). rewrite Hnan.
  rewrite filter_all_false.
  - destruct (comparator _ _); reflexivity.
  - intros p _. unfold passes. cbn [num_le]. now rewrite andb_false_r, !andb_false_l.
Qed.

(** "licenses" shows nothing at start. *)
Lemma sidebar_categories_empty_witness : fetchProducts "licenses" Routes.store0 = [].
Proof. apply sidebar_categories_empty; [simpl; tauto | discriminate]. Defined.

(** A minimum price of "abc" empties the grid of the seeded store. *)
Lemma unparsable_min_price_hides_all_witness :
  homeView (fun _ _ => 0%Z) (home_step initialHome (handleApplyPriceFilter "abc" "")) Routes.store0 = [].
Proof. apply unparsable_min_price_hides_all; [vm_compute; reflexivity | discriminate]. Defined.

(** The seeded catalogue sorted by ascending price. *)
Lemma price_asc_sorted_stable_witness :
  Sorted (fun a b => (finite_value (price_of a) <= finite_value (price_of b))%Q)
    (filteredProducts (fun _ _ => 0%Z) (st_getProducts Routes.store0) "" None None None "price-asc").
Proof.
  apply (price_asc_sorted_stable (fun _ _ => 0%Z) (st_getProducts Routes.store0) "" None None None).
  assert (Hf : forallb (fun p => is_finite (price_of p)) (st_getProducts Routes.store0) = true)
    by (vm_compute; reflexivity).
  apply Forall_forall. rewrite forallb_forall in Hf. exact Hf.
Defined.

End ProductFilter.
