(* ===== verification/Admin.v ===== *)
(** The admin dashboard, src/client/src/pages/AdminDashboard.tsx, and the
    server it talks to.

    [Dash] is the page's state: the signed-in user, the selected order, the
    search term, the react-query caches of the order list
    (['/api/admin/orders']) and of the order details
    ([`/api/admin/orders/${id}`], a map from id to what the query holds),
    and the status mutation in flight.  [dash_step] runs the page's
    handlers; [sys_step] also runs the requests against the server through
    [Routes.route]: loading the list, loading the selected order's details,
    and settling the status mutation with its [onSuccess] or [onError]
    callback.  A request and its answer are one step; only this page
    writes to the store.  [render] is what the page shows.

    The abstract view of the page is the order list: [list_view_ok]
    relates a page to a store when its list cache is not loaded, empty, or
    the store's list; [sys_reachable] is the runs of the page and the
    server (with order ids below 10^21, where [String(id)] has no
    exponent), and [dashboard_list_refines] shows every run keeps the
    relation.  The other theorems: a status outside [ORDER_STATUSES] is
    never sent, the search finds an order by its id, and two defects of
    the mutation's [onSuccess] (the details lose their items; a change
    settled before the list loads empties the list). *)

From Stdlib Require Import ZArith QArith String List Bool Lia.
From S2P Require Import Prelude JsNum JsText JsMap Schema Storage Http Routes Filter.
Import ListNotations.

Module AdminDashboard.
Import JsNum Schema Storage Http.
#[local] Open Scope string_scope.

(** ** Helpers of the page *)

(** [formatCurrency] (54-59): a string amount is parsed first. *)
Inductive Amount : Type := AStr (s : string) | ANum (n : num) | ANone.

Definition formatCurrency (a : Amount) : string :=
  let fmt (n : num) := match n with NaN => "$NaN" | _ => "$" ++ toFixed 2 n end in
  match a with
  | ANone => "$NaN"
  | AStr s => fmt (parseFloat s)
  | ANum n => fmt n
  end.

Inductive Variant : Type := VDefault | VSecondary | VDestructive | VOutline.

(** [getStatusVariant] (417-432) *)
Definition getStatusVariant (status : string) : Variant :=
  let s := ProductFilter.toLowerCase status in
  if String.eqb s "pending" then VSecondary
  else if String.eqb s "processing" then VDefault
  else if String.eqb s "shipped" then VOutline
  else if String.eqb s "delivered" then VDefault
  else if String.eqb s "cancelled" then VDestructive
  else VSecondary.

(** The search of the order list (134-138). *)
Definition orderMatches (searchTerm : string) (o : Order) : bool :=
  let t := ProductFilter.toLowerCase searchTerm in
  ProductFilter.includes (ProductFilter.toLowerCase (customerName o)) t ||
  ProductFilter.includes (ProductFilter.toLowerCase (customerEmail o)) t ||
  ProductFilter.includes (numberToString (of_Z (o_id o))) searchTerm.

Definition filteredOrders (orders : option (list Order)) (searchTerm : string) : list Order :=
  match orders with
  | Some os => filter (orderMatches searchTerm) os
  | None => []
  end.

(** [!!user?.isAdmin] *)
Definition isAdminUser (user : option User) : bool :=
  match user with
  | Some u => match isAdmin u with Some true => true | _ => false end
  | None => false
  end.

(** ** The page's state *)

(** What the details query of an id holds: the order with its items as
    GET /api/admin/orders/:id answers it, the order alone as the status
    mutation's [setQueryData] writes it, or the request's error. *)
Inductive Details : Type :=
| DOk (o : Order) (items : option (list OrderItem))
| DErr (msg : string).

Record Dash : Type := mkDash {
  d_user : option User;
  d_authLoading : bool;
  d_selected : option Z;
  d_search : string;
  d_orders : option (list Order);
  d_details : JsMap.t Details;
  d_pending : option (Z * string);
  d_toast : option string
}.

Definition initialDash (user : option User) : Dash :=
  mkDash user false None "" None JsMap.empty None None.

Definition with_selected (d : Dash) (id : Z) : Dash :=
  mkDash (d_user d) (d_authLoading d) (Some id) (d_search d) (d_orders d) (d_details d)
    (d_pending d) (d_toast d).

Definition with_search (d : Dash) (s : string) : Dash :=
  mkDash (d_user d) (d_authLoading d) (d_selected d) s (d_orders d) (d_details d)
    (d_pending d) (d_toast d).

Definition with_orders (d : Dash) (os : list Order) : Dash :=
  mkDash (d_user d) (d_authLoading d) (d_selected d) (d_search d) (Some os) (d_details d)
    (d_pending d) (d_toast d).

Definition with_details (d : Dash) (id : Z) (x : Details) : Dash :=
  mkDash (d_user d) (d_authLoading d) (d_selected d) (d_search d) (d_orders d)
    (JsMap.set id x (d_details d)) (d_pending d) (d_toast d).

Definition with_pending (d : Dash) (p : option (Z * string)) : Dash :=
  mkDash (d_user d) (d_authLoading d) (d_selected d) (d_search d) (d_orders d) (d_details d)
    p (d_toast d).

(** A selected id is shown when it is truthy (not null, not 0). *)
Definition shownId (d : Dash) : option Z :=
  match d_selected d with
  | Some id => if (id =? 0)%Z then None else Some id
  | None => None
  end.

(** [handleStatusChange] (141-150): a status outside [ORDER_STATUSES] is
    refused on the client, any other starts the mutation. *)
Definition handleStatusChange (d : Dash) (orderId : Z) (status : string) : Dash :=
  if existsb (String.eqb status) ORDER_STATUSES then with_pending d (Some (orderId, status))
  else d.

(** ** The page's handlers *)

Inductive DashEvent : Type :=
| ClickOrder (id : Z)
| SearchInput (s : string)
| StatusSelect (s : string).

(** The status [Select] exists once the selected order's details are
    loaded and is disabled while the mutation is pending (320-337). *)
Definition dash_step (d : Dash) (e : DashEvent) : Dash :=
  match e with
  | ClickOrder id => with_selected d id
  | SearchInput s => with_search d s
  | StatusSelect s =>
      match d_pending d, shownId d with
      | None, Some id =>
          match JsMap.get id (d_details d) with
          | Some (DOk o _) => handleStatusChange d (o_id o) s
          | _ => d
          end
      | _, _ => d
      end
  end.

(** ** The page with the server *)

Inductive SysEvent : Type :=
| UI (e : DashEvent)
| LoadOrders
| LoadDetails
| SettleStatus.

Section System.
Context {St : Type} `{IStorage St}.

Definition request (m : Routes.Method) (path : list string) (user : option User) (body : json)
    (st : St) : Response * St :=
  match Routes.route (Routes.mkRequest m path user body 0) st with
  | Some r => r
  | None => (message 404 "Not Found", st)
  end.

Definition idSegment (id : Z) : string := numberToString (of_Z id).

(** What the details query holds after its request: the order and its
    items on a 200, the error's message otherwise. *)
Definition detailsOf (r : Response) : option Details :=
  match r with
  | mkResponse 200 (BOrderDetails o its) => Some (DOk o (Some its))
  | mkResponse 200 _ => None
  | mkResponse _ (BMessage m) => Some (DErr m)
  | mkResponse _ _ => None
  end.

(** [apiRequest] resolves on a 2xx answer, here the 200 with the updated
    order; any other answer rejects. *)
Definition okOrder (r : Response) : option Order :=
  match r with
  | mkResponse 200 (BOrder o) => Some o
  | _ => None
  end.

(** The mutation's [onSuccess] (108-123): the details cache of the id gets
    the answered order, the list cache the new status. *)
Definition onStatusSuccess (d : Dash) (orderId : Z) (status : string) (updated : Order) : Dash :=
  let d1 := with_details d orderId (DOk updated None) in
  mkDash (d_user d1) (d_authLoading d1) (d_selected d1) (d_search d1)
    (Some (match d_orders d1 with
           | Some os => map (status_updated orderId status) os
           | None => []
           end))
    (d_details d1) None (Some "Order updated").

(** [onError] (124-130) *)
Definition onStatusError (d : Dash) : Dash :=
  mkDash (d_user d) (d_authLoading d) (d_selected d) (d_search d) (d_orders d) (d_details d)
    None (Some "Update failed").

Definition sys_step (e : SysEvent) (s : Dash * St) : Dash * St :=
  let '(d, st) := s in
  match e with
  | UI e => (dash_step d e, st)
  | LoadOrders =>
      if isAdminUser (d_user d) then
        match request Routes.GET ["api"; "admin"; "orders"] (d_user d) JNull st with
        | (mkResponse 200 (BOrders os), st') => (with_orders d os, st')
        | (_, st') => (d, st')
        end
      else (d, st)
  | LoadDetails =>
      match shownId d with
      | Some id =>
          if isAdminUser (d_user d) then
            let '(r, st') := request Routes.GET ["api"; "admin"; "orders"; idSegment id]
                               (d_user d) JNull st in
            match detailsOf r with
            | Some x => (with_details d id x, st')
            | None => (d, st')
            end
          else (d, st)
      | None => (d, st)
      end
  | SettleStatus =>
      match d_pending d with
      | Some (id, status) =>
          let '(r, st') := request Routes.PATCH ["api"; "admin"; "orders"; idSegment id; "status"]
                             (d_user d) (JObj [("status", JStr status)]) st in
          match okOrder r with
          | Some o => (onStatusSuccess d id status o, st')
          | None => (onStatusError d, st')
          end
      | None => (d, st)
      end
  end.

Fixpoint sys_run (es : list SysEvent) (s : Dash * St) : Dash * St :=
  match es with
  | [] => s
  | e :: es' => sys_run es' (sys_step e s)
  end.

End System.

(** ** What the page shows *)

Inductive DetailsView : Type :=
| DSelectPrompt
| DLoading
| DError (msg : string)
| DShow (o : Order) (items : list OrderItem)
| DNoItems (o : Order).

Inductive DashView : Type :=
| VLoader
| VDenied
| VDashboard (orders : list Order) (details : DetailsView).

(** The details card (265-407). *)
Definition detailsView (d : Dash) : DetailsView :=
  match shownId d with
  | None => DSelectPrompt
  | Some id =>
      match JsMap.get id (d_details d) with
      | None => DLoading
      | Some (DErr m) => DError m
      | Some (DOk o (Some ((_ :: _) as its))) => DShow o its
      | Some (DOk o _) => DNoItems o
      end
  end.

(** The page (152-414). *)
Definition render (d : Dash) : DashView :=
  if d_authLoading d then VLoader
  else if negb (isAdminUser (d_user d)) then VDenied
  else VDashboard (filteredOrders (d_orders d) (d_search d)) (detailsView d).

(** ** The abstract view and the runs *)

(** The id a settled mutation would send is one [String] writes without
    an exponent. *)
Definition pending_in_range (d : Dash) : Prop :=
  match d_pending d with
  | Some (id, _) => (0 <= id < 10 ^ 21)%Z
  | None => True
  end.

Inductive sys_reachable {St} `{IStorage St} (st0 : St) (user : option User) : Dash * St -> Prop :=
| reach_init : sys_reachable st0 user (initialDash user, st0)
| reach_step d st e :
    sys_reachable st0 user (d, st) -> pending_in_range d ->
    sys_reachable st0 user (sys_step e (d, st)).

(** The list the page shows is not loaded, empty, or the store's list. *)
Definition list_view_ok {St} `{IStorage St} (d : Dash) (st : St) : Prop :=
  d_orders d = None \/ d_orders d = Some [] \/ d_orders d = Some (st_getOrders st).

(** ** Example: the store after Alice's order, and the admin's page *)

Definition shop1 : MemStorage :=
  snd (Routes.postOrdersRoute 5 (Some Routes.alice) Routes.body_ok Routes.store0).

Definition admin_page : Dash := initialDash (Some Routes.admin).

(** The admin opens order #1 and its details load. *)
Definition opened : Dash * MemStorage :=
  sys_run [UI (ClickOrder 1); LoadDetails] (admin_page, shop1).

(** ** Lemmas: the requests of the page *)

Lemma isAdmin_isAdminUser (user : option User) :
  isAdminUser user = true -> Routes.isAdmin user = None.
Proof.
  destruct user as [u|]; [|discriminate]. unfold isAdminUser, Routes.isAdmin.
  destruct (isAdmin u) as [[]|]; easy.
Qed.

Lemma isAdmin_some (user : option User) (r : Response) :
  Routes.isAdmin user = Some r -> r = message 403 "Admin access required".
Proof.
  unfold Routes.isAdmin. destruct user as [u|]; [destruct (isAdmin u) as [[]|]|]; congruence.
Qed.

Lemma dash_step_orders (d : Dash) (e : DashEvent) : d_orders (dash_step d e) = d_orders d.
Proof.
  destruct e as [id|s|s]; try reflexivity. cbn [dash_step].
  destruct (d_pending d), (shownId d) as [id|]; try reflexivity.
  destruct (JsMap.get id (d_details d)) as [[o its|m]|]; try reflexivity.
  all: unfold handleStatusChange;
    repeat (match goal with |- context [if ?b then _ else _] => destruct b end); reflexivity.
Qed.

Section Requests.
Context {St : Type} `{Hlaws : IStorageLaws St}.

Lemma request_orders (user : option User) (st : St) :
  isAdminUser user = true ->
  request Routes.GET ["api"; "admin"; "orders"] user JNull st =
  (mkResponse 200 (BOrders (st_getOrders st)), st).
Proof.
  intros Ha. unfold request. cbn [Routes.route Routes.method Routes.path].
  unfold Routes.adminOrdersRoute. now rewrite isAdmin_isAdminUser.
Qed.

Lemma request_details_store (user : option User) (x : string) (st : St) :
  snd (request Routes.GET ["api"; "admin"; "orders"; x] user JNull st) = st.
Proof. reflexivity. Qed.

Lemma request_patch_route (user : option User) (x : string) (b : json) (st : St) :
  request Routes.PATCH ["api"; "admin"; "orders"; x; "status"] user b st =
  Routes.patchStatusRoute user x b st.
Proof. reflexivity. Qed.

(** The PATCH of a status by an admin, for a status that is not empty and
    an id [String] writes without exponent. *)
Lemma request_patch_admin (user : option User) (id : Z) (status : string) (st : St) :
  st_ok st -> isAdminUser user = true -> (0 <= id < 10 ^ 21)%Z -> status <> "" ->
  match st_getOrderById id st with
  | Some o0 => exists st',
      request Routes.PATCH ["api"; "admin"; "orders"; idSegment id; "status"] user
        (JObj [("status", JStr status)]) st =
      (mkResponse 200 (BOrder (with_status o0 status)), st') /\
      st_ok st' /\ st_getOrders st' = map (status_updated id status) (st_getOrders st) /\
      st_getOrderById id st' = Some (with_status o0 status) /\
      (forall j, st_getOrderItems j st' = st_getOrderItems j st)
  | None =>
      request Routes.PATCH ["api"; "admin"; "orders"; idSegment id; "status"] user
        (JObj [("status", JStr status)]) st = (message 404 "Order not found", st)
  end.
Proof.
  intros Hok Ha Hid Hne. rewrite request_patch_route. unfold Routes.patchStatusRoute.
  rewrite isAdmin_isAdminUser by assumption.
  unfold idSegment. rewrite JsText.parseInt_numberToString by assumption. cbn [fields_of jget].
  cbn [String.eqb Ascii.eqb Bool.eqb].
  replace (String.eqb status "") with false by (symmetry; now apply String.eqb_neq).
  pose proof (updateOrderStatus_law st id status Hok) as Hlaw.
  pose proof (updateOrderStatus_orders st id status Hok) as Hlist.
  destruct (st_getOrderById id st) as [o0|].
  - destruct Hlaw as (st' & Hu & Hok' & Hget & _ & Hitems). rewrite Hu in *. cbn [snd] in Hlist.
    exists st'. auto.
  - now rewrite Hlaw.
Qed.

(** Any PATCH of a status the page sends either succeeds and applies the
    update to the store's list, or fails and leaves the store. *)
Lemma request_patch_cases (user : option User) (id : Z) (status : string) (st : St) :
  st_ok st -> (0 <= id < 10 ^ 21)%Z ->
  let '(r, st') := request Routes.PATCH ["api"; "admin"; "orders"; idSegment id; "status"] user
                     (JObj [("status", JStr status)]) st in
  (okOrder r = None /\ st' = st) \/
  (exists o, okOrder r = Some o /\ st_ok st' /\
     st_getOrders st' = map (status_updated id status) (st_getOrders st)).
Proof.
  intros Hok Hid. destruct (isAdminUser user) eqn:Ha.
  - destruct (String.eqb status "") eqn:Es.
    + apply String.eqb_eq in Es. subst status. rewrite request_patch_route.
      unfold Routes.patchStatusRoute. rewrite isAdmin_isAdminUser by assumption.
      unfold idSegment. rewrite JsText.parseInt_numberToString by assumption. now left.
    + apply String.eqb_neq in Es.
      pose proof (request_patch_admin user id status st Hok Ha Hid Es) as Hp.
      destruct (st_getOrderById id st) as [o0|].
      * destruct Hp as (st' & -> & Hok' & Hlist & _). right. eauto.
      * rewrite Hp. now left.
  - rewrite request_patch_route. unfold Routes.patchStatusRoute.
    destruct (Routes.isAdmin user) as [r|] eqn:Ea.
    + apply isAdmin_some in Ea. subst r. now left.
    + exfalso. revert Ha Ea. unfold isAdminUser, Routes.isAdmin.
      destruct user as [u|]; [destruct (isAdmin u) as [[]|]|]; discriminate.
Qed.

(** One step of the page and the server keeps the store's invariant and
    the page's list a view of the store. *)
Lemma sys_step_list_view (e : SysEvent) (d : Dash) (st : St) :
  st_ok st -> list_view_ok d st -> pending_in_range d ->
  st_ok (snd (sys_step e (d, st))) /\ list_view_ok (fst (sys_step e (d, st))) (snd (sys_step e (d, st))).
Proof.
  intros Hok Hv Hr. destruct e as [e| | |]; cbn [sys_step]; cbn [fst snd].
  - split; [assumption|]. unfold list_view_ok. now rewrite dash_step_orders.
  - destruct (isAdminUser (d_user d)) eqn:Ha; [|auto].
    rewrite request_orders by assumption. cbn. unfold list_view_ok. auto.
  - destruct (shownId d) as [id|]; [|auto]. destruct (isAdminUser (d_user d)); [|auto].
    pose proof (request_details_store (d_user d) (idSegment id) st) as Hs.
    destruct (request _ _ _ _ st) as [r st'] eqn:E. cbn [snd] in Hs. subst st'.
    destruct (detailsOf r); split; assumption.
  - unfold pending_in_range in Hr. destruct (d_pending d) as [[id status]|]; [|auto].
    pose proof (request_patch_cases (d_user d) id status st Hok Hr) as Hc.
    destruct (request _ _ _ _ st) as [r st'].
    destruct Hc as [[-> ->] | (o & -> & Hok' & Hlist)]; [split; assumption|].
    split; [exact Hok'|]. unfold list_view_ok in *. cbn [fst snd onStatusSuccess d_orders with_details].
    destruct Hv as [-> | [-> | ->]]; [auto | auto | rewrite <- Hlist; auto].
Qed.

End Requests.

Lemma prefix_refl (s : string) : String.prefix s s = true.
Proof.
  induction s as [|c s IH]; [reflexivity|]. cbn. destruct (Ascii.ascii_dec c c); [exact IH | contradiction].
Qed.

Lemma includes_refl (s : string) : ProductFilter.includes s s = true.
Proof. destruct s as [|c s]; [reflexivity|]. unfold ProductFilter.includes. cbn [index]. now rewrite prefix_refl. Qed.

Lemma includes_empty (s : string) : ProductFilter.includes s "" = true.
Proof. now destruct s. Qed.

Lemma existsb_eqb_In (s : string) (l : list string) : existsb (String.eqb s) l = true <-> In s l.
Proof.
  rewrite existsb_exists. split.
  - intros (x & Hx & E). apply String.eqb_eq in E. now subst.
  - intros H. exists s. split; [assumption | apply String.eqb_refl].
Qed.

Lemma ORDER_STATUSES_nonempty (s : string) : In s ORDER_STATUSES -> s <> "".
Proof. cbn. intros H; repeat destruct H as [<- | H]; easy. Qed.

(** The page refuses a status outside [ORDER_STATUSES] itself. *)
Lemma dash_step_unknown_status (d : Dash) (s : string) :
  ~ In s ORDER_STATUSES -> dash_step d (StatusSelect s) = d.
Proof.
  intros Hs. cbn [dash_step]. destruct (d_pending d), (shownId d) as [id|]; try reflexivity.
  destruct (JsMap.get id (d_details d)) as [[o its|m]|]; try reflexivity.
  unfold handleStatusChange. destruct (existsb _ _) eqn:E; [|reflexivity].
  apply existsb_eqb_In in E. contradiction.
Qed.

Lemma shop1_ok : st_ok shop1.
Proof.
  unfold shop1.
  destruct (Routes.postOrders_effect 5 Routes.alice Routes.body_ok Routes.store0 Routes.example_io
              _ _ Routes.store0_ok eq_refl (surjective_pairing _)) as (_ & _ & Hok & _).
  exact Hok.
Qed.

Lemma reach_step_pair {St} `{IStorage St} (st0 : St) user (p : Dash * St) (e : SysEvent) :
  sys_reachable st0 user p -> pending_in_range (fst p) -> sys_reachable st0 user (sys_step e p).
Proof. destruct p. apply reach_step. Qed.

Section Props.
Context {St : Type} `{Hlaws : IStorageLaws St}.

(** C15. A status outside the five of [ORDER_STATUSES] is refused by the
    page without contacting the server: selecting it and settling
    whatever mutation is in flight leave the page and the store as they
    were. *)
Theorem status_outside_enum_not_sent (d : Dash) (st : St) (s : string) :
  d_pending d = None -> ~ In s ORDER_STATUSES ->
  sys_run [UI (StatusSelect s); SettleStatus] (d, st) = (d, st).
Proof.
  intros Hp Hs. cbn [sys_run sys_step]. rewrite dash_step_unknown_status by assumption.
  now rewrite Hp.
Qed.

(** C14. The page refines the store: on every run of the page and the
    server, the store keeps its invariant and the order list the page
    holds is not loaded, empty, or exactly the store's list. *)
Theorem dashboard_list_refines (st0 : St) (user : option User) (d : Dash) (st : St) :
  st_ok st0 -> sys_reachable st0 user (d, st) -> st_ok st /\ list_view_ok d st.
Proof.
  intros Hok Hr. remember (d, st) as p eqn:Ep. revert d st Ep.
  induction Hr as [|d0 st1 e Hr IH Hrange]; intros d' st' Ep.
  - injection Ep as <- <-. split; [assumption | now left].
  - destruct (IH d0 st1 eq_refl) as [Hok1 Hv1].
    destruct (sys_step_list_view e d0 st1 Hok1 Hv1 Hrange) as [H1 H2].
    rewrite Ep in H1, H2. exact (conj H1 H2).
Qed.

(** C13. Changing the status of the order on display replaces its details
    with the PATCH answer, which has no items: the card then says "No
    items found for this order." although the order's items are still in
    the store. *)
Theorem status_change_drops_items (d : Dash) (st : St) (id : Z) (o o0 : Order)
    (its : list OrderItem) (s : string) :
  st_ok st -> isAdminUser (d_user d) = true -> d_pending d = None ->
  shownId d = Some id -> JsMap.get id (d_details d) = Some (DOk o (Some its)) -> o_id o = id ->
  (0 <= id < 10 ^ 21)%Z -> In s ORDER_STATUSES -> st_getOrderById id st = Some o0 ->
  let p := sys_run [UI (StatusSelect s); SettleStatus] (d, st) in
  detailsView (fst p) = DNoItems (with_status o0 s) /\
  st_getOrderItems id (snd p) = st_getOrderItems id st.
Proof.
  intros Hok Ha Hp Hshown Hget Hoid Hid Hs Ho0. cbn [sys_run sys_step dash_step].
  rewrite Hp, Hshown, Hget. unfold handleStatusChange.
  replace (existsb (String.eqb s) ORDER_STATUSES) with true by (symmetry; now apply existsb_eqb_In).
  rewrite Hoid. cbn [with_pending d_pending d_user].
  pose proof (request_patch_admin (d_user d) id s st Hok Ha Hid (ORDER_STATUSES_nonempty s Hs))
    as Hreq.
  rewrite Ho0 in Hreq. destruct Hreq as (st' & -> & _ & _ & _ & Hitems).
  cbn [okOrder fst snd]. split; [|apply Hitems].
  unfold detailsView. cbn [onStatusSuccess with_details with_pending d_details].
  replace (shownId _) with (Some id) by (rewrite <- Hshown; reflexivity).
  now rewrite JsMap.get_set_eq.
Qed.

End Props.

(** A status change that settles before the order list has loaded
    empties the list: [oldData?.map(...) ?? []] writes [], and the page
    shows no order although the store has one. *)
Lemma status_change_before_list_empties_it :
  filteredOrders (d_orders (fst (sys_run [UI (StatusSelect "shipped"); SettleStatus] opened))) "" = [] /\
  length (st_getOrders (snd (sys_run [UI (StatusSelect "shipped"); SettleStatus] opened))) = 1%nat.
Proof. vm_compute. split; reflexivity. Qed.

(** The search box: an empty search shows every loaded order, and
    searching for an order's id as the page prints it finds that order. *)
Lemma search_finds_by_id (os : list Order) :
  filteredOrders (Some os) "" = os /\
  forall o, In o os -> In o (filteredOrders (Some os) (numberToString (of_Z (o_id o)))).
Proof.
  split.
  - cbn [filteredOrders]. apply forallb_filter_id, forallb_forall. intros o _.
    unfold orderMatches. cbn [ProductFilter.toLowerCase]. now rewrite includes_empty.
  - intros o Ho. cbn [filteredOrders]. apply filter_In. split; [exact Ho|].
    unfold orderMatches. now rewrite includes_refl, !orb_true_r.
Qed.

(** Choosing "refunded" for the open order sends nothing. *)
Lemma status_outside_enum_not_sent_witness :
  sys_run [UI (StatusSelect "refunded"); SettleStatus] opened = opened.
Proof.
  rewrite (surjective_pairing opened).
  apply status_outside_enum_not_sent; [vm_compute; reflexivity|].
  intros H. apply existsb_eqb_In in H. discriminate H.
Defined.

(** A status change on the admin page leaves it and the store related. *)
Lemma dashboard_list_refines_witness :
  st_ok (snd (sys_step SettleStatus (sys_step (UI (StatusSelect "shipped"))
               (sys_step LoadOrders opened)))) /\
  list_view_ok (fst (sys_step SettleStatus (sys_step (UI (StatusSelect "shipped"))
                      (sys_step LoadOrders opened))))
    (snd (sys_step SettleStatus (sys_step (UI (StatusSelect "shipped"))
           (sys_step LoadOrders opened)))).
Proof.
  destruct (sys_step SettleStatus (sys_step (UI (StatusSelect "shipped"))
              (sys_step LoadOrders opened))) as [d st] eqn:E.
  apply (dashboard_list_refines shop1 (Some Routes.admin)); [exact shop1_ok|].
  rewrite <- E, <- surjective_pairing. unfold opened. cbn [sys_run].
  repeat (apply reach_step_pair; [| vm_compute; first [exact I | repeat split; discriminate]]).
  exact (reach_init shop1 (Some Routes.admin)).
Defined.

(** The admin opens order #1, whose one item is shown, and marks it
    shipped: the card then shows no item. *)
Lemma status_change_drops_items_witness :
  exists o0, detailsView (fst (sys_run [UI (StatusSelect "shipped"); SettleStatus] opened)) =
             DNoItems (with_status o0 "shipped").
Proof.
  eexists.
  refine (proj1 (status_change_drops_items (fst opened) (snd opened) 1 _ _ _ "shipped"
                   _ _ _ _ _ _ _ _ _)).
  - replace (snd opened) with shop1 by (vm_compute; reflexivity). exact shop1_ok.
  - vm_compute. reflexivity.
  - vm_compute. reflexivity.
  - vm_compute. reflexivity.
  - vm_compute. reflexivity.
  - vm_compute. reflexivity.
  - lia.
  - apply existsb_eqb_In. reflexivity.
  - vm_compute. reflexivity.
Defined.

End AdminDashboard.
