(* ===== verification/Storefront.v ===== *)
(** The storefront's components: src/client/src/components/ProductCard.tsx
    (the stars of a rating, the badge colour, the add button),
    ProductGrid.tsx (the first cards and "Load more"), CartIcon.tsx and
    CartDrawer.tsx (the badge, the drawer's buttons on the cart context),
    Header.tsx, FilterSidebar.tsx and MobileFilters.tsx (their local input
    state and the calls they make into the filter state of Home.tsx).

    A [for] loop of the page is a function with fuel that returns [None]
    when the fuel runs out; the theorems say for which inputs some fuel is
    enough, and that no fuel is for the others.  The cart is reached only
    through the interface [CartContextType] of [Cart], with the laws the
    drawer needs stated as the class [CartDrawerLaws] and discharged for
    the provider. *)

From Stdlib Require Import ZArith QArith Qround String Ascii List Bool Lia.
From S2P Require Import Prelude JsNum JsText Schema Cart Storage Http Routes Filter.
Import ListNotations.

Module Storefront.
Import JsNum Schema CartContext Storage Http ProductFilter.
#[local] Open Scope string_scope.
#[local] Open Scope list_scope.

(** ** JS numbers the card uses *)

(** [a < b] on JS numbers: false when either is NaN. *)
Definition num_lt (a b : num) : bool :=
  match a, b with
  | NaN, _ | _, NaN => false
  | PosInf, _ | _, NegInf => false
  | NegInf, _ | _, PosInf => true
  | Fin x, Fin y => negb (Qle_bool y x)
  end.

(** [Math.floor(x)] *)
Definition num_floor (x : num) : num :=
  match x with
  | Fin q => Fin (inject_Z (Qfloor q))
  | _ => x
  end.

(** [x % 1]: the fractional part with the sign of [x]; NaN for the
    infinities. *)
Definition num_mod1 (x : num) : num :=
  match x with
  | Fin q => Fin (q - inject_Z (Z.quot (Qnum q) (Zpos (Qden q))))
  | _ => NaN
  end.

(** ** ProductCard *)

Inductive Star : Type := FullStar | HalfStar | EmptyStar.

(** [i++] on the loop's counter, a JS number: exact below 2^53; at 2^53,
    [i + 1] rounds back to 2^53 (round half to even), so the counter never
    passes 2^53. *)
Definition js_incr (i : Z) : Z := if (i <? 2 ^ 53)%Z then i + 1 else i.

(** [for (let i = start; i < bound; i++) stars.push(s)] with fuel. *)
Fixpoint push_loop (fuel : nat) (i : Z) (bound : num) (s : Star) (acc : list Star)
    : option (list Star) :=
  if num_lt (of_Z i) bound then
    match fuel with
    | O => None
    | S f => push_loop f (js_incr i) bound s (acc ++ [s])%list
    end
  else Some acc.

(** [renderStars] (27-50) *)
Definition renderStars (fuel : nat) (rating : string) : option (list Star) :=
  let ratingNum := parseFloat rating in
  let fullStars := num_floor ratingNum in
  let hasHalfStar := num_le (Fin (1 # 2)) (num_mod1 ratingNum) in
  let emptyStars := sub (sub (of_Z 5) fullStars) (of_Z (if hasHalfStar then 1 else 0)) in
  match push_loop fuel 0 fullStars FullStar [] with
  | None => None
  | Some stars =>
      let stars := if hasHalfStar then (stars ++ [HalfStar])%list else stars in
      push_loop fuel 0 emptyStars EmptyStar stars
  end.

(** [getBadgeColorClass] (53-66) *)
Definition getBadgeColorClass (badge : option string) : string :=
  match badge with
  | Some "NEW" => "bg-secondary-500"
  | Some "SALE" => "bg-red-500"
  | Some "BESTSELLER" => "bg-secondary-500"
  | Some "POPULAR" => "bg-purple-500"
  | _ => "bg-gray-500"
  end.

(** The button's label (113). *)
Definition addButtonLabel (p : Product) : string :=
  match p_isService p with Some true => "Book Now" | _ => "Add to Cart" end.

(** ** ProductGrid *)

Record Grid : Type := mkGrid {
  visibleProducts : nat;
  isLoadingMore : bool
}.

(** [useState(8)], [useState(false)] (21-22) *)
Definition initialGrid : Grid := mkGrid 8 false.

(** [products.slice(0, visibleProducts)] (68) *)
Definition displayedProducts (products : list Product) (g : Grid) : list Product :=
  firstn (visibleProducts g) products.

(** [visibleProducts < products.length] (69) *)
Definition hasMoreProducts (products : list Product) (g : Grid) : bool :=
  (visibleProducts g <? length products)%nat.

Inductive GridView : Type :=
| GSkeletons (n : nat)                                        (* 34-42 *)
| GError                                                      (* 44-52 *)
| GNoResults                                                  (* 54-66 *)
| GCards (shown : list Product) (skeletons : nat) (loadMore : bool). (* 71-99 *)

Definition gridView (products : list Product) (isLoading isError : bool) (g : Grid) : GridView :=
  if isLoading then GSkeletons 8
  else if isError then GError
  else match products with
       | [] => GNoResults
       | _ => GCards (displayedProducts products g) (if isLoadingMore g then 4 else 0)
                (hasMoreProducts products g && negb (isLoadingMore g))
       end.

(** A click on "Load more products" (only shown while there are more and
    none is loading) and the end of its [setTimeout]. *)
Inductive GridEvent : Type := LoadMoreClick | LoadMoreTimeout.

(** [handleLoadMore] (24-32) *)
Definition grid_step (products : list Product) (isLoading isError : bool) (g : Grid)
    (e : GridEvent) : Grid :=
  match e with
  | LoadMoreClick =>
      match gridView products isLoading isError g with
      | GCards _ _ true => mkGrid (visibleProducts g) true
      | _ => g
      end
  | LoadMoreTimeout =>
      if isLoadingMore g then mkGrid (visibleProducts g + 8) false else g
  end.

Definition grid_run (products : list Product) (isLoading isError : bool) (g : Grid)
    (es : list GridEvent) : Grid :=
  fold_left (grid_step products isLoading isError) es g.

(** [k] clicks on "Load more", each followed by its timeout. *)
Fixpoint load_more_rounds (k : nat) : list GridEvent :=
  match k with
  | O => []
  | S k' => LoadMoreClick :: LoadMoreTimeout :: load_more_rounds k'
  end.

(** ** CartIcon and CartDrawer *)

(** The badge of [CartIcon] (25-29): none for an empty cart, "99+" above
    99, the count otherwise. *)
Definition cartBadge (itemCount : Z) : option string :=
  if (0 <? itemCount)%Z then
    Some (if (99 <? itemCount)%Z then "99+" else numberToString (of_Z itemCount))
  else None.

(** The drawer's [SheetDescription] (40-42). *)
Definition drawerDescription (n : nat) : string :=
  match n with
  | O => "Your cart is empty."
  | _ => ("You have " ++ numberToString (of_Z (Z.of_nat n)) ++ " item" ++
          (if Nat.eqb n 1 then "" else "s") ++ " in your cart.")%string
  end.

Section Drawer.
Context {S : Type} `{CartContextType S}.

(** The cart context with [CartIcon]'s [isCartOpen] and the location. *)
Record Shell : Type := mkShell {
  sh_ctx : S;
  isCartOpen : bool;
  sh_location : string
}.

(** The icon's click and the drawer's buttons; a line's buttons are those
    of the [i]-th line rendered. *)
Inductive DrawerEvent : Type :=
| CartClick                  (* handleCartClick (CartIcon 12-14) *)
| Minus (i : nat)            (* 67-75 *)
| Plus (i : nat)             (* 77-84 *)
| Trash (i : nat)            (* 88-95 *)
| CheckoutClick              (* handleCheckout (29-32) *)
| ClearClick                 (* 117-123 *)
| CloseDrawer.               (* onOpenChange, Continue Shopping (35, 136-141) *)

Definition with_ctx (s : Shell) (c : S) : Shell := mkShell c (isCartOpen s) (sh_location s).

(** The button of line [i] acts on that line when the drawer is open and
    shows it. *)
Definition on_line (s : Shell) (i : nat) (f : CartItem -> S -> S) : Shell :=
  if isCartOpen s then
    match nth_error (items (ctx_cart (sh_ctx s))) i with
    | Some it => with_ctx s (f it (sh_ctx s))
    | None => s
    end
  else s.

Definition drawer_step (s : Shell) (e : DrawerEvent) : Shell :=
  let nonempty := match items (ctx_cart (sh_ctx s)) with [] => false | _ => true end in
  match e with
  | CartClick => mkShell (sh_ctx s) true (sh_location s)
  | Minus i =>
      (* disabled={item.quantity <= 1} *)
      on_line s i (fun it c => if (quantity it <=? 1)%Z then c
                               else ctx_updateQuantity (ci_id it) (quantity it - 1) c)
  | Plus i => on_line s i (fun it c => ctx_updateQuantity (ci_id it) (quantity it + 1) c)
  | Trash i => on_line s i (fun it c => ctx_removeFromCart (ci_id it) c)
  | CheckoutClick =>
      if isCartOpen s && nonempty then mkShell (sh_ctx s) false "/checkout" else s
  | ClearClick => if isCartOpen s && nonempty then with_ctx s (ctx_clearCart (sh_ctx s)) else s
  | CloseDrawer => mkShell (sh_ctx s) false (sh_location s)
  end.

Definition drawer_run (s : Shell) (es : list DrawerEvent) : Shell := fold_left drawer_step es s.

(** ProductCard's [handleAddToCart] (68-70): [addToCart(product)] with
    the default quantity 1, at the time [now] of the click. *)
Definition handleAddToCart (now : Z) (p : Product) (s : Shell) : Shell :=
  with_ctx s (ctx_addToCart now p 1 (sh_ctx s)).

End Drawer.

(** What the drawer and the product card rely on from the cart context:
    adding a product, removing a line, setting a quantity and clearing act
    on the cart as [addToCart], [removeFromCart], [updateQuantity] (with
    its guard) and [clearCart] do. *)
Class CartDrawerLaws (S : Type) `{CartContextType S} := {
  ctx_addToCart_cart : forall s now p q,
    ctx_cart (ctx_addToCart now p q s) = addToCart now p q (ctx_cart s);
  ctx_removeFromCart_cart : forall s i,
    ctx_cart (ctx_removeFromCart i s) = removeFromCart i (ctx_cart s);
  ctx_updateQuantity_cart : forall s i q,
    ctx_cart (ctx_updateQuantity i q s) =
    if (q <? 1)%Z then ctx_cart s else setQuantity i q (ctx_cart s);
  ctx_clearCart_cart : forall s, ctx_cart (ctx_clearCart s) = clearCart (ctx_cart s)
}.

(** ** Header, FilterSidebar and MobileFilters on the filters of Home *)

(** What the header shows on its right (84-117): the user's name with an
    Admin link for a truthy [isAdmin] and a Logout button, or Login. *)
Inductive HeaderAccount : Type :=
| HUser (name : string) (adminLink : bool)
| HLogin.

Definition headerAccount (user : option User) : HeaderAccount :=
  match user with
  | Some u => HUser (username u) (match isAdmin u with Some true => true | _ => false end)
  | None => HLogin
  end.

(** *** Header *)

Inductive HeaderEvent : Type :=
| HSearchInput (q : string)      (* the search inputs' onChange (48, 130) *)
| HSearchButton                  (* the search buttons (55, 137) *)
| HToggleSearch                  (* toggleMobileSearch (19-21) *)
| HToggleFilters.                (* the filter button: onToggleFilters (75) *)

(** What the header asks of Home. *)
Inductive HeaderOut : Type := HOSearch (q : string) | HOToggleFilters.

(** The header's handlers on [isMobileSearchOpen], given Home's
    [searchQuery]. *)
Definition header_step (searchOpen : bool) (searchQuery : string) (e : HeaderEvent)
    : bool * list HeaderOut :=
  match e with
  | HSearchInput q => (searchOpen, [HOSearch q])
  | HSearchButton => (searchOpen, [HOSearch searchQuery])
  | HToggleSearch => (negb searchOpen, [])
  | HToggleFilters => (searchOpen, [HOToggleFilters])
  end.

(** *** FilterSidebar *)

(** The sidebar's local inputs, initialised once from the props (29-30). *)
Record Sidebar : Type := mkSidebar {
  minPriceInput : string;
  maxPriceInput : string
}.

Inductive SidebarEvent : Type :=
| SbCategory (c : string)        (* a category button (50) *)
| SbMinInput (v : string)        (* 72 *)
| SbMaxInput (v : string)        (* 84 *)
| SbApply.                       (* Apply Filter: handleApplyPriceFilter (90) *)

Definition sidebar_step (sb : Sidebar) (e : SidebarEvent) : Sidebar * option HomeEvent :=
  match e with
  | SbCategory c => (sb, Some (CategoryChange c))
  | SbMinInput v => (mkSidebar v (maxPriceInput sb), None)
  | SbMaxInput v => (mkSidebar (minPriceInput sb) v, None)
  | SbApply => (sb, Some (handleApplyPriceFilter (minPriceInput sb) (maxPriceInput sb)))
  end.

(** *** MobileFilters *)

(** The local state of MobileFilters (36-39). *)
Record MobileState : Type := mkMobile {
  localCategory : string;
  localMinPrice : string;
  localMaxPrice : string;
  localRating : string
}.

(** [x?.toString() || ""]: [String(x)] is never empty. *)
Definition optToString (o : option num) (dflt : string) : string :=
  match o with Some x => numberToString x | None => dflt end.

(** The modal is mounted when it opens: its state starts from Home's
    filters (36-39). *)
Definition mobileInit (h : HomeState) : MobileState :=
  mkMobile (selectedCategory h) (optToString (minPrice h) "") (optToString (maxPrice h) "")
    (optToString (minRating h) "0").

(** The three calls of [handleApply] into Home (49-60). *)
Definition mobileApply (m : MobileState) : list HomeEvent :=
  [CategoryChange (localCategory m);
   handleApplyPriceFilter (localMinPrice m) (localMaxPrice m);
   RatingFilterChange
     (if String.eqb (localRating m) "0" then None
      else Some (match parseInt (localRating m) with Some z => of_Z z | None => NaN end))].

Inductive MobileEvent : Type :=
| MCategory (c : string)         (* 85 *)
| MMinInput (v : string)         (* 111 *)
| MMaxInput (v : string)         (* 123 *)
| MRating (r : string)           (* 134 *)
| MApply                         (* Apply Filters: handleApply (181) *)
| MReset                         (* Reset: handleReset (175) *)
| MClose.                        (* the close button: onClose (76) *)

(** What the modal asks of Home: a filter change, or to be closed
    ([onClose] and [onApply] both close it, 140-141). *)
Inductive MobileOut : Type := MOHome (e : HomeEvent) | MOClose.

Definition mobile_step (m : MobileState) (e : MobileEvent) : MobileState * list MobileOut :=
  match e with
  | MCategory c => (mkMobile c (localMinPrice m) (localMaxPrice m) (localRating m), [])
  | MMinInput v => (mkMobile (localCategory m) v (localMaxPrice m) (localRating m), [])
  | MMaxInput v => (mkMobile (localCategory m) (localMinPrice m) v (localRating m), [])
  | MRating r => (mkMobile (localCategory m) (localMinPrice m) (localMaxPrice m) r, [])
  | MApply => (m, map MOHome (mobileApply m) ++ [MOClose])
  | MReset => (mkMobile "all" "" "" "0", [MOHome ResetFilters])      (* handleReset (62-68) *)
  | MClose => (m, [MOClose])
  end.

(** *** Home with its children *)

(** Home's state with the local state of its header, sidebar and modal;
    the modal's state exists while it is open. *)
Record HomePage : Type := mkHomePage {
  hp_home : HomeState;
  hp_searchOpen : bool;
  hp_sidebar : Sidebar;
  hp_mobile : option MobileState
}.

(** Home's first render: the sidebar's inputs start from the (undefined)
    prices. *)
Definition initialHomePage : HomePage :=
  mkHomePage initialHome false (mkSidebar "" "") None.

Inductive HomePageEvent : Type :=
| HeaderEv (e : HeaderEvent)
| SidebarEv (e : SidebarEvent)
| MobileEv (e : MobileEvent)
| SortSelect (o : string)        (* handleSortChange (107) *)
| GridReset.                     (* ProductGrid's Reset Filters: handleResetFilters (124) *)

Definition with_home (p : HomePage) (h : HomeState) : HomePage :=
  mkHomePage h (hp_searchOpen p) (hp_sidebar p) (hp_mobile p).

(** [toggleMobileFilters] (63-65): opening mounts the modal on Home's
    current filters, closing unmounts it. *)
Definition toggleMobileFilters (p : HomePage) : HomePage :=
  match hp_mobile p with
  | Some _ => mkHomePage (hp_home p) (hp_searchOpen p) (hp_sidebar p) None
  | None => mkHomePage (hp_home p) (hp_searchOpen p) (hp_sidebar p) (Some (mobileInit (hp_home p)))
  end.

Definition header_out (p : HomePage) (o : HeaderOut) : HomePage :=
  match o with
  | HOSearch q => with_home p (home_step (hp_home p) (Search q))
  | HOToggleFilters => toggleMobileFilters p
  end.

Definition mobile_out (p : HomePage) (o : MobileOut) : HomePage :=
  match o with
  | MOHome e => with_home p (home_step (hp_home p) e)
  | MOClose => mkHomePage (hp_home p) (hp_searchOpen p) (hp_sidebar p) None
  end.

Definition homePage_step (p : HomePage) (e : HomePageEvent) : HomePage :=
  match e with
  | HeaderEv e =>
      let '(so, outs) := header_step (hp_searchOpen p) (searchQuery (hp_home p)) e in
      fold_left header_out outs (mkHomePage (hp_home p) so (hp_sidebar p) (hp_mobile p))
  | SidebarEv e =>
      let '(sb, out) := sidebar_step (hp_sidebar p) e in
      let p1 := mkHomePage (hp_home p) (hp_searchOpen p) sb (hp_mobile p) in
      match out with Some he => with_home p1 (home_step (hp_home p1) he) | None => p1 end
  | MobileEv e =>
      match hp_mobile p with
      | Some m =>
          let '(m', outs) := mobile_step m e in
          fold_left mobile_out outs (mkHomePage (hp_home p) (hp_searchOpen p) (hp_sidebar p) (Some m'))
      | None => p
      end
  | SortSelect o => with_home p (home_step (hp_home p) (SortChange o))
  | GridReset => with_home p (home_step (hp_home p) ResetFilters)
  end.

Definition homePage_run (p : HomePage) (es : list HomePageEvent) : HomePage :=
  fold_left homePage_step es p.

(** Filters the modal prints and reads back: no bound or a whole number
    of dollars (below 10^21, where [String] writes no exponent), and no
    rating or a whole positive one (the modal's choices are 3 and 4). *)
Definition price_int (o : option num) : Prop :=
  match o with None => True | Some x => exists n, (0 <= n < 10 ^ 21)%Z /\ x = of_Z n end.

Definition rating_int (o : option num) : Prop :=
  match o with None => True | Some x => exists n, (1 <= n < 10 ^ 21)%Z /\ x = of_Z n end.

(** ** A product posted without a session *)

(** A product row a client can send to POST /api/products: every field the
    schema requires, with a rating of "Infinity". *)
Definition infinity_product_body : json :=
  JObj [("name", JStr "Desk Lamp"); ("description", JStr "LED lamp"); ("price", JStr "39.99");
        ("category", JStr "home"); ("image", JStr ""); ("rating", JStr "Infinity")].

(** ** Lemmas on the loops *)

Lemma num_lt_int (i n : Z) (q : Q) : q == inject_Z n -> num_lt (of_Z i) (Fin q) = (i <? n)%Z.
Proof.
  intros Hq. cbn [num_lt of_Z]. destruct (Qle_bool q (inject_Z i)) eqn:E; symmetry.
  - apply Qle_bool_iff in E. rewrite Hq, <- Zle_Qle in E. apply Z.ltb_ge. exact E.
  - apply Z.ltb_lt. apply Z.nle_gt. intros Hle. rewrite Zle_Qle, <- Hq in Hle.
    apply Qle_bool_iff in Hle. congruence.
Qed.

(** A loop up to an integer bound pushes [n - i] elements, given that much
    fuel. *)
Lemma push_loop_int (fuel : nat) (i n : Z) (q : Q) (s : Star) (acc : list Star) :
  q == inject_Z n -> (n <= 2 ^ 53)%Z -> (Z.to_nat (n - i) <= fuel)%nat ->
  push_loop fuel i (Fin q) s acc = Some (acc ++ repeat s (Z.to_nat (n - i))).
Proof.
  intros Hq Hn. revert i acc; induction fuel as [|f IH]; intros i acc Hf; cbn [push_loop];
    rewrite (num_lt_int i n q Hq).
  - replace (i <? n)%Z with false by (symmetry; apply Z.ltb_ge; lia).
    replace (Z.to_nat (n - i)) with O by lia. now rewrite app_nil_r.
  - destruct (i <? n)%Z eqn:E.
    + apply Z.ltb_lt in E. unfold js_incr.
      replace (i <? 2 ^ 53)%Z with true by (symmetry; apply Z.ltb_lt; lia).
      rewrite IH by lia. rewrite <- app_assoc.
      replace (Z.to_nat (n - i)) with (S (Z.to_nat (n - (i + 1)))) by lia. reflexivity.
    + apply Z.ltb_ge in E. replace (Z.to_nat (n - i)) with O by lia. now rewrite app_nil_r.
Qed.

(** A loop up to +Infinity never ends. *)
Lemma push_loop_PosInf (fuel : nat) (i : Z) (s : Star) (acc : list Star) :
  push_loop fuel i PosInf s acc = None.
Proof. revert i acc; induction fuel as [|f IH]; intros i acc; [reflexivity|]. apply IH. Qed.

(** A loop whose bound stays above every counter value up to 2^53 never
    ends: the counter stops at 2^53. *)
Lemma push_loop_stuck (fuel : nat) (i : Z) (b : num) (s : Star) (acc : list Star) :
  (forall j, (j <= 2 ^ 53)%Z -> num_lt (of_Z j) b = true) -> (i <= 2 ^ 53)%Z ->
  push_loop fuel i b s acc = None.
Proof.
  intros Hb. revert i acc; induction fuel as [|f IH]; intros i acc Hi; cbn [push_loop];
    rewrite (Hb i Hi); [reflexivity|].
  apply IH. unfold js_incr. destruct (i <? 2 ^ 53)%Z eqn:E; [apply Z.ltb_lt in E|]; lia.
Qed.

(** An integer bound above 2^53 is above every counter value. *)
Lemma lt_big_bound (j n : Z) (q : Q) :
  q == inject_Z n -> (2 ^ 53 < n)%Z -> (j <= 2 ^ 53)%Z -> num_lt (of_Z j) (Fin q) = true.
Proof. intros Hq Hn Hj. rewrite (num_lt_int j n q Hq). apply Z.ltb_lt. lia. Qed.

(** A loop up to NaN or -Infinity does not run. *)
Lemma push_loop_none (fuel : nat) (i : Z) (b : num) (s : Star) (acc : list Star) :
  b = NaN \/ b = NegInf -> push_loop fuel i b s acc = Some acc.
Proof. intros [-> | ->]; destruct fuel; reflexivity. Qed.

(** The bound of the empty stars' loop is an integer when the rating is
    finite. *)
Lemma emptyStars_int (fl h : Z) :
  (inject_Z 5 + - inject_Z fl + - inject_Z h) == inject_Z (5 - fl - h).
Proof. unfold Qeq, Qplus, Qopp, inject_Z. cbn. lia. Qed.

(** Whether a finite rating gets a half star, as an integer. *)
Definition half_of (q : Q) : Z :=
  if Qle_bool (1 # 2) (q - inject_Z (Z.quot (Qnum q) (Zpos (Qden q)))) then 1 else 0.

(** A finite rating: [floor] full stars, the half star, and
    [5 - floor - half] empty ones, given enough fuel for both loops. *)
Lemma renderStars_fin (rating : string) (q : Q) (fuel : nat) :
  parseFloat rating = Fin q -> (Qfloor q <= 2 ^ 53)%Z -> (5 - Qfloor q - half_of q <= 2 ^ 53)%Z ->
  (Z.to_nat (Qfloor q) <= fuel)%nat -> (Z.to_nat (5 - Qfloor q - half_of q) <= fuel)%nat ->
  renderStars fuel rating =
  Some (repeat FullStar (Z.to_nat (Qfloor q)) ++
        (if (half_of q =? 1)%Z then [HalfStar] else []) ++
        repeat EmptyStar (Z.to_nat (5 - Qfloor q - half_of q))).
Proof.
  intros Hr Hb1 Hb2 H1 H2. unfold renderStars. rewrite Hr. cbn zeta. cbn [num_floor num_mod1].
  rewrite (push_loop_int fuel 0 (Qfloor q) _ FullStar [] (Qeq_refl _)) by (rewrite ?Z.sub_0_r; lia).
  rewrite Z.sub_0_r. cbn [app]. unfold half_of in *. cbn [num_le].
  destruct (Qle_bool _ _); cbn [sub add neg of_Z Z.eqb];
    (rewrite (push_loop_int fuel 0 (5 - Qfloor q - _) _ EmptyStar _ (emptyStars_int _ _))
      by (rewrite ?Z.sub_0_r; lia)); rewrite Z.sub_0_r; [now rewrite <- app_assoc|].
  reflexivity.
Qed.

Lemma renderStars_NaN (rating : string) (fuel : nat) :
  parseFloat rating = NaN -> renderStars fuel rating = Some [].
Proof.
  intros Hr. unfold renderStars. rewrite Hr. cbn zeta. cbn [num_floor num_mod1 num_le sub add].
  rewrite push_loop_none by auto. apply push_loop_none. auto.
Qed.

Lemma renderStars_inf (rating : string) (fuel : nat) :
  parseFloat rating = PosInf \/ parseFloat rating = NegInf -> renderStars fuel rating = None.
Proof.
  intros [Hr | Hr]; unfold renderStars; rewrite Hr; cbn zeta; cbn [num_floor num_mod1 num_le].
  - now rewrite push_loop_PosInf.
  - rewrite push_loop_none by auto. cbn [sub add neg of_Z]. apply push_loop_PosInf.
Qed.

(** A rating of at least 2^53 + 2, or of at most -2^53, never renders:
    the full stars' loop, or the empty stars' loop up to [5 - floor], has
    a bound the counter cannot pass. *)
Lemma renderStars_big (rating : string) (q : Q) (fuel : nat) :
  parseFloat rating = Fin q -> (inject_Z (2 ^ 53 + 2) <= q \/ q <= - inject_Z (2 ^ 53))%Q ->
  renderStars fuel rating = None.
Proof.
  intros Hr Hq. unfold renderStars. rewrite Hr. cbn zeta. cbn [num_floor num_mod1].
  assert (Hl := Qfloor_le q). assert (Hu := Qlt_floor q).
  destruct Hq as [Hq | Hq].
  - assert (Hf : (2 ^ 53 + 2 <= Qfloor q)%Z).
    { rewrite <- (Qfloor_Z (2 ^ 53 + 2)). now apply Qfloor_resp_le. }
    rewrite push_loop_stuck; [reflexivity | | lia].
    intros j Hj. apply (lt_big_bound j (Qfloor q)); [reflexivity | lia | exact Hj].
  - assert (Hf : (Qfloor q <= - 2 ^ 53)%Z).
    { rewrite Zle_Qle, inject_Z_opp. eapply Qle_trans; [exact Hl | exact Hq]. }
    rewrite (push_loop_int fuel 0 (Qfloor q) _ FullStar [] (Qeq_refl _)) by lia.
    cbn [num_le]. destruct (Qle_bool _ _); cbn [sub add neg of_Z];
      (apply push_loop_stuck; [| lia]); intros j Hj;
      (apply (lt_big_bound j _ _ (emptyStars_int _ _)); [lia | exact Hj]).
Qed.

(** A rating between 0 and 5 has a floor between 0 and 5, and no half star
    when it is 5. *)
Lemma rating_floor_range (q : Q) :
  (0 <= q <= 5)%Q -> (0 <= Qfloor q)%Z /\ (Qfloor q + half_of q <= 5)%Z /\ (0 <= half_of q <= 1)%Z.
Proof.
  intros [H0 H5].
  assert (Hl := Qfloor_le q). assert (Hu := Qlt_floor q).
  assert (Hf0 : (0 <= Qfloor q)%Z).
  { apply Z.lt_succ_r. rewrite Zlt_Qlt. unfold Z.succ. eapply Qle_lt_trans; [exact H0|exact Hu]. }
  assert (Hf5 : (Qfloor q <= 5)%Z) by (rewrite Zle_Qle; eapply Qle_trans; [exact Hl | exact H5]).
  assert (Hh : (0 <= half_of q <= 1)%Z) by (unfold half_of; destruct (Qle_bool _ _); lia).
  split; [exact Hf0 | split; [|exact Hh]].
  destruct (Z.eq_dec (Qfloor q) 5) as [E|E]; [|lia].
  assert (Hq : q == inject_Z 5) by (apply Qle_antisym; [exact H5 | rewrite <- E; exact Hl]).
  unfold half_of. replace (Qle_bool _ _) with false; [lia|]. symmetry.
  destruct q as [a d]. unfold Qeq in Hq. cbn in Hq. cbn [Qnum Qden].
  replace a with (5 * Zpos d)%Z by lia. rewrite Z.quot_mul by lia.
  apply not_true_iff_false. rewrite Qle_bool_iff. unfold Qle, Qminus, Qplus, Qopp, inject_Z. cbn. lia.
Qed.

Lemma grid_run_round (products : list Product) (g : Grid) (es : list GridEvent) :
  grid_run products false false g (LoadMoreClick :: LoadMoreTimeout :: es) =
  grid_run products false false (grid_run products false false g [LoadMoreClick; LoadMoreTimeout]) es.
Proof. reflexivity. Qed.

(** One round of "Load more" shows eight more products when there are
    more, and changes nothing otherwise. *)
Lemma grid_round (products : list Product) (g : Grid) :
  products <> [] -> isLoadingMore g = false ->
  grid_run products false false g [LoadMoreClick; LoadMoreTimeout] =
  if hasMoreProducts products g then mkGrid (visibleProducts g + 8) false else g.
Proof.
  intros Hne Hl. unfold grid_run. cbn [fold_left grid_step]. unfold gridView.
  destruct products as [|p ps]; [congruence|]. rewrite Hl. cbn [negb].
  rewrite andb_true_r. destruct (hasMoreProducts _ g); cbn [isLoadingMore visibleProducts].
  - reflexivity.
  - now rewrite Hl.
Qed.

Lemma grid_all_shown (products : list Product) (g : Grid) :
  products <> [] -> isLoadingMore g = false -> (length products <= visibleProducts g)%nat ->
  gridView products false false g = GCards products 0 false.
Proof.
  intros Hne Hl Hv. unfold gridView, displayedProducts, hasMoreProducts.
  destruct products as [|p ps]; [congruence|]. rewrite Hl, firstn_all2 by exact Hv.
  replace (visibleProducts g <? length (p :: ps))%nat with false by (symmetry; apply Nat.ltb_ge; exact Hv).
  reflexivity.
Qed.

(** Some product of a list has the rating "Infinity" (or any rating that
    parses to +Infinity): its card never finishes rendering. *)
Lemma infinite_rating_in (l : list Product) :
  existsb (fun p => match parseFloat (rating p) with PosInf => true | _ => false end) l = true ->
  exists p, In p l /\ forall fuel, renderStars fuel (rating p) = None.
Proof.
  intros E. apply existsb_exists in E as (p & Hin & Hp). exists p. split; [exact Hin|].
  intros fuel. apply renderStars_inf. left. now destruct (parseFloat (rating p)).
Qed.

#[export] Instance provider_drawer_laws : CartDrawerLaws CartState.
Proof. split; try reflexivity. intros s i q. cbn. now destruct (q <? 1)%Z. Qed.

Section DrawerLemmas.
Context {S : Type} `{CartDrawerLaws S}.

Lemma on_line_wf (s : Shell) (i : nat) (f : CartItem -> S -> S) :
  cart_wf (ctx_cart (sh_ctx s)) ->
  (forall it, In it (items (ctx_cart (sh_ctx s))) -> cart_wf (ctx_cart (f it (sh_ctx s)))) ->
  cart_wf (ctx_cart (sh_ctx (on_line s i f))).
Proof.
  intros Hwf Hf. unfold on_line. destruct (isCartOpen s); [|exact Hwf].
  destruct (nth_error _ i) as [it|] eqn:E; [|exact Hwf].
  apply Hf. eapply nth_error_In. exact E.
Qed.

(** Setting a quantity through the context keeps the cart well formed:
    the context's guard refuses a quantity below 1. *)
Lemma updateQuantity_ctx_wf (c : S) (i q : Z) :
  cart_wf (ctx_cart c) -> cart_wf (ctx_cart (ctx_updateQuantity i q c)).
Proof.
  intros Hwf. rewrite ctx_updateQuantity_cart. destruct (q <? 1)%Z eqn:E; [exact Hwf|].
  apply setQuantity_wf; [exact Hwf|]. apply Z.ltb_ge in E. exact E.
Qed.

Lemma drawer_step_wf (s : Shell) (e : DrawerEvent) :
  cart_wf (ctx_cart (sh_ctx s)) -> cart_wf (ctx_cart (sh_ctx (drawer_step s e))).
Proof.
  intros Hwf. destruct e as [| i | i | i | | |]; cbn [drawer_step]; try exact Hwf;
    try (apply on_line_wf; [exact Hwf | intros it _]).
  - destruct (quantity it <=? 1)%Z; [exact Hwf | now apply updateQuantity_ctx_wf].
  - now apply updateQuantity_ctx_wf.
  - rewrite ctx_removeFromCart_cart. now apply removeFromCart_wf.
  - destruct (isCartOpen s && _); exact Hwf.
  - destruct (isCartOpen s && _); [|exact Hwf]. cbn [sh_ctx with_ctx].
    rewrite ctx_clearCart_cart. apply defaultCart_wf.
Qed.

End DrawerLemmas.

Lemma pow10_ge_100 (k : nat) : (100 <= 10 ^ (Z.of_nat (S (S (S k))) - 1))%Z.
Proof.
  replace (Z.of_nat (S (S (S k))) - 1)%Z with (2 + Z.of_nat k)%Z by lia.
  rewrite Z.pow_add_r by lia. assert (0 < 10 ^ Z.of_nat k)%Z by (apply Z.pow_pos_nonneg; lia). lia.
Qed.

Lemma numberToString_int_ne (n : Z) (t : string) :
  (0 <= n < 10 ^ 21)%Z -> parseInt t <> Some n -> numberToString (of_Z n) <> t.
Proof. intros Hn Ht E. apply Ht. rewrite <- E. now apply JsText.parseInt_numberToString. Qed.

(** The modal's price inputs read back the price they were opened with. *)
Lemma mobile_price_roundtrip (o : option num) :
  price_int o ->
  (if String.eqb (optToString o "") "" then None else Some (parseFloat (optToString o ""))) = o.
Proof.
  destruct o as [x|]; [intros (n & Hn & ->) | reflexivity]. cbn [optToString].
  replace (String.eqb _ "") with false.
  - now rewrite JsText.parseFloat_numberToString.
  - symmetry. apply String.eqb_neq. apply numberToString_int_ne; [exact Hn | discriminate].
Qed.

(** The modal's rating reads back the rating it was opened with. *)
Lemma mobile_rating_roundtrip (o : option num) :
  rating_int o ->
  (if String.eqb (optToString o "0") "0" then None
   else Some (match parseInt (optToString o "0") with Some z => of_Z z | None => NaN end)) = o.
Proof.
  destruct o as [x|]; [intros (n & Hn & ->) | reflexivity]. cbn [optToString].
  replace (String.eqb _ "0") with false.
  - now rewrite JsText.parseInt_numberToString by lia.
  - symmetry. apply String.eqb_neq. apply numberToString_int_ne; [lia|].
    vm_compute. intros E. injection E as E. lia.
Qed.

(** ** Properties *)


(** A rating between 0 and 5 shows exactly five stars, the first
    [floor(rating)] of them full, with five iterations of fuel. *)
Lemma stars_five (rating : string) (q : Q) :
  parseFloat rating = Fin q -> (0 <= q <= 5)%Q ->
  exists l, renderStars 5 rating = Some l /\ length l = 5%nat /\
            firstn (Z.to_nat (Qfloor q)) l = repeat FullStar (Z.to_nat (Qfloor q)).
Proof.
  intros Hr Hq. destruct (rating_floor_range q Hq) as (H0 & H5 & Hh).
  eexists. split; [apply renderStars_fin; [exact Hr | lia | lia | lia | lia]|]. split.
  - rewrite !length_app, !repeat_length.
    destruct (half_of q =? 1)%Z eqn:E; cbn [length];
      [apply Z.eqb_eq in E | apply Z.eqb_neq in E]; lia.
  - rewrite firstn_app, repeat_length, Nat.sub_diag, firstn_O, app_nil_r.
    apply firstn_all2. now rewrite repeat_length.
Qed.

(** C36. "Load more" ends: from a grid that is not loading, [k] rounds of a
    click and its timeout show every product and hide the button as soon
    as [8 k] more products fit. *)
Theorem load_more_shows_all (products : list Product) (g : Grid) (k : nat) :
  products <> [] -> isLoadingMore g = false ->
  (length products <= visibleProducts g + 8 * k)%nat ->
  gridView products false false (grid_run products false false g (load_more_rounds k)) =
  GCards products 0 false.
Proof.
  revert g; induction k as [|k IH]; intros g Hne Hl Hk.
  - cbn [load_more_rounds grid_run fold_left]. apply grid_all_shown; [exact Hne | exact Hl | lia].
  - cbn [load_more_rounds]. rewrite grid_run_round, grid_round by assumption.
    destruct (hasMoreProducts products g) eqn:Hm; apply IH; cbn [isLoadingMore visibleProducts]; auto.
    + lia.
    + unfold hasMoreProducts in Hm. apply Nat.ltb_ge in Hm. lia.
Qed.

(** C9. Anyone can freeze the storefront: POST /api/products needs no
    session and accepts any rating string, so an anonymous request stores
    a product rated "Infinity"; it is among the first cards of the "home"
    category, and its card's star loop never ends. *)
Theorem infinite_rating_freezes_home (lc : string -> string -> Z) :
  exists r st1,
    Routes.route (Routes.mkRequest Routes.POST ["api"; "products"] None infinity_product_body 0)
      Routes.store0 = Some (r, st1) /\ code r = 201%Z /\
    exists p, In p (displayedProducts
                      (homeView lc (home_step initialHome (CategoryChange "home")) st1) initialGrid) /\
              forall fuel, renderStars fuel (rating p) = None.
Proof.
  remember (Routes.route _ Routes.store0) as o eqn:E. vm_compute in E. subst o.
  do 2 eexists. split; [reflexivity | split; [reflexivity|]].
  apply infinite_rating_in. vm_compute. reflexivity.
Qed.

Section DrawerProps.
Context {S : Type} `{CartDrawerLaws S}.

(** C25. The drawer keeps the cart well formed: whatever its buttons do,
    the total is the one [calculateTotal] gives, every quantity stays at
    least 1 (the minus button is disabled at 1, and the context refuses a
    quantity below 1), products and line ids stay distinct. *)
Theorem drawer_keeps_cart_wf (s : Shell) (es : list DrawerEvent) :
  cart_wf (ctx_cart (sh_ctx s)) -> cart_wf (ctx_cart (sh_ctx (drawer_run s es))).
Proof.
  revert s; induction es as [|e es IH]; intros s Hwf; [exact Hwf|].
  apply IH. now apply drawer_step_wf.
Qed.

End DrawerProps.

(** The cart icon's badge: it is absent exactly for a count of 0 or
    less; it has one to three characters; and below 100 it is the count
    in decimal, read back by [parseInt]. *)
Lemma cartBadge_bounds (n : Z) :
  match cartBadge n with
  | None => (n <= 0)%Z
  | Some b => (0 < n)%Z /\ (1 <= String.length b <= 3)%nat /\ ((n <= 99)%Z -> parseInt b = Some n)
  end.
Proof.
  unfold cartBadge. destruct (0 <? n)%Z eqn:E0; [apply Z.ltb_lt in E0 | now apply Z.ltb_ge in E0].
  destruct (99 <? n)%Z eqn:E9; [apply Z.ltb_lt in E9 | apply Z.ltb_ge in E9].
  - repeat split; [exact E0 | cbn; lia | cbn; lia | lia].
  - split; [exact E0|]. split; [|intros _; apply JsText.parseInt_numberToString; lia].
    pose proof (JsText.numberToString_length n ltac:(lia)) as [Hl Hu].
    destruct (String.length (numberToString (of_Z n))) as [|[|[|k]]]; cbn in Hu |- *; try lia.
    pose proof (pow10_ge_100 k). lia.
Qed.

(** The drawer's buttons on a cart with the smartwatch. *)
Lemma drawer_keeps_cart_wf_witness :
  cart_wf (ctx_cart (sh_ctx (drawer_run
    (mkShell (mkCartState (addToCart 5 smartwatch 1 defaultCart) None) true "/")
    [Plus 0; Minus 0; Minus 0; Trash 0; ClearClick]))).
Proof.
  apply drawer_keeps_cart_wf. cbn [sh_ctx ctx_cart provider_context cart].
  apply addToCart_wf; [apply defaultCart_wf | lia | cbn; tauto].
Defined.

(** C28. Opening the mobile filters and applying them without a change
    keeps Home's filters: the modal starts from [String] of each filter
    and [handleApply] reads them back with [parseFloat] and [parseInt],
    for whole-number prices and ratings. *)
Theorem mobile_apply_roundtrip (p : HomePage) :
  hp_mobile p = None ->
  price_int (minPrice (hp_home p)) -> price_int (maxPrice (hp_home p)) ->
  rating_int (minRating (hp_home p)) ->
  hp_home (homePage_run p [HeaderEv HToggleFilters; MobileEv MApply]) = hp_home p.
Proof.
  intros Ho Hmin Hmax Hr. unfold homePage_run.
  cbn [fold_left homePage_step header_step header_out hp_searchOpen hp_home hp_sidebar hp_mobile].
  unfold toggleMobileFilters. cbn [hp_mobile]. rewrite Ho.
  cbn [hp_mobile hp_home mobile_step fold_left map app mobile_out with_home].
  unfold mobileApply, mobileInit, handleApplyPriceFilter.
  destruct (hp_home p) as [q c mn mx r so]. cbn [minPrice maxPrice minRating] in *.
  cbn [home_step localCategory localMinPrice localMaxPrice localRating hp_home
       searchQuery selectedCategory minPrice maxPrice minRating sortOption].
  now rewrite mobile_price_roundtrip, mobile_price_roundtrip, mobile_rating_roundtrip.
Qed.

(** C37. The sidebar's price inputs survive a reset: after a minimum is
    typed and applied, "Reset Filters" drops the bound but the input still
    shows it, and the next "Apply Filter" brings it back. *)
Theorem sidebar_inputs_survive_reset (p : HomePage) (v : string) :
  v <> "" ->
  minPrice (hp_home (homePage_run p [SidebarEv (SbMinInput v); SidebarEv SbApply; GridReset]))
  = None /\
  minPriceInput (hp_sidebar (homePage_run p [SidebarEv (SbMinInput v); SidebarEv SbApply; GridReset]))
  = v /\
  minPrice (hp_home (homePage_run p [SidebarEv (SbMinInput v); SidebarEv SbApply; GridReset;
                                     SidebarEv SbApply]))
  = Some (parseFloat v).
Proof.
  intros Hv. unfold homePage_run. cbn [fold_left homePage_step sidebar_step with_home home_step
    hp_home hp_sidebar minPriceInput maxPriceInput minPrice handleApplyPriceFilter].
  replace (String.eqb v "") with false by (symmetry; now apply String.eqb_neq).
  repeat split.
Qed.

(** Opening the modal on a minimum of 100, a maximum of 500 and four
    stars, and applying. *)
Lemma mobile_apply_roundtrip_witness :
  hp_home (homePage_run (mkHomePage (mkHome "" "home" (Some (of_Z 100)) (Some (of_Z 500))
                                       (Some (of_Z 4)) "featured") false (mkSidebar "" "") None)
             [HeaderEv HToggleFilters; MobileEv MApply]) =
  mkHome "" "home" (Some (of_Z 100)) (Some (of_Z 500)) (Some (of_Z 4)) "featured".
Proof.
  apply mobile_apply_roundtrip; [reflexivity | | |]; cbn;
    [exists 100%Z | exists 500%Z | exists 4%Z]; split; lia || reflexivity.
Defined.

(** A minimum of 100 comes back after a reset. *)
Lemma sidebar_inputs_survive_reset_witness :
  minPrice (hp_home (homePage_run initialHomePage
                       [SidebarEv (SbMinInput "100"); SidebarEv SbApply; GridReset; SidebarEv SbApply]))
  = Some (parseFloat "100").
Proof. apply (sidebar_inputs_survive_reset initialHomePage "100"). discriminate. Defined.


Lemma stars_five_witness :
  exists l, renderStars 5 "4.5" = Some l /\ length l = 5%nat /\
            firstn (Z.to_nat (Qfloor (45 # 10))) l = repeat FullStar (Z.to_nat (Qfloor (45 # 10))).
Proof.
  apply (stars_five "4.5" (45 # 10)); [vm_compute; reflexivity|].
  split; apply Qle_bool_iff; reflexivity.
Defined.

(** The seeded catalogue is all shown after one round of "Load more". *)
Lemma load_more_shows_all_witness :
  gridView (st_getProducts Routes.store0) false false
    (grid_run (st_getProducts Routes.store0) false false initialGrid (load_more_rounds 1)) =
  GCards (st_getProducts Routes.store0) 0 false.
Proof.
  apply load_more_shows_all; [vm_compute; discriminate | reflexivity | vm_compute; lia].
Defined.

End Storefront.
