(* ===== verification/System.v ===== *)
(** The order path through the whole program: the checkout page
    (src/client/src/pages/Checkout.tsx) sends its payload with
    [apiRequest("POST", "/api/orders", orderData)] (93), the server's route
    (src/server/routes.ts 91-118) stores it, the page's mutation callbacks
    run on the answer, and the admin dashboard
    (src/client/src/pages/AdminDashboard.tsx) loads the order list.

    [payloadJson] is the JSON the request carries: [JSON.stringify] of the
    payload, read back by the server's JSON body parser (an undefined
    [supplierId] is left out).  [apiRequest] lives outside src/; as [fetch]
    does, it resolves on a 2xx status ([res.ok]) and rejects otherwise,
    with the status in the message.  The page's cart is reached through
    [CartContextType] and the server's store through [IStorage]. *)

From Stdlib Require Import ZArith QArith String List Bool Lia.
From S2P Require Import Prelude JsNum Schema Cart Checkout Storage Http Routes Admin.
Import ListNotations.

Module Shop.
Import JsNum Schema CartContext Checkout Storage Http.
#[local] Open Scope string_scope.

(** One element of [orderItemsPayload] as JSON (199-207). *)
Definition itemJson (it : OrderItemPayload) : json :=
  JObj ([("productId", json_of_Z (pl_productId it)); ("productName", JStr (pl_productName it));
         ("quantity", json_of_Z (pl_quantity it)); ("price", JStr (pl_price it))] ++
        match pl_supplierId it with
        | Some sid => [("supplierId", json_of_Z sid)]
        | None => []
        end)%list.

(** [orderPayload] as JSON (209-218). *)
Definition payloadJson (pl : OrderPayload) : json :=
  JObj [("userId", json_of_Z (pl_userId pl)); ("totalAmount", JStr (pl_totalAmount pl));
        ("customerName", JStr (pl_customerName pl)); ("customerEmail", JStr (pl_customerEmail pl));
        ("shippingAddress", JStr (pl_shippingAddress pl));
        ("paymentMethod", JStr (pl_paymentMethod pl));
        ("items", JArr (map itemJson (pl_items pl)))].

Section Order.
Context {S : Type} `{CartContextType S} {St : Type} `{IStorage St}.

(** The order request in flight goes to the server at time [now] with
    the session [session]; [onSuccess] or [onError] runs on the answer. *)
Definition settleOrder (now : Z) (session : option User) (p : @Page S) (st : St) : Page * St :=
  match inflight p with
  | Some pl =>
      match Routes.route (Routes.mkRequest Routes.POST ["api"; "orders"] session (payloadJson pl) now) st with
      | Some (r, st') =>
          if (200 <=? code r)%Z && (code r <? 300)%Z then (page_step p RequestSucceeded, st')
          else (page_step p (RequestFailed (numberToString (of_Z (code r)))), st')
      | None => (page_step p (RequestFailed "404"), st)
      end
  | None => (p, st)
  end.

End Order.

(** ** Lemmas *)

Lemma itemJson_parse (oid : Z) (it : OrderItemPayload) (sid : Z) :
  pl_supplierId it = Some sid ->
  parseInsertOrderItem (jset "orderId" (json_of_Z oid) (fields_of (itemJson it))) =
  inr (mkInsertOrderItem oid (pl_productId it) (pl_productName it) (pl_quantity it) (pl_price it)
         (Some sid)).
Proof.
  destruct it as [pid name q pr [s|]]; cbn [pl_supplierId]; intros E; [|discriminate].
  injection E as <-. unfold parseInsertOrderItem, itemJson, json_of_Z.
  cbn -[int_of_num of_Z]. now rewrite !int_of_num_of_Z.
Qed.

Lemma items_valid (l : list OrderItemPayload) :
  Forall (fun it => pl_supplierId it <> None) l -> forallb Routes.item_valid (map itemJson l) = true.
Proof.
  intros Hl. apply forallb_forall. intros j Hj. apply in_map_iff in Hj as (it & <- & Hit).
  rewrite Forall_forall in Hl. specialize (Hl it Hit).
  destruct (pl_supplierId it) as [sid|] eqn:E; [|contradiction].
  unfold Routes.item_valid. now rewrite (itemJson_parse 0 it sid E).
Qed.

Lemma payloadJson_parse (uid : Z) (pl : OrderPayload) :
  parseInsertOrder (jset "userId" (json_of_Z uid) (fields_of (payloadJson pl))) =
  inr (mkInsertOrder uid (pl_totalAmount pl) (pl_customerName pl) (pl_customerEmail pl)
         (pl_shippingAddress pl) (pl_paymentMethod pl) None).
Proof.
  unfold parseInsertOrder, payloadJson, json_of_Z. cbn -[int_of_num of_Z].
  now rewrite int_of_num_of_Z.
Qed.

Lemma body_items_payload (pl : OrderPayload) :
  Routes.body_items (payloadJson pl) = map itemJson (pl_items pl).
Proof. reflexivity. Qed.

(** A submitted payload names a supplier on every line, one item per
    line of the cart. *)
Lemma handleSubmit_items (loading : bool) (user : option User) (c : Cart)
    (fd : CheckoutFormData) (file : option FileInfo) (pl : OrderPayload) :
  handleSubmit loading user c fd file = Submitted pl ->
  Forall (fun it => pl_supplierId it <> None) (pl_items pl) /\
  length (pl_items pl) = length (items c).
Proof.
  unfold handleSubmit. destruct loading; [discriminate|]. destruct user as [u|]; [|discriminate].
  destruct (some _ _) eqn:Es; [discriminate|]. destruct (_ && _); [discriminate|].
  intros E. injection E as <-. rewrite some_false_iff in Es. cbn [pl_items buildPayload].
  split; [|apply length_map].
  apply Forall_forall. intros ip Hip. apply in_map_iff in Hip as (it & <- & Hit).
  specialize (Es it Hit). cbn. destruct (selectedSupplierId it); [discriminate | discriminate].
Qed.

(** ** The order path *)

Section EndToEnd.
Context {S : Type} `{CartContextLaws S} {St : Type} `{Hlaws : IStorageLaws St}.

(** C5. An order goes through: when a signed-in buyer's click on "Place
    Order" sends a request and the server holds the buyer's session, the
    server answers 201 and stores one new order of the buyer, "pending",
    whose [totalAmount] is what the page showed as its total, with one
    item per line of the cart; the page then clears the cart, invalidates
    the admin list and goes home; and the admin dashboard's next load of
    the list shows the order. *)
Theorem order_placed_end_to_end (p : @Page S) (st : St) (u : User) (now : Z) (pl : OrderPayload) :
  st_ok st -> user p = Some u -> inflight p = None ->
  inflight (page_step p SubmitClick) = Some pl ->
  let p2 := fst (settleOrder now (Some u) (page_step p SubmitClick) st) in
  let st2 := snd (settleOrder now (Some u) (page_step p SubmitClick) st) in
  items (ctx_cart (ctx p2)) = [] /\ location p2 = "/" /\ adminOrdersInvalidated p2 = true /\
  exists o v,
    st_getOrderById (o_id o) st2 = Some o /\ st_getOrderById (o_id o) st = None /\
    userId o = u_id u /\ status o = "pending" /\
    checkoutView p = FormView v /\ cv_total v = ("$" ++ totalAmount o)%string /\
    length (st_getOrderItems (o_id o) st2) = length (items (ctx_cart (ctx p))) /\
    forall d, AdminDashboard.isAdminUser (AdminDashboard.d_user d) = true ->
      In o (AdminDashboard.filteredOrders
              (AdminDashboard.d_orders (fst (AdminDashboard.sys_step AdminDashboard.LoadOrders (d, st2)))) "").
Proof.
  intros Hok Hu Hn Hs p2 st2.
  destruct (submit_sends p pl Hn Hs) as (Hf & Esub & Ep1).
  destruct (handleSubmit_items _ _ _ _ _ _ Esub) as (Hsup & Hlen).
  destruct (handleSubmit_submitted _ _ _ _ _ _ Esub) as [u' Hpl].
  assert (Hparse := payloadJson_parse (u_id u) pl).
  assert (Hvalid : forallb Routes.item_valid (Routes.body_items (payloadJson pl)) = true)
    by (rewrite body_items_payload; now apply items_valid).
  destruct (Routes.postOrdersRoute now (Some u) (payloadJson pl) st) as [resp st'] eqn:Er.
  destruct (Routes.postOrders_effect now u (payloadJson pl) st _ resp st' Hok Hparse Er)
    as (o & Ho & Hok' & Hfresh & Hget & _ & Hitems & [[_ Hresp] | [Hf' _]]);
    [|rewrite Hvalid in Hf'; discriminate].
  assert (Hsettle : settleOrder now (Some u) (page_step p SubmitClick) st =
                    (page_step (page_step p SubmitClick) RequestSucceeded, st')).
  { unfold settleOrder. rewrite Hs. cbn [Routes.route Routes.method Routes.path Routes.reqTime
      Routes.reqUser Routes.reqBody]. rewrite Er, Hresp. reflexivity. }
  subst p2 st2. rewrite Hsettle. cbn [fst snd]. rewrite Ep1. cbn [page_step inflight].
  cbn [ctx location adminOrdersInvalidated]. split; [apply ctx_clearCart_items|].
  split; [reflexivity|]. split; [reflexivity|].
  exists o. unfold checkoutView. rewrite Hf. eexists. split; [exact Hget|].
  split; [exact Hfresh|].
  split; [rewrite Ho; reflexivity|]. split; [rewrite Ho; reflexivity|]. split; [reflexivity|].
  split; [rewrite Ho; subst pl; reflexivity|].
  split.
  - rewrite Hitems, Routes.valid_prefix_all by exact Hvalid. rewrite body_items_payload, length_map.
    exact Hlen.
  - intros d Ha. cbn [AdminDashboard.sys_step]. rewrite Ha.
    rewrite AdminDashboard.request_orders by exact Ha. cbn [fst AdminDashboard.d_orders
      AdminDashboard.with_orders].
    rewrite (proj1 (AdminDashboard.search_finds_by_id _)).
    eapply getOrderById_listed. exact Hget.
Qed.

End EndToEnd.

(** The example buyer chooses Fast Express for the smartwatch and places
    the order on the store the server starts with. *)
Lemma order_placed_end_to_end_witness :
  exists pl,
    inflight (page_step (page_step example_page (SupplierChange 5 1)) SubmitClick) = Some pl /\
    items (ctx_cart (ctx (fst (settleOrder 7 (Some example_user)
             (page_step (page_step example_page (SupplierChange 5 1)) SubmitClick) Routes.store0))))
    = [].
Proof.
  destruct (inflight (page_step (page_step example_page (SupplierChange 5 1)) SubmitClick))
    as [pl|] eqn:E; [|vm_compute in E; discriminate].
  exists pl. split; [reflexivity|].
  refine (proj1 (order_placed_end_to_end (page_step example_page (SupplierChange 5 1))
                   Routes.store0 example_user 7 pl _ _ _ E)).
  - exact Routes.store0_ok.
  - reflexivity.
  - vm_compute. reflexivity.
Defined.

End Shop.
