(* ===== verification/Views.v ===== *)
(** What the storefront draws from its state: the product card of
    src/client/src/components/ProductCard.tsx (its markup, 72-119), the
    lines and subtotal of CartDrawer.tsx with its [formatPrice] (24-27,
    36-110), and the supplier rating stars of the checkout page
    (src/client/src/pages/Checkout.tsx, [SupplierRating], 238-254).

    A view is a record of the texts and flags the markup shows; the
    theorems relate what one view shows to what another shows after the
    events that connect them (the card's button and the drawer's lines),
    compare the drawer with the checkout page's order summary, and bound
    what the rating stars can light. *)

From Stdlib Require Import ZArith QArith Qround String Ascii List Bool Lia.
From S2P Require Import Prelude JsNum JsText Schema Cart Checkout Storefront.
Import ListNotations.

Module StoreViews.
Import JsNum JsText Schema CartContext Storefront.
#[local] Open Scope string_scope.
#[local] Open Scope list_scope.

(** ** ProductCard *)

(** [String.prototype.toUpperCase] on one character, for the ASCII
    letters the categories are written in. *)
Definition toUpperAscii (c : ascii) : ascii :=
  let n := nat_of_ascii c in
  if (97 <=? n)%nat && (n <=? 122)%nat then ascii_of_nat (n - 32) else c.

(** [category.charAt(0).toUpperCase() + category.slice(1)] (89) *)
Definition capitalize (s : string) : string :=
  match s with
  | EmptyString => EmptyString
  | String c r => String (toUpperAscii c) r
  end.

(** A string field in a JSX [&&]: rendered when it is a non-empty string. *)
Definition str_truthy (o : option string) : option string :=
  match o with
  | Some s => if String.eqb s "" then None else Some s
  | None => None
  end.

Record CardView : Type := mkCardView {
  card_image : string;                     (* img src (76) *)
  card_alt : string;                       (* img alt (77) *)
  card_badge : option (string * string);   (* the badge's text and class (80-84) *)
  card_category : string;                  (* 89 *)
  card_stars : option (list Star);         (* renderStars() (92) *)
  card_rating : string;                    (* 93 *)
  card_name : string;                      (* 96 *)
  card_description : string;               (* 97 *)
  card_price : string;                     (* ${price} (101) *)
  card_perHour : bool;                     (* /hr (102) *)
  card_strike : option string;             (* ${discountPrice}, struck out (104-106) *)
  card_button : string                     (* 113 *)
}.

(** The card of [product] (72-119); [fuel] bounds the loops of
    [renderStars]. *)
Definition cardView (fuel : nat) (p : Product) : CardView :=
  mkCardView (p_image p) (p_name p)
    (option_map (fun b => (b, getBadgeColorClass (badge p))) (str_truthy (badge p)))
    (capitalize (category p)) (renderStars fuel (rating p)) (rating p) (p_name p)
    (description p) ("$" ++ p_price p)%string
    (match p_isService p with Some true => true | _ => false end)
    (option_map (fun d => "$" ++ d)%string (str_truthy (discountPrice p)))
    (addButtonLabel p).

(** ** CartDrawer *)

(** [formatPrice] (24-27) *)
Definition formatPrice (price : PriceVal) : string :=
  toFixed 2 (match price with PStr s => parseFloat s | PNum n => n end).

Record DrawerLine : Type := mkDrawerLine {
  dl_image : string;
  dl_name : string;
  dl_price : string;
  dl_quantity : Z;
  dl_minusDisabled : bool
}.

(** One [li] of the list (50-97). *)
Definition drawerLine (it : CartItem) : DrawerLine :=
  mkDrawerLine (ci_image it) (ci_name it) ("$" ++ formatPrice (ci_price it))%string (quantity it)
    (quantity it <=? 1)%Z.

Record DrawerView : Type := mkDrawerView {
  dv_description : string;
  dv_lines : list DrawerLine;
  dv_subtotal : option string
}.

(** The sheet's content (36-110): the lines and the subtotal when the
    cart has items. *)
Definition drawerView (c : Cart) : DrawerView :=
  mkDrawerView (drawerDescription (length (items c))) (map drawerLine (items c))
    (match items c with [] => None | _ => Some ("$" ++ formatPrice (PNum (total c)))%string end).

(** ** SupplierRating *)

(** [SupplierRating] (238-254): five stars, the [i]-th yellow when
    [i < Math.floor(rating)], and the rating with one decimal. *)
Definition supplierRating (rating : num) : list bool * string :=
  (map (fun i => num_lt (of_Z (Z.of_nat i)) (num_floor rating)) (seq 0 5), toFixed 1 rating).

(** ** Lemmas *)

(** After [addToCart], the cart has a line for the product, and it carries
    the product's price when the lines for it already did. *)
Lemma addToCart_line_price (now : Z) (p : Product) (q : Z) (c : Cart) :
  (forall it, In it (items c) -> sameProduct p it = true -> ci_price it = PStr (p_price p)) ->
  exists it, In it (items (addToCart now p q c)) /\ sameProduct p it = true /\
             ci_price it = PStr (p_price p).
Proof.
  intros Hc. destruct (findIndex_cases (sameProduct p) (items c))
    as [[_ Hnone] | (n & x & Hidx & Hx & Hpx & _)].
  - rewrite (addToCart_items_new _ _ _ _ Hnone). exists (newItem now p q).
    split; [apply in_or_app; right; now left|]. unfold sameProduct. cbn. split; [lia | reflexivity].
  - rewrite (addToCart_items_found _ _ _ _ _ Hidx).
    exists (with_quantity x (Schema.quantity x + q)). split.
    + eapply nth_error_In.
      exact (nth_error_update_nth_eq (fun it => with_quantity it (Schema.quantity it + q)) n _ x Hx).
    + split; [exact Hpx|]. apply (Hc x); [eapply nth_error_In; exact Hx | exact Hpx].
Qed.

(** The drawer writes a canonical price as it is stored. *)
Lemma formatPrice_money (d c : Z) :
  (0 <= d < 10 ^ 19)%Z -> (0 <= c < 100)%Z -> formatPrice (PStr (money d c)) = money d c.
Proof.
  intros Hd Hc. unfold formatPrice. rewrite parseFloat_money by lia. now apply toFixed2_money.
Qed.

(** [i < Math.floor(r)] for the five star positions, against an integer
    floor [f]. *)
Lemma stars_lit (f : Z) :
  map (fun i => (Z.of_nat i <? f)%Z) (seq 0 5) =
  repeat true (Z.to_nat (Z.max 0 (Z.min 5 f))) ++ repeat false (5 - Z.to_nat (Z.max 0 (Z.min 5 f))).
Proof.
  assert (Hf : (f <= 0 \/ f = 1 \/ f = 2 \/ f = 3 \/ f = 4 \/ 5 <= f)%Z) by lia.
  destruct Hf as [Hf|[->|[->|[->|[->|Hf]]]]]; try reflexivity;
    cbn [seq map Z.of_nat];
    repeat match goal with |- context [(?a <? f)%Z] =>
      destruct (Z.ltb_spec a f); [try (exfalso; lia) | try (exfalso; lia)] end.
  - now replace (Z.to_nat (Z.max 0 (Z.min 5 f))) with O by lia.
  - now replace (Z.to_nat (Z.max 0 (Z.min 5 f))) with 5%nat by lia.
Qed.

(** ** The card's price in the drawer *)

Section CardDrawer.
Context {S : Type} `{CartDrawerLaws S}.

(** C26. The card's price is the drawer's price: a click on a product
    card's button puts in the cart a line for the product, and the drawer
    shows that line's price as the card shows the product's price, for a
    price written as dollars and two digits of cents (as the seed data
    writes them) below 10^13 dollars, and a cart whose lines for the
    product carry its price.  The bound keeps the statement true of
    binary64: below 2^46 (about 7 * 10^13) half an ulp is less than half a
    cent, so [toFixed(2)] of the double nearest the price gives its digits
    back; above 10^16 it does not ("12345678901234567.89" prints as
    "12345678901234568.00"). *)
Theorem card_price_shown_in_drawer (fuel : nat) (now : Z) (p : Product) (s : Shell) (d c : Z) :
  p_price p = money d c -> (0 <= d < 10 ^ 13)%Z -> (0 <= c < 100)%Z ->
  (forall it, In it (items (ctx_cart (sh_ctx s))) -> productId it = p_id p ->
              ci_price it = PStr (p_price p)) ->
  exists l, In l (dv_lines (drawerView (ctx_cart (sh_ctx (handleAddToCart now p s))))) /\
            dl_price l = card_price (cardView fuel p).
Proof.
  intros Hp Hd Hc Hs. unfold handleAddToCart. cbn [sh_ctx with_ctx]. rewrite ctx_addToCart_cart.
  destruct (addToCart_line_price now p 1 (ctx_cart (sh_ctx s))) as (it & Hin & _ & Hpr).
  { intros it Hit Hsame. apply Hs; [exact Hit|]. unfold sameProduct in Hsame. lia. }
  exists (drawerLine it). split; [apply in_map; exact Hin|].
  cbn [drawerLine dl_price cardView card_price]. rewrite Hpr, Hp. f_equal.
  apply formatPrice_money; lia.
Qed.

End CardDrawer.

(** The example buyer's first click on the headphones' card. *)
Lemma card_price_shown_in_drawer_witness :
  exists l, In l (dv_lines (drawerView (ctx_cart (sh_ctx
              (handleAddToCart 7 headphones (mkShell (mkCartState defaultCart None) false "/")))))) /\
            dl_price l = card_price (cardView 10 headphones).
Proof.
  refine (card_price_shown_in_drawer 10 7 headphones (mkShell (mkCartState defaultCart None) false "/") 449 99
            _ _ _ _).
  - reflexivity.
  - lia.
  - lia.
  - intros it Hit. cbn in Hit. contradiction.
Defined.

(** C33. The supplier rating lights the first [Math.floor(rating)] of its
    five stars, none for a negative rating or NaN and all five from 5
    up. *)
Theorem supplierRating_stars (q : Q) :
  fst (supplierRating (Fin q)) =
  repeat true (Z.to_nat (Z.max 0 (Z.min 5 (Qfloor q)))) ++
  repeat false (5 - Z.to_nat (Z.max 0 (Z.min 5 (Qfloor q)))) /\
  fst (supplierRating NaN) = repeat false 5.
Proof.
  split; [|reflexivity]. unfold supplierRating. cbn [fst num_floor]. rewrite <- stars_lit.
  apply map_ext. intros i. apply num_lt_int. reflexivity.
Qed.

(** ** The drawer and the checkout page *)

(** The drawer's [formatPrice] and the checkout page's are the same
    function. *)
Lemma formatPrice_checkout (price : PriceVal) : formatPrice price = Checkout.formatPrice price.
Proof. now destruct price. Qed.

Section DrawerCheckout.
Context {S : Type} `{CartContextType S}.

(** C27. The drawer and the checkout page agree: for a cart with items,
    the drawer's subtotal is the checkout page's subtotal, and the drawer
    lists the lines the order summary lists, in the same order, with the
    same name, quantity and price ("$" and two decimals; the summary adds
    " each"). *)
Theorem drawer_agrees_with_checkout (p : @Checkout.Page S) (v : Checkout.CheckoutView) :
  items (ctx_cart (Checkout.ctx p)) <> [] ->
  Checkout.checkoutView p = Checkout.FormView v ->
  dv_subtotal (drawerView (ctx_cart (Checkout.ctx p))) = Some (Checkout.cv_subtotal v) /\
  map (fun l => (dl_name l, dl_quantity l, (dl_price l ++ " each")%string))
      (dv_lines (drawerView (ctx_cart (Checkout.ctx p)))) =
  map (fun lv => (Checkout.lv_name lv, Checkout.lv_quantity lv, Checkout.lv_price lv))
      (Checkout.cv_lines v).
Proof.
  intros Hne Hv. unfold Checkout.checkoutView in Hv.
  destruct (Checkout.showsForm p); [|discriminate]. injection Hv as <-.
  cbn [drawerView dv_subtotal dv_lines Checkout.cv_subtotal Checkout.cv_lines].
  split.
  - unfold Checkout.calculateTotalWithShipping. destruct (fold_left _ _ _) as [ids sh].
    cbn [Checkout.subtotal]. destruct (items (ctx_cart (Checkout.ctx p))) as [|it its];
      [congruence|]. now rewrite formatPrice_checkout.
  - rewrite !map_map. apply map_ext. intros it. cbn.
    rewrite formatPrice_checkout, JsText.string_app_assoc. reflexivity.
Qed.

End DrawerCheckout.

(** The checkout page of the specification's example cart. *)
Lemma drawer_agrees_with_checkout_witness :
  exists v, Checkout.checkoutView Checkout.example_page = Checkout.FormView v /\
  dv_subtotal (drawerView (ctx_cart (Checkout.ctx Checkout.example_page))) =
  Some (Checkout.cv_subtotal v).
Proof.
  destruct (Checkout.checkoutView Checkout.example_page) as [|v] eqn:E;
    [vm_compute in E; discriminate|].
  exists v. split; [reflexivity|].
  refine (proj1 (drawer_agrees_with_checkout Checkout.example_page v _ E)).
  vm_compute. discriminate.
Defined.

End StoreViews.
