(* ===== verification/ScrollLock.v ===== *)
(** The scroll lock of the mobile filters
    (src/client/src/components/MobileFilters.tsx 41-47): the modal's
    mount effect sets [document.body.style.overflow] to "hidden", and its
    cleanup, run when Home unmounts the modal, sets it to "auto".

    The document is Home's page state ([Storefront.HomePage]) with the
    body's overflow style; each event of the page runs [homePage_step] and
    then the effects of the modal mounted or unmounted by it. *)

From Stdlib Require Import String List Bool.
From S2P Require Import Prelude Filter Storefront.
Import ListNotations.

Module ScrollLock.
Import Storefront.
#[local] Open Scope string_scope.

Record Doc : Type := mkDoc {
  doc_page : HomePage;
  bodyOverflow : string
}.

(** The modal's effect (41-47) runs when it mounts, its cleanup when it
    unmounts; a render that keeps it mounted runs neither (the effect's
    dependency list is empty). *)
Definition scrollEffect (before after : option MobileState) (overflow : string) : string :=
  match before, after with
  | None, Some _ => "hidden"
  | Some _, None => "auto"
  | _, _ => overflow
  end.

Definition doc_step (d : Doc) (e : HomePageEvent) : Doc :=
  let p' := homePage_step (doc_page d) e in
  mkDoc p' (scrollEffect (hp_mobile (doc_page d)) (hp_mobile p') (bodyOverflow d)).

Definition doc_run (d : Doc) (es : list HomePageEvent) : Doc := fold_left doc_step es d.

(** The document as the page loads: no inline overflow style. *)
Definition initialDoc : Doc := mkDoc initialHomePage "".

(** The body is locked exactly while the modal is open. *)
Definition locked_iff_open (d : Doc) : Prop :=
  bodyOverflow d = "hidden" <-> hp_mobile (doc_page d) <> None.

(** ** Lemmas *)

Lemma doc_step_locked (d : Doc) (e : HomePageEvent) :
  locked_iff_open d -> locked_iff_open (doc_step d e).
Proof.
  unfold locked_iff_open, doc_step. cbn [doc_page bodyOverflow].
  destruct (hp_mobile (doc_page d)) as [m|], (hp_mobile (homePage_step (doc_page d) e)) as [m'|];
    cbn [scrollEffect]; intros Hd; split; intros Hx; try congruence.
  - apply Hd. discriminate.
  - exfalso. apply Hd in Hx. congruence.
Qed.

(** ** The scroll lock *)

(** C38. On every run of the home page from its first render, the body
    cannot scroll ([overflow] "hidden") exactly while the mobile filters
    are open: opening them through the header locks it, and each way of
    closing them (the close button, Apply Filters, the header's toggle)
    unlocks it. *)
Theorem scroll_locked_iff_filters_open (es : list HomePageEvent) :
  bodyOverflow (doc_run initialDoc es) = "hidden" <->
  hp_mobile (doc_page (doc_run initialDoc es)) <> None.
Proof.
  change (locked_iff_open (doc_run initialDoc es)). unfold doc_run.
  assert (H0 : locked_iff_open initialDoc)
    by (unfold locked_iff_open; cbn; split; [discriminate | intros H; now contradiction H]).
  revert H0. generalize initialDoc. induction es as [|e es IH]; intros d Hd; [exact Hd|].
  apply IH. now apply doc_step_locked.
Qed.

End ScrollLock.
